(** * rag-mcp: conversation orchestration and knowledge-base tool index

    A shallow embedding of the Python package [chat] (chat_session.py,
    mcp_client.py, bedrock_client.py, chat_manager.py, retrieve.py,
    knowledge_base.py) and the properties its specification states.

    Conventions.
    - Python values that cross the JSON boundary are [PyValue]s.
    - A Python exception is an [Exc]: its class and the text [str(e)].
    - Code that mutates objects or talks to a collaborator runs in the
      state-and-exception monad [M S], where [S] is the world the code
      can touch.  A raised exception keeps the state changes made so far,
      as in Python.
    - A [while] loop is a [Fixpoint] on a fuel argument that tests the
      loop condition exactly as the source does; running out of fuel is
      the separate outcome [OutOfFuel], and the theorems show which fuel
      is enough.
    - The collaborators (the hosted LLM, the tool host, the object store,
      the retrieval service, the clock) are scripts and simple reference
      models; every definition says which. *)

From Stdlib Require Import ZArith String Ascii List Bool Lia Permutation.
From stdpp Require Import base option list strings pretty gmap fin_maps.
Import ListNotations.

Set Warnings "-register-all".

Local Open Scope string_scope.
Local Open Scope list_scope.
Local Open Scope Z_scope.

(** ** Python values *)

Inductive PyValue : Type :=
| PyNone
| PyBool (b : bool)
| PyInt (n : Z)
| PyFloat (literal : string)
| PyStr (s : string)
| PyList (items : list PyValue)
| PyDict (entries : list (string * PyValue)).

(** [isinstance(v, str)] and [isinstance(v, (dict, list))]. *)
Definition isinstance_str (v : PyValue) : bool :=
  match v with PyStr _ => true | _ => false end.

Definition isinstance_dict_or_list (v : PyValue) : bool :=
  match v with PyDict _ | PyList _ => true | _ => false end.

(** [d.get(k)] on the entries of a dict. *)
Fixpoint dict_get (k : string) (d : list (string * PyValue)) : option PyValue :=
  match d with
  | [] => None
  | (k', v) :: d' => if String.eqb k k' then Some v else dict_get k d'
  end.

(** The parts of the Python runtime the package calls and that are not
    part of the repository: [json.loads] ([None] stands for
    [json.JSONDecodeError]), [json.dumps(_, ensure_ascii=False)], and
    [repr], which [str] and f-strings use for every value that is not
    itself a string. *)
Class PyRuntime : Type := {
  json_loads : string -> option PyValue;
  json_dumps : PyValue -> string;
  py_repr : PyValue -> string
}.

(** [str(v)]: a string is returned as it is. *)
Definition py_str `{PyRuntime} (v : PyValue) : string :=
  match v with
  | PyStr s => s
  | _ => py_repr v
  end.

(** Truthiness of an [Optional[str]] and of an [Optional[dict]]. *)
Definition truthy_str (o : option string) : bool :=
  match o with
  | Some s => negb (String.eqb s "")
  | None => false
  end.

Definition truthy_dict (o : option (list (string * PyValue))) : bool :=
  match o with
  | Some (_ :: _) => true
  | _ => false
  end.


(** ** Exceptions *)

Inductive ExcClass : Type :=
| ChatError
| MCPToolError
| BedrockError
| KnowledgeBaseError
| ValueError
| JSONDecodeError
| TimeoutError
| AttributeError
| KeyError
| ClientError
| WaiterError
| OtherException (name : string).

Record Exc : Type := mkExc { exc_class : ExcClass; exc_msg : string }.

(** The class hierarchy of exceptions.py (and of the standard library for
    [JSONDecodeError]). *)
Definition subclass (c d : ExcClass) : bool :=
  match c, d with
  | ChatError, ChatError
  | MCPToolError, (MCPToolError | ChatError)
  | BedrockError, (BedrockError | ChatError)
  | KnowledgeBaseError, (KnowledgeBaseError | ChatError)
  | ValueError, ValueError
  | JSONDecodeError, (JSONDecodeError | ValueError)
  | TimeoutError, TimeoutError
  | AttributeError, AttributeError
  | KeyError, KeyError
  | ClientError, ClientError
  | WaiterError, WaiterError => true
  | OtherException a, OtherException b => String.eqb a b
  | _, _ => false
  end.

Definition isinstance_exc (e : Exc) (c : ExcClass) : bool :=
  subclass (exc_class e) c.

(** ** The state-and-exception monad *)

Inductive Res (A : Type) : Type :=
| Ok (a : A)
| Raise (e : Exc)
| OutOfFuel.

Arguments Ok {A} a.
Arguments Raise {A} e.
Arguments OutOfFuel {A}.

Definition M (S A : Type) : Type := S -> Res A * S.

Definition ret {S A} (a : A) : M S A := fun s => (Ok a, s).

Definition bind {S A B} (m : M S A) (k : A -> M S B) : M S B :=
  fun s =>
    match m s with
    | (Ok a, s') => k a s'
    | (Raise e, s') => (Raise e, s')
    | (OutOfFuel, s') => (OutOfFuel, s')
    end.

Definition raise {S A} (e : Exc) : M S A := fun s => (Raise e, s).

Definition out_of_fuel {S A} : M S A := fun s => (OutOfFuel, s).

Definition get {S} : M S S := fun s => (Ok s, s).

Definition modify {S} (f : S -> S) : M S unit := fun s => (Ok tt, f s).

(** [try: body  except <handled classes> as e: handler e]: [handler]
    answers [None] for an exception its clauses do not catch. *)
Definition try_except {S A} (body : M S A) (handler : Exc -> option (M S A)) : M S A :=
  fun s =>
    match body s with
    | (Raise e, s') =>
        match handler e with
        | Some h => h s'
        | None => (Raise e, s')
        end
    | r => r
    end.

(** [try: body  finally: cleanup], for a [cleanup] that does not raise. *)
Definition try_finally {S A} (body : M S A) (cleanup : M S unit) : M S A :=
  fun s =>
    let '(r, s') := body s in
    (r, snd (cleanup s')).

Declare Scope py_scope.
Delimit Scope py_scope with py.
Notation "x <~ c ;; k" := (bind c (fun x => k))
  (at level 100, c at next level, right associativity) : py_scope.
Notation "c ;;; k" := (bind c (fun _ => k))
  (at level 100, right associativity) : py_scope.
Local Open Scope py_scope.

(** [for x in xs: body x]. *)
Fixpoint for_each {S A} (xs : list A) (body : A -> M S unit) : M S unit :=
  match xs with
  | [] => ret tt
  | x :: xs' => body x ;;; for_each xs' body
  end.

(** ** chat_session.py *)

Module Session.

Record ToolUse : Type := {
  toolUseId : string;
  name : string;
  input : PyValue
}.

(** One entry of a tool result's ["content"] list: [{"text": s}] or
    [{"json": v}]. *)
Inductive ResultContent : Type :=
| RCText (s : string)
| RCJson (v : PyValue).

Record ToolResult : Type := {
  tr_toolUseId : string;
  tr_content : list ResultContent;
  tr_status : string
}.

(** A content block is a dict with one key: ["text"], ["toolUse"],
    ["toolResult"], or a key the package does not look at. *)
Inductive ContentBlock : Type :=
| BText (s : string)
| BToolUse (t : ToolUse)
| BToolResult (r : ToolResult)
| BOther (key : string) (v : PyValue).

Record Message : Type := {
  role : string;
  content : list ContentBlock
}.

Record ChatSession : Type := {
  messages : list Message;
  user_inputs : list string
}.

Definition init : ChatSession := {| messages := []; user_inputs := [] |}.

Definition add_user_message (text : string) (s : ChatSession) : ChatSession :=
  let message := {| role := "user"; content := [BText text] |} in
  {| messages := messages s ++ [message];
     user_inputs := user_inputs s ++ ["user: " +:+ text] |}.

Definition add_assistant_message (text : string) (s : ChatSession) : ChatSession :=
  let message := {| role := "assistant"; content := [BText text] |} in
  {| messages := messages s ++ [message];
     user_inputs := user_inputs s |}.

Definition add_tool_use (tool_use : ToolUse) (s : ChatSession) : ChatSession :=
  let message := {| role := "assistant"; content := [BToolUse tool_use] |} in
  {| messages := messages s ++ [message];
     user_inputs := user_inputs s |}.

(** The ["content"] list that [add_tool_result] builds. *)
Definition tool_result_content `{PyRuntime} (content : PyValue) (status : string)
  : list ResultContent :=
  if String.eqb status "success" && isinstance_str content then
    match content with
    | PyStr text =>
        match json_loads text with
        | Some _ => [RCText text]
        | None => [RCText text]
        end
    | _ => [RCText (py_str content)]
    end
  else if String.eqb status "success" && isinstance_dict_or_list content then
    [RCJson content]
  else
    [RCText (py_str content)].

Definition add_tool_result `{PyRuntime} (tool_use_id : string) (content : PyValue)
  (status : string) (s : ChatSession) : ChatSession :=
  let tool_result :=
    BToolResult {| tr_toolUseId := tool_use_id;
                   tr_content := tool_result_content content status;
                   tr_status := status |} in
  let message := {| role := "user"; content := [tool_result] |} in
  {| messages := messages s ++ [message];
     user_inputs := user_inputs s |}.

Definition get_messages (s : ChatSession) : list Message := messages s.


Definition get_conversation_context (s : ChatSession) : string :=
  String.concat (String (ascii_of_nat 10) "") (user_inputs s).

Definition clear (s : ChatSession) : ChatSession :=
  {| messages := []; user_inputs := [] |}.






End Session.

(** ** mcp_client.py, bedrock_client.py and chat_manager.py *)

Module Chat.
Import Session.

(** *** What the collaborators send *)

(** A tool host's answer to [call_tool]: the [isError] flag and the
    content items, of which the package reads the [TextContent] ones. *)
Inductive HostContent : Type :=
| TextContent (text : string)
| OtherContent (kind : string).

Record CallToolResult : Type := {
  isError : bool;
  result_content : list HostContent
}.

Inductive HostOutcome : Type :=
| HostReturns (r : CallToolResult)
| HostRaises (e : Exc).

(** The request [BedrockClient.converse] builds; ["toolConfig"] is a key
    that may be absent. *)
Record Request : Type := {
  modelId : string;
  req_messages : list Message;
  maxTokens : Z;
  temperature : string;
  toolConfig : option (list (string * PyValue))
}.

(** The reply of the hosted LLM.  The ["content"] of the output message
    and the usage counters are keys that may be absent. *)
Record OutputMessage : Type := {
  om_role : string;
  om_content : option (list ContentBlock)
}.

Record UsageCounters : Type := {
  inputTokens : option Z;
  outputTokens : option Z;
  totalTokens : option Z
}.

Record Response : Type := {
  output_message : OutputMessage;
  stopReason : string;
  usage : option UsageCounters
}.

Inductive LLMOutcome : Type :=
| LLMReturns (r : Response)
| LLMRaises (e : Exc).

(** *** Configuration, environment and world *)

Record BedrockConfig : Type := {
  default_model_id : string;
  max_tokens : Z;
  cfg_temperature : string
}.

(** The hosted LLM and the tool host are scripts: the answer to the
    [n]-th call (counted from 0) may depend on [n] and on what is sent. *)
Record Env : Type := {
  bedrock_config : BedrockConfig;
  llm_api : nat -> Request -> LLMOutcome;
  tool_host : nat -> string -> PyValue -> HostOutcome
}.

(** What a turn can read and change: the manager's session and
    [_tool_config], whether the MCP client of the manager (set by
    [initialize]) holds a protocol session, and the requests sent so far
    to the two collaborators (oldest first).  [get_messages] returns the
    list object of the session itself; a request is sent before the next
    append, so the log holds the messages as they were when sent. *)
Record World : Type := {
  session : ChatSession;
  _tool_config : option (list (string * PyValue));
  mcp_session : bool;
  llm_log : list Request;
  tool_log : list (string * PyValue)
}.

Definition update_session (f : ChatSession -> ChatSession) : M World unit :=
  modify (fun w =>
    {| session := f (session w);
       _tool_config := _tool_config w;
       mcp_session := mcp_session w;
       llm_log := llm_log w;
       tool_log := tool_log w |}).

(** [self.client.converse] on the request parameters: the hosted LLM is
    asked. *)
Definition client_converse (env : Env) (request : Request) : M World Response :=
  fun w =>
    let w' := {| session := session w;
                 _tool_config := _tool_config w;
                 mcp_session := mcp_session w;
                 llm_log := llm_log w ++ [request];
                 tool_log := tool_log w |} in
    match llm_api env (length (llm_log w)) request with
    | LLMReturns r => (Ok r, w')
    | LLMRaises e => (Raise e, w')
    end.

(** [self._session.call_tool(tool_name, arguments=arguments)]: the tool
    host is asked. *)
Definition session_call_tool (env : Env) (tool_name : string) (arguments : PyValue)
  : M World CallToolResult :=
  fun w =>
    let w' := {| session := session w;
                 _tool_config := _tool_config w;
                 mcp_session := mcp_session w;
                 llm_log := llm_log w;
                 tool_log := tool_log w ++ [(tool_name, arguments)] |} in
    match tool_host env (length (tool_log w)) tool_name arguments with
    | HostReturns r => (Ok r, w')
    | HostRaises e => (Raise e, w')
    end.

(** *** MCPClient *)

Definition call_tool (env : Env) (tool_name : string) (arguments : PyValue)
  : M World CallToolResult :=
  w <~ get ;;
  if negb (mcp_session w) then
    raise (mkExc MCPToolError "MCP session not initialized")
  else
    try_except
      (result <~ session_call_tool env tool_name arguments ;;
       if isError result then
         raise (mkExc MCPToolError ("Tool " +:+ tool_name +:+ " execution failed"))
       else ret result)
      (fun e =>
         Some (raise (mkExc MCPToolError
                 ("Failed to call tool " +:+ tool_name +:+ ": " +:+ exc_msg e)))).

(** [MCPClient.extract_text_content]: the first text item, if any. *)
Fixpoint extract_text_content (items : list HostContent) : option string :=
  match items with
  | [] => None
  | TextContent text :: _ => Some text
  | OtherContent _ :: rest => extract_text_content rest
  end.

(** *** BedrockClient *)

(** The [request_params] of [BedrockClient.converse], called as the
    manager calls it, without [max_tokens] and [temperature]: both come
    from the configuration, and ["toolConfig"] is set for a tool
    configuration that is not empty. *)
Definition request_params (env : Env) (messages : list Message)
  (model_id : option string) (tool_config : option (list (string * PyValue)))
  : Request :=
  {| modelId := if truthy_str model_id then default "" model_id
                else default_model_id (bedrock_config env);
     req_messages := messages;
     maxTokens := max_tokens (bedrock_config env);
     temperature := cfg_temperature (bedrock_config env);
     toolConfig := if truthy_dict tool_config then tool_config else None |}.

Definition converse (env : Env) (messages : list Message) (model_id : option string)
  (tool_config : option (list (string * PyValue))) : M World Response :=
  try_except
    (client_converse env (request_params env messages model_id tool_config))
    (fun e =>
       if isinstance_exc e ClientError then
         Some (raise (mkExc BedrockError ("Bedrock API error: " +:+ exc_msg e)))
       else
         Some (raise (mkExc BedrockError ("Unexpected error: " +:+ exc_msg e)))).

Record UsageInfo : Type := {
  input_tokens : Z;
  output_tokens : Z;
  total_tokens : Z
}.

Definition get_usage_info (response : Response) : UsageInfo :=
  match usage response with
  | Some u =>
      {| input_tokens := default 0 (inputTokens u);
         output_tokens := default 0 (outputTokens u);
         total_tokens := default 0 (totalTokens u) |}
  | None => {| input_tokens := 0; output_tokens := 0; total_tokens := 0 |}
  end.

Definition add_usage (total current : UsageInfo) : UsageInfo :=
  {| input_tokens := input_tokens total + input_tokens current;
     output_tokens := output_tokens total + output_tokens current;
     total_tokens := total_tokens total + total_tokens current |}.

(** *** ChatManager *)

(** The dict a turn returns, with the keys ['text'], ['usage'],
    ['stop_reason'], ['tool_rounds'] and ['max_rounds_reached']; the last
    one is present only on the path that sets it. *)
Record TurnResult : Type := {
  res_text : option string;
  res_usage : UsageInfo;
  res_stop_reason : string;
  res_tool_rounds : Z;
  res_max_rounds_reached : option bool
}.

Definition text_parts (blocks : list ContentBlock) : list string :=
  omap (fun b => match b with BText s => Some s | _ => None end) blocks.

Definition _extract_text_content (message : OutputMessage) : option string :=
  match text_parts (default [] (om_content message)) with
  | [] => None
  | parts => Some (String.concat "" parts)
  end.

Definition tool_requests (blocks : list ContentBlock) : list ToolUse :=
  omap (fun b => match b with BToolUse t => Some t | _ => None end) blocks.

(** [tool_config or self._tool_config]. *)
Definition effective_tool_config (tool_config : option (list (string * PyValue)))
  (w : World) : option (list (string * PyValue)) :=
  if truthy_dict tool_config then tool_config else _tool_config w.

(** The body of the [for tool_request in tool_requests] loop. *)
Definition handle_one_tool `{PyRuntime} (env : Env) (tool : ToolUse) : M World unit :=
  let tool_name := name tool in
  let tool_use_id := toolUseId tool in
  let parameters := input tool in
  update_session (add_tool_use tool) ;;;
  try_except
    (result <~ call_tool env tool_name parameters ;;
     let text_content := extract_text_content (result_content result) in
     if truthy_str text_content then
       match json_loads (default "" text_content) with
       | Some processed_result =>
           update_session (add_tool_result tool_use_id processed_result "success")
       | None =>
           update_session
             (add_tool_result tool_use_id (PyStr (default "" text_content)) "success")
       end
     else
       let error_msg := "Tool " +:+ tool_name +:+ " didn't return text content" in
       update_session (add_tool_result tool_use_id (PyStr error_msg) "error"))
    (fun e =>
       if isinstance_exc e MCPToolError then
         let error_msg := "Tool " +:+ tool_name +:+ " failed: " +:+ exc_msg e in
         Some (update_session (add_tool_result tool_use_id (PyStr error_msg) "error"))
       else None).

Definition _handle_tool_use `{PyRuntime} (env : Env) (output_message : OutputMessage)
  : M World unit :=
  match om_content output_message with
  | None => raise (mkExc KeyError "'content'")
  | Some blocks => for_each (tool_requests blocks) (handle_one_tool env)
  end.

(** How the [while tool_rounds < max_tool_rounds] loop is left: by its
    [return], or by its condition. *)
Inductive LoopExit : Type :=
| Returned (r : TurnResult)
| LimitReached (tool_rounds : Z) (total_usage : UsageInfo).

Fixpoint rounds_loop `{PyRuntime} (env : Env) (model_id : option string)
  (tool_config : option (list (string * PyValue))) (max_tool_rounds : Z)
  (fuel : nat) (tool_rounds : Z) (total_usage : UsageInfo) : M World LoopExit :=
  if tool_rounds <? max_tool_rounds then
    match fuel with
    | O => out_of_fuel
    | S fuel' =>
        w <~ get ;;
        let messages := get_messages (session w) in
        response <~ converse env messages model_id (effective_tool_config tool_config w) ;;
        let total_usage := add_usage total_usage (get_usage_info response) in
        let output_message := output_message response in
        let stop_reason := stopReason response in
        let response_text := _extract_text_content output_message in
        (if truthy_str response_text then
           update_session (add_assistant_message (default "" response_text))
         else ret tt) ;;;
        if String.eqb stop_reason "tool_use" then
          let tool_rounds := tool_rounds + 1 in
          _handle_tool_use env output_message ;;;
          rounds_loop env model_id tool_config max_tool_rounds fuel' tool_rounds total_usage
        else
          ret (Returned {| res_text := response_text;
                           res_usage := total_usage;
                           res_stop_reason := stop_reason;
                           res_tool_rounds := tool_rounds;
                           res_max_rounds_reached := None |})
    end
  else ret (LimitReached tool_rounds total_usage).

Definition zero_usage : UsageInfo :=
  {| input_tokens := 0; output_tokens := 0; total_tokens := 0 |}.

(** The code after the loop: the [return] of the loop is passed on, and
    at the round limit one final request is made. *)
Definition final_call `{PyRuntime} (env : Env) (model_id : option string)
  (tool_config : option (list (string * PyValue))) (exit : LoopExit)
  : M World TurnResult :=
  match exit with
  | Returned r => ret r
  | LimitReached tool_rounds total_usage =>
      w <~ get ;;
      let messages := get_messages (session w) in
      final_response <~ converse env messages model_id (effective_tool_config tool_config w) ;;
      let total_usage := add_usage total_usage (get_usage_info final_response) in
      let final_output := output_message final_response in
      let final_text := _extract_text_content final_output in
      (if truthy_str final_text then
         update_session (add_assistant_message (default "" final_text))
       else ret tt) ;;;
      ret {| res_text := final_text;
             res_usage := total_usage;
             res_stop_reason := stopReason final_response;
             res_tool_rounds := tool_rounds;
             res_max_rounds_reached := Some true |}
  end.

Definition _generate_response_with_tools `{PyRuntime} (env : Env) (fuel : nat)
  (model_id : option string) (tool_config : option (list (string * PyValue)))
  (max_tool_rounds : Z) : M World TurnResult :=
  exit <~ rounds_loop env model_id tool_config max_tool_rounds fuel 0 zero_usage ;;
  final_call env model_id tool_config exit.

(** *** Vocabulary of the statements *)

(** What is attached to a request as ["toolConfig"] during a turn that
    starts in [w]. *)
Definition attached (tool_config : option (list (string * PyValue))) (w : World)
  : option (list (string * PyValue)) :=
  if truthy_dict (effective_tool_config tool_config w)
  then effective_tool_config tool_config w else None.

(** The world after [if response_text: add_assistant_message(response_text)]. *)
Definition after_text (response_text : option string) (w : World) : World :=
  if truthy_str response_text
  then snd (update_session (add_assistant_message (default "" response_text)) w)
  else w.

(** The tool host reports a failure: the error flag, or an exception. *)
Definition host_fails (o : HostOutcome) : Prop :=
  match o with
  | HostReturns r => isError r = true
  | HostRaises _ => True
  end.

(** The text of the exception that reaches [call_tool]'s handler then. *)
Definition failure_text (tool_name : string) (o : HostOutcome) : string :=
  match o with
  | HostReturns _ => "Tool " +:+ tool_name +:+ " execution failed"
  | HostRaises e => exc_msg e
  end.



(** The two messages a failed tool invocation leaves in the session. *)
Definition tool_use_message (tool : ToolUse) : Message :=
  {| role := "assistant"; content := [BToolUse tool] |}.

Definition error_result_message (tool : ToolUse) (error_msg : string) : Message :=
  {| role := "user";
     content := [BToolResult {| tr_toolUseId := toolUseId tool;
                                tr_content := [RCText error_msg];
                                tr_status := "error" |}] |}.

End Chat.

(** ** A reference runtime for the examples

    A small JSON codec and [repr], written after the behaviour of CPython
    on the values the examples use: [None], booleans, numbers (a float is
    kept as its literal), strings of printable ASCII and the one-letter
    escapes, lists, and dicts with distinct keys.  The theorems hold for every [PyRuntime]; this instance is what
    the closed examples run on. *)

Module Ref.

Definition char_of (n : nat) : ascii := ascii_of_nat n.

Definition str1 (c : ascii) : string := String c "".

Definition hex_digit (n : nat) : ascii :=
  if (n <? 10)%nat then char_of (48 + n) else char_of (87 + n).

Definition hex2 (n : nat) : string :=
  String (hex_digit (n / 16)) (str1 (hex_digit (n mod 16))).

Definition join (sep : string) (parts : list string) : string :=
  String.concat sep parts.

(** *** [json.dumps] *)

Definition dumps_char (c : ascii) : string :=
  let n := nat_of_ascii c in
  if (n =? 34)%nat then "\" +:+ str1 c
  else if (n =? 92)%nat then "\\"
  else if (n =? 10)%nat then "\n"
  else if (n =? 13)%nat then "\r"
  else if (n =? 9)%nat then "\t"
  else if (n =? 8)%nat then "\b"
  else if (n =? 12)%nat then "\f"
  else if (n <? 32)%nat then "\u00" +:+ hex2 n
  else str1 c.

Fixpoint dumps_chars (s : string) : string :=
  match s with
  | EmptyString => ""
  | String c rest => dumps_char c +:+ dumps_chars rest
  end.

Definition dumps_string (s : string) : string :=
  str1 (char_of 34) +:+ dumps_chars s +:+ str1 (char_of 34).

Fixpoint dumps (v : PyValue) : string :=
  match v with
  | PyNone => "null"
  | PyBool true => "true"
  | PyBool false => "false"
  | PyInt n => pretty n
  | PyFloat literal => literal
  | PyStr s => dumps_string s
  | PyList items => "[" +:+ join ", " (map dumps items) +:+ "]"
  | PyDict entries =>
      "{" +:+ join ", " (map (fun kv => dumps_string (fst kv) +:+ ": " +:+ dumps (snd kv))
                            entries) +:+ "}"
  end.

(** *** [json.loads] *)

Definition is_ws (c : ascii) : bool :=
  let n := nat_of_ascii c in
  (n =? 32)%nat || (n =? 9)%nat || (n =? 10)%nat || (n =? 13)%nat.

Definition is_digit (c : ascii) : bool :=
  let n := nat_of_ascii c in (48 <=? n)%nat && (n <=? 57)%nat.

Fixpoint skip_ws (s : string) : string :=
  match s with
  | String c rest => if is_ws c then skip_ws rest else s
  | EmptyString => s
  end.

Fixpoint strip_prefix (p s : string) : option string :=
  match p, s with
  | EmptyString, _ => Some s
  | String a p', String b s' => if Ascii.eqb a b then strip_prefix p' s' else None
  | _, EmptyString => None
  end.

(** The characters of a string literal after the opening quote, up to the
    closing quote. *)
Fixpoint loads_chars (s : string) : option (string * string) :=
  match s with
  | EmptyString => None
  | String c rest =>
      let n := nat_of_ascii c in
      if (n =? 34)%nat then Some ("", rest)
      else if (n <? 32)%nat then None
      else if (n =? 92)%nat then
        match rest with
        | String e rest' =>
            let m := nat_of_ascii e in
            let unescaped :=
              if (m =? 34)%nat then Some (char_of 34)
              else if (m =? 92)%nat then Some (char_of 92)
              else if (m =? 47)%nat then Some (char_of 47)
              else if (m =? 98)%nat then Some (char_of 8)
              else if (m =? 102)%nat then Some (char_of 12)
              else if (m =? 110)%nat then Some (char_of 10)
              else if (m =? 114)%nat then Some (char_of 13)
              else if (m =? 116)%nat then Some (char_of 9)
              else None in
            match unescaped with
            | Some u =>
                match loads_chars rest' with
                | Some (body, after) => Some (String u body, after)
                | None => None
                end
            | None => None
            end
        | EmptyString => None
        end
      else
        match loads_chars rest with
        | Some (body, after) => Some (String c body, after)
        | None => None
        end
  end.

Fixpoint take_digits (s : string) : string * string :=
  match s with
  | String c rest =>
      if is_digit c then let '(d, after) := take_digits rest in (String c d, after)
      else ("", s)
  | EmptyString => ("", s)
  end.

Fixpoint digits_value (s : string) (acc : Z) : Z :=
  match s with
  | String c rest => digits_value rest (10 * acc + Z.of_nat (nat_of_ascii c - 48))
  | EmptyString => acc
  end.

(** The fraction and the exponent of a number literal, if any. *)
Definition take_fraction (s : string) : option (string * string) :=
  match s with
  | String c rest =>
      if Ascii.eqb c (char_of 46) then
        match take_digits rest with
        | (EmptyString, _) => None
        | (ds, after) => Some (String c ds, after)
        end
      else Some ("", s)
  | EmptyString => Some ("", s)
  end.

Definition take_exponent (s : string) : option (string * string) :=
  match s with
  | String c rest =>
      if Ascii.eqb c (char_of 101) || Ascii.eqb c (char_of 69) then
        let '(sign, rest1) :=
          match rest with
          | String g rest' =>
              if Ascii.eqb g (char_of 43) || Ascii.eqb g (char_of 45)
              then (str1 g, rest') else ("", rest)
          | EmptyString => ("", rest)
          end in
        match take_digits rest1 with
        | (EmptyString, _) => None
        | (ds, after) => Some (String c (sign +:+ ds), after)
        end
      else Some ("", s)
  | EmptyString => Some ("", s)
  end.

(** A number literal: an integer, or a float kept as its literal. *)
Definition loads_number (s : string) : option (PyValue * string) :=
  let '(sign, s1) :=
    match s with
    | String c rest => if Ascii.eqb c (char_of 45) then ("-", rest) else ("", s)
    | EmptyString => ("", s)
    end in
  match take_digits s1 with
  | (EmptyString, _) => None
  | (String d ds as digits, after) =>
      if Ascii.eqb d (char_of 48) && negb (String.eqb ds "") then None
      else
        match take_fraction after with
        | Some (fraction, after1) =>
            match take_exponent after1 with
            | Some (exponent, after2) =>
                if String.eqb fraction "" && String.eqb exponent "" then
                  Some (PyInt (if String.eqb sign "" then digits_value digits 0
                               else - digits_value digits 0), after2)
                else Some (PyFloat (sign +:+ digits +:+ fraction +:+ exponent), after2)
            | None => None
            end
        | None => None
        end
  end.

Fixpoint loads_value (fuel : nat) (s : string) {struct fuel}
  : option (PyValue * string) :=
  match fuel with
  | O => None
  | S fuel' =>
      match skip_ws s with
      | EmptyString => None
      | String c rest as s1 =>
          let n := nat_of_ascii c in
          if (n =? 34)%nat then
            match loads_chars rest with
            | Some (body, after) => Some (PyStr body, after)
            | None => None
            end
          else if (n =? 91)%nat then
            match skip_ws rest with
            | String c' rest' as s2 =>
                if Ascii.eqb c' (char_of 93) then Some (PyList [], rest')
                else loads_items fuel' s2 []
            | EmptyString => None
            end
          else if (n =? 123)%nat then
            match skip_ws rest with
            | String c' rest' as s2 =>
                if Ascii.eqb c' (char_of 125) then Some (PyDict [], rest')
                else loads_entries fuel' s2 []
            | EmptyString => None
            end
          else
            match strip_prefix "null" s1, strip_prefix "true" s1, strip_prefix "false" s1 with
            | Some after, _, _ => Some (PyNone, after)
            | _, Some after, _ => Some (PyBool true, after)
            | _, _, Some after => Some (PyBool false, after)
            | _, _, _ => loads_number s1
            end
      end
  end
with loads_items (fuel : nat) (s : string) (acc : list PyValue) {struct fuel}
  : option (PyValue * string) :=
  match fuel with
  | O => None
  | S fuel' =>
      match loads_value fuel' s with
      | Some (v, after) =>
          match skip_ws after with
          | String c rest =>
              if Ascii.eqb c (char_of 44) then loads_items fuel' rest (v :: acc)
              else if Ascii.eqb c (char_of 93) then Some (PyList (rev (v :: acc)), rest)
              else None
          | EmptyString => None
          end
      | None => None
      end
  end
with loads_entries (fuel : nat) (s : string) (acc : list (string * PyValue))
  {struct fuel} : option (PyValue * string) :=
  match fuel with
  | O => None
  | S fuel' =>
      match skip_ws s with
      | String q rest =>
          if Ascii.eqb q (char_of 34) then
            match loads_chars rest with
            | Some (key, after_key) =>
                match skip_ws after_key with
                | String colon after_colon =>
                    if Ascii.eqb colon (char_of 58) then
                      match loads_value fuel' after_colon with
                      | Some (v, after) =>
                          match skip_ws after with
                          | String c rest' =>
                              if Ascii.eqb c (char_of 44)
                              then loads_entries fuel' rest' ((key, v) :: acc)
                              else if Ascii.eqb c (char_of 125)
                              then Some (PyDict (rev ((key, v) :: acc)), rest')
                              else None
                          | EmptyString => None
                          end
                      | None => None
                      end
                    else None
                | EmptyString => None
                end
            | None => None
            end
          else None
      | EmptyString => None
      end
  end.

Definition loads (s : string) : option PyValue :=
  match loads_value (2 * String.length s + 2) s with
  | Some (v, after) =>
      match skip_ws after with
      | EmptyString => Some v
      | String _ _ => None
      end
  | None => None
  end.

(** *** [repr] *)

Fixpoint has_char (n : nat) (s : string) : bool :=
  match s with
  | String c rest => (nat_of_ascii c =? n)%nat || has_char n rest
  | EmptyString => false
  end.

Definition repr_char (quote : nat) (c : ascii) : string :=
  let n := nat_of_ascii c in
  if (n =? 92)%nat then "\\"
  else if (n =? quote)%nat then "\" +:+ str1 c
  else if (n =? 10)%nat then "\n"
  else if (n =? 13)%nat then "\r"
  else if (n =? 9)%nat then "\t"
  else if (n <? 32)%nat || (n =? 127)%nat then "\x" +:+ hex2 n
  else str1 c.

Fixpoint repr_chars (quote : nat) (s : string) : string :=
  match s with
  | EmptyString => ""
  | String c rest => repr_char quote c +:+ repr_chars quote rest
  end.

Definition repr_string (s : string) : string :=
  let quote := if has_char 39 s && negb (has_char 34 s) then 34%nat else 39%nat in
  str1 (char_of quote) +:+ repr_chars quote s +:+ str1 (char_of quote).

Fixpoint repr (v : PyValue) : string :=
  match v with
  | PyNone => "None"
  | PyBool true => "True"
  | PyBool false => "False"
  | PyInt n => pretty n
  | PyFloat literal => literal
  | PyStr s => repr_string s
  | PyList items => "[" +:+ join ", " (map repr items) +:+ "]"
  | PyDict entries =>
      "{" +:+ join ", " (map (fun kv => repr_string (fst kv) +:+ ": " +:+ repr (snd kv))
                            entries) +:+ "}"
  end.

Definition runtime : PyRuntime :=
  {| json_loads := loads; json_dumps := dumps; py_repr := repr |}.

End Ref.

(** ** retrieve.py and knowledge_base.py *)

Module KB.

(** *** More of Python *)

Definition py_type_name (v : PyValue) : string :=
  match v with
  | PyNone => "NoneType"
  | PyBool _ => "bool"
  | PyInt _ => "int"
  | PyFloat _ => "float"
  | PyStr _ => "str"
  | PyList _ => "list"
  | PyDict _ => "dict"
  end.

(** [v[k]] for a string key. *)
Definition getitem {S} (v : PyValue) (k : string) : M S PyValue :=
  match v with
  | PyDict d =>
      match dict_get k d with
      | Some x => ret x
      | None => raise (mkExc KeyError ("'" +:+ k +:+ "'"))
      end
  | _ =>
      raise (mkExc (OtherException "TypeError")
               ("'" +:+ py_type_name v +:+ "' object is not subscriptable"))
  end.

(** [v.get(k, fallback)]: only a dict has the method. *)
Definition get_method {S} (v : PyValue) (k : string) (fallback : PyValue)
  : M S PyValue :=
  match v with
  | PyDict d => ret (default fallback (dict_get k d))
  | _ =>
      raise (mkExc AttributeError
               ("'" +:+ py_type_name v +:+ "' object has no attribute 'get'"))
  end.

(** A float literal denotes zero when its mantissa has no other digit. *)
Fixpoint zero_mantissa (s : string) : bool :=
  match s with
  | EmptyString => true
  | String c rest =>
      let n := nat_of_ascii c in
      if (n =? 101)%nat || (n =? 69)%nat then true
      else if (49 <=? n)%nat && (n <=? 57)%nat then false
      else zero_mantissa rest
  end.

(** [bool(v)]. *)
Definition py_truthy (v : PyValue) : bool :=
  match v with
  | PyNone => false
  | PyBool b => b
  | PyInt n => negb (n =? 0)
  | PyFloat literal => negb (zero_mantissa literal)
  | PyStr s => negb (String.eqb s "")
  | PyList items => match items with [] => false | _ => true end
  | PyDict entries => match entries with [] => false | _ => true end
  end.

Fixpoint chars_of (s : string) : list PyValue :=
  match s with
  | EmptyString => []
  | String c rest => PyStr (String c "") :: chars_of rest
  end.

(** What [for x in v] goes through; [None] when [v] is not iterable. *)
Definition py_iter (v : PyValue) : option (list PyValue) :=
  match v with
  | PyList items => Some items
  | PyDict entries => Some (map (fun kv => PyStr (fst kv)) entries)
  | PyStr s => Some (chars_of s)
  | _ => None
  end.

Definition newline : string := String (ascii_of_nat 10) "".

(** [os.path.basename]: what follows the last slash. *)
Fixpoint basename_from (path current : string) : string :=
  match path with
  | EmptyString => current
  | String c rest =>
      if Ascii.eqb c (ascii_of_nat 47) then basename_from rest ""
      else basename_from rest (current +:+ String c "")
  end.

Definition basename (path : string) : string := basename_from path "".

(** *** The collaborators *)

(** The calls the package makes to the object store, the ingestion and
    retrieval service and the local file system. *)
Inductive Event : Type :=
| ListObjects (prefix : string)
| DeleteObjects (keys : list string)
| WaitObjectNotExists (key : string)
| CreateTempFile (path : string)
| UploadFile (path key : string)
| WaitObjectExists (key : string)
| StartIngestionJob
| GetIngestionJob (job_id : PyValue)
| Retrieve (query_text : string) (number_of_results : Z).

(** The fields of a [BedrockKnowledgeBaseTools] object, and the scripts of
    its collaborators:
    - [temp_path n] is the path of the [n]-th temporary file;
    - [fault n] is the exception, if any, that the [n]-th call to a
      collaborator ends with, in place of its effect;
    - [job_name n] is the id the service gives to the [n]-th job, and
      [job_reply n] its answer to the [n]-th status request, which takes
      [poll_duration n] ticks of the clock;
    - [chunker] cuts the body of an object into the chunks the service
      indexes, and [retrieve_api] answers a query on the indexed chunks;
    - the clock counts ticks, [ticks_per_second] to a second. *)
Record Env : Type := {
  knowledge_base_id : string;
  data_source_id : string;
  s3_bucket : string;
  s3_prefix : string;
  temp_path : nat -> string;
  fault : nat -> option Exc;
  job_name : nat -> string;
  job_reply : nat -> PyValue;
  poll_duration : nat -> Z;
  ticks_per_second : Z;
  chunker : string -> list string;
  retrieve_api : list string -> string -> Z -> PyValue
}.

(** The world: the objects of the bucket, the local files, the chunks
    handed to the latest ingestion job and the chunks the index serves,
    counters for the scripts, the clock, and the calls made so far
    (oldest first). *)
Record World : Type := {
  s3 : gmap string string;
  files : gmap string string;
  temp_files : nat;
  staged : list string;
  index : list string;
  jobs : nat;
  polls : nat;
  clock : Z;
  trace : list Event
}.

Definition set_s3 (m : gmap string string) (w : World) : World :=
  {| s3 := m; files := files w; temp_files := temp_files w; staged := staged w;
     index := index w; jobs := jobs w; polls := polls w; clock := clock w;
     trace := trace w |}.

Definition set_files (m : gmap string string) (w : World) : World :=
  {| s3 := s3 w; files := m; temp_files := temp_files w; staged := staged w;
     index := index w; jobs := jobs w; polls := polls w; clock := clock w;
     trace := trace w |}.

Definition set_clock (t : Z) (w : World) : World :=
  {| s3 := s3 w; files := files w; temp_files := temp_files w; staged := staged w;
     index := index w; jobs := jobs w; polls := polls w; clock := t;
     trace := trace w |}.

Definition log_event (ev : Event) (w : World) : World :=
  {| s3 := s3 w; files := files w; temp_files := temp_files w; staged := staged w;
     index := index w; jobs := jobs w; polls := polls w; clock := clock w;
     trace := trace w ++ [ev] |}.

(** A call to a collaborator: it is recorded, and it either fails as the
    script says or has its effect. *)
Definition collaborator {A} (env : Env) (ev : Event) (effect : M World A) : M World A :=
  fun w =>
    match fault env (length (trace w)) with
    | Some e => (Raise e, log_event ev w)
    | None => effect (log_event ev w)
    end.

(** **** The object store

    One bucket; a listing returns every key under the prefix in one page
    (an empty list stands for a response without ["Contents"]); a delete
    removes the keys; the waiters look at the store once. *)

Definition under_prefix (p : string) (kv : string * string) : Prop :=
  String.prefix p (fst kv) = true.

#[global] Instance under_prefix_dec (p : string) (kv : string * string)
  : Decision (under_prefix p kv).
Proof. unfold under_prefix. apply _. Defined.

(** The objects of the corpus: those under the prefix. *)
Definition corpus (env : Env) (w : World) : gmap string string :=
  filter (under_prefix (s3_prefix env)) (s3 w).

Definition list_objects_v2 (env : Env) : M World (list string) :=
  collaborator env (ListObjects (s3_prefix env))
    (fun w => (Ok (map fst (map_to_list (corpus env w))), w)).

Definition delete_objects (env : Env) (keys : list string) : M World unit :=
  collaborator env (DeleteObjects keys)
    (fun w => (Ok tt, set_s3 (foldr delete (s3 w) keys) w)).

Definition wait_object_not_exists (env : Env) (key : string) : M World unit :=
  collaborator env (WaitObjectNotExists key)
    (fun w =>
       match s3 w !! key with
       | Some _ =>
           (Raise (mkExc WaiterError "Waiter ObjectNotExists failed: Max attempts exceeded"), w)
       | None => (Ok tt, w)
       end).

Definition upload_file (env : Env) (file_path key : string) : M World unit :=
  collaborator env (UploadFile file_path key)
    (fun w =>
       match files w !! file_path with
       | Some body => (Ok tt, set_s3 (<[key := body]> (s3 w)) w)
       | None =>
           (Raise (mkExc (OtherException "FileNotFoundError")
                     ("[Errno 2] No such file or directory: '" +:+ file_path +:+ "'")), w)
       end).

Definition wait_object_exists (env : Env) (key : string) : M World unit :=
  collaborator env (WaitObjectExists key)
    (fun w =>
       match s3 w !! key with
       | Some _ => (Ok tt, w)
       | None =>
           (Raise (mkExc WaiterError "Waiter ObjectExists failed: Max attempts exceeded"), w)
       end).

(** **** The ingestion and retrieval service

    After the data model of the specification: a started job takes the
    chunks of the corpus as it is then, and the index serves them from
    the moment the job is seen complete. *)

Definition corpus_chunks (env : Env) (w : World) : list string :=
  flat_map (fun kv => chunker env (snd kv)) (map_to_list (corpus env w)).

Definition start_ingestion_job (env : Env) : M World PyValue :=
  collaborator env StartIngestionJob
    (fun w =>
       (Ok (PyDict [("ingestionJob",
                     PyDict [("ingestionJobId", PyStr (job_name env (jobs w)));
                             ("status", PyStr "STARTING")])]),
        {| s3 := s3 w; files := files w; temp_files := temp_files w;
           staged := corpus_chunks env w;
           index := index w; jobs := S (jobs w); polls := polls w; clock := clock w;
           trace := trace w |})).

Definition reply_status (reply : PyValue) : option PyValue :=
  match reply with
  | PyDict d =>
      match dict_get "ingestionJob" d with
      | Some (PyDict job) => dict_get "status" job
      | _ => None
      end
  | _ => None
  end.

Definition is_str (v : option PyValue) (s : string) : bool :=
  match v with
  | Some (PyStr t) => String.eqb t s
  | _ => false
  end.

Definition get_ingestion_job (env : Env) (job_id : PyValue) : M World PyValue :=
  fun w =>
    let w1 := log_event (GetIngestionJob job_id) w in
    let w2 :=
      {| s3 := s3 w1; files := files w1; temp_files := temp_files w1;
         staged := staged w1; index := index w1; jobs := jobs w1;
         polls := S (polls w1); clock := clock w1 + poll_duration env (polls w1);
         trace := trace w1 |} in
    match fault env (length (trace w)) with
    | Some e => (Raise e, w2)
    | None =>
        let reply := job_reply env (polls w) in
        (Ok reply,
         if is_str (reply_status reply) "COMPLETE" then
           {| s3 := s3 w2; files := files w2; temp_files := temp_files w2;
              staged := staged w2; index := staged w2; jobs := jobs w2;
              polls := polls w2; clock := clock w2; trace := trace w2 |}
         else w2)
    end.

Definition retrieve (env : Env) (query_text : string) (number_of_results : Z)
  : M World PyValue :=
  collaborator env (Retrieve query_text number_of_results)
    (fun w => (Ok (retrieve_api env (index w) query_text number_of_results), w)).

(** **** The clock *)

Definition time_time : M World Z := fun w => (Ok (clock w), w).

Definition time_sleep (env : Env) (seconds : Z) : M World unit :=
  fun w =>
    if seconds <? 0 then
      (Raise (mkExc ValueError "sleep length must be non-negative"), w)
    else (Ok tt, set_clock (clock w + seconds * ticks_per_second env) w).

(** *** BedrockKnowledgeBaseTools *)

Record IngestionJobResult : Type := {
  job_id : PyValue;
  status : PyValue;
  response : PyValue
}.

Record QueryResult : Type := {
  tools : list PyValue;
  total_results : Z
}.

(** The waits of [clear_knowledge_base_chunks]: a failed wait is logged
    and the loop goes on. *)
Definition wait_deleted (env : Env) (key : string) : M World unit :=
  try_except (wait_object_not_exists env key) (fun e => Some (ret tt)).

Definition clear_knowledge_base_chunks (env : Env) : M World bool :=
  try_except
    (keys <~ list_objects_v2 env ;;
     match keys with
     | [] => ret true
     | _ =>
         delete_objects env keys ;;;
         for_each keys (wait_deleted env) ;;;
         ret true
     end)
    (fun e =>
       Some (raise (mkExc KnowledgeBaseError
               ("Failed to clear Knowledge Base chunks: " +:+ exc_msg e)))).

(** The text written to the temporary file: one line for each tool. *)
Definition jsonl `{PyRuntime} (tools : list PyValue) : string :=
  String.concat "" (map (fun tool => json_dumps tool +:+ newline) tools).

Definition _create_temp_jsonl_file `{PyRuntime} (env : Env) (tools : PyValue)
  : M World string :=
  try_except
    (w <~ get ;;
     let path := temp_path env (temp_files w) in
     collaborator env (CreateTempFile path)
       (fun w =>
          (Ok tt,
           {| s3 := s3 w; files := <[path := ""]> (files w);
              temp_files := S (temp_files w); staged := staged w;
              index := index w; jobs := jobs w; polls := polls w; clock := clock w;
              trace := trace w |})) ;;;
     match py_iter tools with
     | Some items =>
         modify (fun w => set_files (<[path := jsonl items]> (files w)) w) ;;;
         ret path
     | None =>
         raise (mkExc (OtherException "TypeError")
                  ("'" +:+ py_type_name tools +:+ "' object is not iterable"))
     end)
    (fun e =>
       Some (raise (mkExc KnowledgeBaseError
               ("Failed to create temporary JSONL file: " +:+ exc_msg e)))).

Definition _upload_to_s3 (env : Env) (file_path : string) : M World string :=
  try_except
    (let s3_key := s3_prefix env +:+ basename file_path in
     upload_file env file_path s3_key ;;;
     wait_object_exists env s3_key ;;;
     ret s3_key)
    (fun e =>
       Some (raise (mkExc KnowledgeBaseError
               ("Failed to upload file to S3: " +:+ exc_msg e)))).

Definition _start_ingestion_job (env : Env) : M World PyValue :=
  try_except
    (start_ingestion_job env)
    (fun e =>
       Some (raise (mkExc KnowledgeBaseError
               ("Failed to start ingestion job: " +:+ exc_msg e)))).

Definition _cleanup_temp_file (file_path : string) : M World unit :=
  modify (fun w => set_files (delete file_path (files w)) w).

(** What one pass through the body of the wait loop ends with: a
    [return] of the status, or the end of the body. *)
Definition poll_once `{PyRuntime} (env : Env) (ingestion_job_id : PyValue)
  (poll_interval : Z) : M World (option PyValue) :=
  try_except
    (response <~ get_ingestion_job env ingestion_job_id ;;
     job <~ getitem response "ingestionJob" ;;
     status <~ getitem job "status" ;;
     if is_str (Some status) "COMPLETE" then ret (Some status)
     else if is_str (Some status) "FAILED" then
       failure_reasons <~ get_method response "failureReasons"
                            (PyList [PyStr "Unknown error"]) ;;
       let error_msg :=
         "Ingestion job " +:+ py_str ingestion_job_id +:+ " failed: "
         +:+ py_str failure_reasons in
       raise (mkExc KnowledgeBaseError error_msg)
     else if is_str (Some status) "STOPPED" then ret (Some status)
     else
       time_sleep env poll_interval ;;;
       ret None)
    (fun e =>
       if isinstance_exc e KnowledgeBaseError then Some (raise e)
       else
         Some (raise (mkExc KnowledgeBaseError
                 ("Failed to check ingestion job status: " +:+ exc_msg e)))).

Fixpoint wait_loop `{PyRuntime} (env : Env) (ingestion_job_id : PyValue)
  (timeout poll_interval : Z) (start_time : Z) (fuel : nat) : M World PyValue :=
  now <~ time_time ;;
  if now - start_time <? timeout * ticks_per_second env then
    match fuel with
    | O => out_of_fuel
    | S fuel' =>
        outcome <~ poll_once env ingestion_job_id poll_interval ;;
        match outcome with
        | Some status => ret status
        | None => wait_loop env ingestion_job_id timeout poll_interval start_time fuel'
        end
    end
  else
    raise (mkExc TimeoutError
             ("Ingestion job " +:+ py_str ingestion_job_id
              +:+ " did not complete within " +:+ py_str (PyInt timeout)
              +:+ " seconds")).

Definition wait_for_ingestion_job `{PyRuntime} (env : Env) (fuel : nat)
  (ingestion_job_id : PyValue) (timeout poll_interval : Z) : M World PyValue :=
  start_time <~ time_time ;;
  wait_loop env ingestion_job_id timeout poll_interval start_time fuel.

Definition write_tools_to_knowledge_base `{PyRuntime} (env : Env) (fuel : nat)
  (tools_data : PyValue) : M World IngestionJobResult :=
  match tools_data with
  | PyDict d =>
      match dict_get "tools" d with
      | None => raise (mkExc ValueError "Invalid tools_data format: must contain 'tools' key")
      | Some tools =>
          if negb (py_truthy tools) then
            raise (mkExc ValueError "Invalid tools_data format: 'tools' list cannot be empty")
          else
            try_except
              (cleared <~ clear_knowledge_base_chunks env ;;
               (if negb cleared then
                  raise (mkExc KnowledgeBaseError "Failed to clear Knowledge Base chunks")
                else ret tt) ;;;
               temp_file_path <~ _create_temp_jsonl_file env tools ;;
               try_finally
                 (s3_key <~ _upload_to_s3 env temp_file_path ;;
                  response <~ _start_ingestion_job env ;;
                  job <~ getitem response "ingestionJob" ;;
                  ingestion_job_id <~ getitem job "ingestionJobId" ;;
                  status <~ wait_for_ingestion_job env fuel ingestion_job_id 600 5 ;;
                  ret {| job_id := ingestion_job_id;
                         status := status;
                         response := response |})
                 (_cleanup_temp_file temp_file_path))
              (fun e =>
                 Some (raise (mkExc KnowledgeBaseError
                         ("Failed to write tools to Knowledge Base: " +:+ exc_msg e))))
      end
  | _ => raise (mkExc ValueError "Invalid tools_data format: must contain 'tools' key")
  end.

(** The f-string of the debug line in [query_semantic]:
    [content.get('toolSpec', {}).get('name', 'unknown')]. *)
Definition logged_name {S} (content : PyValue) : M S PyValue :=
  tool_spec <~ get_method content "toolSpec" (PyDict []) ;;
  get_method tool_spec "name" (PyStr "unknown").

(** The body of [for result in response["retrievalResults"]], with the
    list [results] it appends to. *)
Definition parse_result `{PyRuntime} {S} (result : PyValue) (results : list PyValue)
  : M S (list PyValue) :=
  hit_content <~ getitem result "content" ;;
  hit_text <~ getitem hit_content "text" ;;
  match hit_text with
  | PyStr s =>
      match json_loads s with
      | Some content =>
          let results := results ++ [content] in
          logged_name content ;;;
          ret results
      | None => ret results
      end
  | _ =>
      raise (mkExc (OtherException "TypeError")
               ("the JSON object must be str, bytes or bytearray, not "
                +:+ py_type_name hit_text))
  end.

Fixpoint parse_results `{PyRuntime} {S} (hits : list PyValue) (results : list PyValue)
  : M S (list PyValue) :=
  match hits with
  | [] => ret results
  | result :: rest =>
      results <~ parse_result result results ;;
      parse_results rest results
  end.

Definition query_semantic `{PyRuntime} (env : Env) (query_text : string)
  (max_results : Z) : M World QueryResult :=
  try_except
    (response <~ retrieve env query_text max_results ;;
     hits <~ getitem response "retrievalResults" ;;
     match py_iter hits with
     | Some hits =>
         results <~ parse_results hits [] ;;
         ret {| tools := results; total_results := Z.of_nat (length results) |}
     | None =>
         raise (mkExc (OtherException "TypeError")
                  ("'" +:+ py_type_name hits +:+ "' object is not iterable"))
     end)
    (fun e =>
       Some (raise (mkExc KnowledgeBaseError
               ("Failed to query Knowledge Base: " +:+ exc_msg e)))).

(** *** BedrockKnowledgeBase *)

Definition query `{PyRuntime} (env : Env) (query_text : string) (top_k : Z)
  : M World PyValue :=
  try_except
    (result <~ query_semantic env query_text top_k ;;
     ret (PyDict [("tools", PyList (tools result))]))
    (fun e =>
       Some (raise (mkExc KnowledgeBaseError
               ("Knowledge base query failed: " +:+ exc_msg e)))).

Definition broad_query : string := "tool function API method service utility helper".

Definition queryall `{PyRuntime} (env : Env) : M World PyValue :=
  try_except
    (result <~ query_semantic env broad_query 100 ;;
     ret (PyDict [("tools", PyList (tools result))]))
    (fun e =>
       Some (raise (mkExc KnowledgeBaseError
               ("Knowledge base queryall failed: " +:+ exc_msg e)))).

Definition write_tools `{PyRuntime} (env : Env) (fuel : nat) (tools : PyValue)
  : M World IngestionJobResult :=
  try_except
    (write_tools_to_knowledge_base env fuel tools)
    (fun e =>
       Some (raise (mkExc KnowledgeBaseError
               ("Failed to write tools to Knowledge Base: " +:+ exc_msg e)))).

(** *** A reference service for retrieval

    Each line of an object is one chunk; a query is answered with the
    first [number_of_results] chunks of the index in the order [rank]
    gives them for the query, each as a hit with its text. *)

Fixpoint lines_from (s current : string) : list string :=
  match s with
  | EmptyString => if String.eqb current "" then [] else [current]
  | String c rest =>
      if Ascii.eqb c (ascii_of_nat 10) then
        (if String.eqb current "" then [] else [current]) ++ lines_from rest ""
      else lines_from rest (current +:+ String c "")
  end.

Definition lines (s : string) : list string := lines_from s "".

Definition hit_of (chunk : string) : PyValue :=
  PyDict [("content", PyDict [("text", PyStr chunk); ("type", PyStr "TEXT")])].

Definition ranked_retrieve (rank : string -> list string -> list string)
  (chunks : list string) (query_text : string) (number_of_results : Z) : PyValue :=
  PyDict [("retrievalResults",
           PyList (map hit_of (take (Z.to_nat number_of_results)
                                 (rank query_text chunks))))].

(** *** Vocabulary of the statements *)

(** A tool descriptor in the wire format: a dict whose ["toolSpec"] is a
    dict with a string ["name"]. *)
Definition tool_name (tool : PyValue) : option string :=
  match tool with
  | PyDict d =>
      match dict_get "toolSpec" d with
      | Some (PyDict spec) =>
          match dict_get "name" spec with
          | Some (PyStr n) => Some n
          | _ => None
          end
      | _ => None
      end
  | _ => None
  end.

Fixpoint has_newline (s : string) : bool :=
  match s with
  | EmptyString => false
  | String c rest => Ascii.eqb c (ascii_of_nat 10) || has_newline rest
  end.


(** The tools of a [{"tools": [...]}] dict. *)
Definition tools_of (v : PyValue) : list PyValue :=
  match v with
  | PyDict d =>
      match dict_get "tools" d with
      | Some (PyList items) => items
      | _ => []
      end
  | _ => []
  end.

(** The world after a status request. *)
Definition polled (env : Env) (job_id : PyValue) (w : World) : World :=
  snd (get_ingestion_job env job_id w).

(** A decoded hit that the debug line of [query_semantic] can print: a
    dict whose ["toolSpec"], if it has one, is a dict. *)
Definition loggable (content : PyValue) : Prop :=
  match content with
  | PyDict d =>
      match dict_get "toolSpec" d with
      | Some (PyDict _) | None => True
      | Some _ => False
      end
  | _ => False
  end.




End KB.

(** ** Concrete collaborators for the examples *)

Module Example.

(** A tool descriptor in the wire format of [convert_tools_to_bedrock_format]. *)
Definition descriptor (tool_name description : string) : PyValue :=
  PyDict [("toolSpec",
           PyDict [("name", PyStr tool_name);
                   ("description", PyStr description);
                   ("inputSchema",
                    PyDict [("json", PyDict [("type", PyStr "object")])])])].

(** A knowledge base whose collaborators never fail: the status requests
    are answered by [replies], each takes a tenth of a second, the index
    holds the lines of the objects and serves them in their order. *)
Definition kb_env (replies : nat -> PyValue) : KB.Env :=
  {| KB.knowledge_base_id := "KB0001";
     KB.data_source_id := "DS0001";
     KB.s3_bucket := "rag-mcp-s3-source";
     KB.s3_prefix := "kb-data/";
     KB.temp_path := fun n => "/tmp/tmp" +:+ pretty n +:+ ".jsonl";
     KB.fault := fun _ => None;
     KB.job_name := fun n => "job-" +:+ pretty n;
     KB.job_reply := replies;
     KB.poll_duration := fun _ => 1;
     KB.ticks_per_second := 10;
     KB.chunker := KB.lines;
     KB.retrieve_api := KB.ranked_retrieve (fun _ chunks => chunks) |}.

Definition kb_world (objects : gmap string string) (chunks : list string) : KB.World :=
  {| KB.s3 := objects; KB.files := ∅; KB.temp_files := 0; KB.staged := [];
     KB.index := chunks; KB.jobs := 0; KB.polls := 0; KB.clock := 0;
     KB.trace := [] |}.

Definition job_reply_with (job_status : string) (reasons : list string) : PyValue :=
  PyDict [("ingestionJob",
           PyDict [("ingestionJobId", PyStr "job-0");
                   ("status", PyStr job_status);
                   ("failureReasons", PyList (map PyStr reasons))])].

(** A job that is reported in progress twice, then complete. *)
Definition completes_at_third_poll (n : nat) : PyValue :=
  match n with
  | 0%nat | 1%nat => job_reply_with "IN_PROGRESS" []
  | _ => job_reply_with "COMPLETE" []
  end.


(** A job that is complete at the first status request. *)
Definition completes_at_once (n : nat) : PyValue := job_reply_with "COMPLETE" [].

(** *** A turn *)

Definition read_file_call : Session.ToolUse :=
  {| Session.toolUseId := "tooluse_1";
     Session.name := "read_file";
     Session.input := PyDict [("path", PyStr "README.md")] |}.

Definition tool_use_reply : Chat.Response :=
  {| Chat.output_message :=
       {| Chat.om_role := "assistant";
          Chat.om_content :=
            Some [Session.BText "Let me read the file.";
                  Session.BToolUse read_file_call] |};
     Chat.stopReason := "tool_use";
     Chat.usage := Some {| Chat.inputTokens := Some 120;
                           Chat.outputTokens := Some 30;
                           Chat.totalTokens := Some 150 |} |}.

Definition final_reply : Chat.Response :=
  {| Chat.output_message :=
       {| Chat.om_role := "assistant";
          Chat.om_content := Some [Session.BText "I could not read the file."] |};
     Chat.stopReason := "end_turn";
     Chat.usage := Some {| Chat.inputTokens := Some 200;
                           Chat.outputTokens := Some 10;
                           Chat.totalTokens := Some 210 |} |}.

(** A hosted LLM that asks for the tool at its first [k] calls, and a
    tool host that answers every call with the error flag. *)
Definition chat_env_asking (k : nat) : Chat.Env :=
  {| Chat.bedrock_config :=
       {| Chat.default_model_id := "us.anthropic.claude-3-7-sonnet-20250219-v1:0";
          Chat.max_tokens := 4096;
          Chat.cfg_temperature := "0.7" |};
     Chat.llm_api := fun n _ =>
       Chat.LLMReturns (if (n <? k)%nat then tool_use_reply else final_reply);
     Chat.tool_host := fun _ _ _ =>
       Chat.HostReturns {| Chat.isError := true; Chat.result_content := [] |} |}.

Definition chat_env : Chat.Env := chat_env_asking 2.

(** The blocks of a kind in the messages of a session. *)
Definition count_blocks (kind : Session.ContentBlock -> bool)
  (s : Session.ChatSession) : nat :=
  length (filter (fun b => kind b = true)
            (flat_map Session.content (Session.messages s))).

Definition is_tool_use (b : Session.ContentBlock) : bool :=
  match b with Session.BToolUse _ => true | _ => false end.

Definition is_tool_result (b : Session.ContentBlock) : bool :=
  match b with Session.BToolResult _ => true | _ => false end.

Definition chat_world : Chat.World :=
  {| Chat.session := Session.add_user_message "What is in README.md?" Session.init;
     Chat._tool_config := None;
     Chat.mcp_session := true;
     Chat.llm_log := [];
     Chat.tool_log := [] |}.

Definition chat_tools : option (list (string * PyValue)) :=
  Some [("tools", PyList [descriptor "read_file" "Read a file"])].

(** *** Two writes in a row *)

Definition two_tools : list PyValue :=
  [descriptor "read_file" "Read a file"; descriptor "list_directory" "List a directory"].

Definition stale_world : KB.World :=
  kb_world {["kb-data/old.jsonl" := "stale"; "notes/readme.txt" := "keep"]} [].




(** *** A write of 101 tools *)


End Example.


(** ** Statements about every outcome *)

(** Whatever [m] ends with, the state it leaves is related by [R] to the
    state it started in. *)
Definition preserves {S A} (R : S -> S -> Prop) (m : M S A) : Prop :=
  forall (s : S) (r : Res A) (s' : S), m s = (r, s') -> R s s'.

(** Every exception that leaves [m] satisfies [P]. *)
Definition raises_only {S A} (P : Exc -> Prop) (m : M S A) : Prop :=
  forall (s : S) (e : Exc) (s' : S), m s = (Raise e, s') -> P e.

(** [m] does not run out of fuel. *)
Definition ends {S A} (m : M S A) : Prop :=
  forall s : S, fst (m s) <> OutOfFuel.

(** ** chat_session.py, the rest *)

Module SessionMore.
Import Session.

(** The text of the first block of a content list that has a ["text"]. *)
Fixpoint first_text (blocks : list ContentBlock) : option string :=
  match blocks with
  | [] => None
  | BText s :: _ => Some s
  | _ :: rest => first_text rest
  end.

(** The loop [for message in reversed(self.messages)] of
    [get_last_assistant_message]. *)
Fixpoint last_assistant_from (reversed_messages : list Message) : option string :=
  match reversed_messages with
  | [] => None
  | message :: earlier =>
      if String.eqb (role message) "assistant" then
        match first_text (content message) with
        | Some text => Some text
        | None => last_assistant_from earlier
        end
      else last_assistant_from earlier
  end.

Definition get_last_assistant_message (s : ChatSession) : option string :=
  last_assistant_from (rev (messages s)).



End SessionMore.

(** ** mcp_client.py: the connection and the tool listing *)

Module MCP.

(** A tool as the tool host lists it. *)
Record Tool : Type := {
  name : string;
  description : PyValue;
  inputSchema : PyValue
}.

(** The awaited calls on the tool-host process and the protocol session. *)
Inductive Call : Type :=
| EnterStdio
| EnterSession
| Initialize
| ListTools
| ExitSession
| ExitStdio.

(** The script of the tool host: [fails n] is the exception the [n]-th
    call ends with, if any (for [ExitStdio] this includes the timeout of
    [asyncio.wait_for]); [listing n] is what a [ListTools] made as the
    [n]-th call returns. *)
Record Env : Type := {
  fails : nat -> option Exc;
  listing : nat -> list Tool
}.

(** The attributes of an [MCPClient]; [false] stands for an attribute
    that is absent or [None]. *)
Record Client : Type := {
  _stdio_context : bool;
  _session_context : bool;
  _session : bool;
  _tools : option (list Tool)
}.

Record World : Type := {
  client : Client;
  calls : list Call
}.

Definition new_client : Client :=
  {| _stdio_context := false; _session_context := false; _session := false;
     _tools := None |}.

Definition update_client (f : Client -> Client) : M World unit :=
  modify (fun w => {| client := f (client w); calls := calls w |}).

Definition set_stdio_context (b : bool) (c : Client) : Client :=
  {| _stdio_context := b; _session_context := _session_context c;
     _session := _session c; _tools := _tools c |}.

Definition set_session_context (b : bool) (c : Client) : Client :=
  {| _stdio_context := _stdio_context c; _session_context := b;
     _session := _session c; _tools := _tools c |}.

Definition set_session (b : bool) (c : Client) : Client :=
  {| _stdio_context := _stdio_context c; _session_context := _session_context c;
     _session := b; _tools := _tools c |}.

Definition set_tools (tools : list Tool) (c : Client) : Client :=
  {| _stdio_context := _stdio_context c; _session_context := _session_context c;
     _session := _session c; _tools := Some tools |}.

(** One awaited call: it is recorded, and it fails as the script says. *)
Definition host (env : Env) (c : Call) : M World unit :=
  fun w =>
    let w' := {| client := client w; calls := calls w ++ [c] |} in
    match fails env (length (calls w)) with
    | Some e => (Raise e, w')
    | None => (Ok tt, w')
    end.

Definition connect (env : Env) : M World unit :=
  try_except
    (update_client (set_stdio_context true) ;;;
     host env EnterStdio ;;;
     update_client (set_session_context true) ;;;
     host env EnterSession ;;;
     update_client (set_session true) ;;;
     host env Initialize)
    (fun e =>
       Some (raise (mkExc MCPToolError
               ("Failed to connect to MCP server: " +:+ exc_msg e)))).

Definition disconnect (env : Env) : M World unit :=
  try_except
    (w <~ get ;;
     (if _session_context (client w) then
        try_finally
          (try_except (host env ExitSession) (fun e => Some (ret tt)))
          (update_client (fun c => set_session false (set_session_context false c)))
      else ret tt) ;;;
     w <~ get ;;
     if _stdio_context (client w) then
       try_finally
         (try_except (host env ExitStdio) (fun e => Some (ret tt)))
         (update_client (set_stdio_context false))
     else ret tt)
    (fun e => Some (ret tt)).

(** [self._session.list_tools()]. *)
Definition session_list_tools (env : Env) : M World (list Tool) :=
  fun w =>
    let w' := {| client := client w; calls := calls w ++ [ListTools] |} in
    match fails env (length (calls w)) with
    | Some e => (Raise e, w')
    | None => (Ok (listing env (length (calls w))), w')
    end.

Definition list_tools (env : Env) : M World (list Tool) :=
  w <~ get ;;
  if negb (_session (client w)) then
    raise (mkExc MCPToolError "MCP session not initialized")
  else
    try_except
      (tools <~ session_list_tools env ;;
       update_client (set_tools tools) ;;;
       ret tools)
      (fun e =>
         Some (raise (mkExc MCPToolError
                 ("Failed to list MCP tools: " +:+ exc_msg e)))).

(** The entry [convert_tools_to_bedrock_format] makes of one tool. *)
Definition tool_spec (tool : Tool) : PyValue :=
  PyDict [("toolSpec",
           PyDict [("name", PyStr (name tool));
                   ("description", description tool);
                   ("inputSchema", PyDict [("json", inputSchema tool)])])].

(** The entries of the dict [convert_tools_to_bedrock_format] returns. *)
Definition bedrock_format (tools : list Tool) : list (string * PyValue) :=
  [("tools", PyList (map tool_spec tools))].

Definition convert_tools_to_bedrock_format (tools : list Tool) : PyValue :=
  PyDict (bedrock_format tools).

(** Nothing of a connection is held. *)
Definition released (c : Client) : Prop :=
  _stdio_context c = false /\ _session_context c = false /\ _session c = false.

(** Both contexts and the session are held. *)
Definition connected (c : Client) : Prop :=
  _stdio_context c = true /\ _session_context c = true /\ _session c = true.

End MCP.

(** ** Vocabulary for the turn *)

Module ChatMore.
Import Session Chat.

(** From [w] to [w'] the session has only gained messages at its end;
    the user inputs, the manager's own tool configuration and the state
    of the MCP client are the same. *)
Definition grows (w w' : World) : Prop :=
  (exists added, messages (session w') = messages (session w) ++ added)
  /\ user_inputs (session w') = user_inputs (session w)
  /\ _tool_config w' = _tool_config w
  /\ mcp_session w' = mcp_session w.

(** The user message that answers a tool use. *)
Definition result_message (tool : ToolUse) (result_content : list ResultContent)
  (status : string) : Message :=
  {| role := "user";
     content := [BToolResult {| tr_toolUseId := toolUseId tool;
                                tr_content := result_content;
                                tr_status := status |}] |}.

(** Messages that are, for each tool use in turn, its assistant message
    followed at once by a user message with one tool result for the same
    id, of one content entry and status success or error. *)
Inductive tool_pairs : list ToolUse -> list Message -> Prop :=
| pairs_nil : tool_pairs [] []
| pairs_cons tool entry status tools messages :
    status = "success" \/ status = "error" ->
    tool_pairs tools messages ->
    tool_pairs (tool :: tools)
      (tool_use_message tool :: result_message tool [entry] status :: messages).

(** The class of an exception is one of those a turn lets through. *)
Definition turn_error (e : Exc) : Prop :=
  exc_class e = BedrockError \/ exc_class e = KeyError.

End ChatMore.

(** ** chat_manager.py: the manager around a turn *)

Module Manager.
Import Session.

Record Env : Type := {
  chat_env : Chat.Env;
  kb_env : KB.Env;
  mcp_env : MCP.Env;
  max_tool_rounds : Z;
  enable_auto_tool_calling : bool
}.

(** The manager's parts: the world of a turn, the world of the knowledge
    base, the MCP client with its tool host, and whether [_mcp_client] is
    set.  [Chat.mcp_session] of the first part is the [_session] of the
    client: [lift_mcp] keeps the two equal. *)
Record World : Type := {
  chat : Chat.World;
  kb : KB.World;
  mcp : MCP.World;
  _mcp_client : bool
}.

Definition lift_chat {A} (m : M Chat.World A) : M World A :=
  fun w =>
    let '(r, c) := m (chat w) in
    (r, {| chat := c; kb := kb w; mcp := mcp w; _mcp_client := _mcp_client w |}).

Definition lift_kb {A} (m : M KB.World A) : M World A :=
  fun w =>
    let '(r, k) := m (kb w) in
    (r, {| chat := chat w; kb := k; mcp := mcp w; _mcp_client := _mcp_client w |}).

Definition with_mcp_session (b : bool) (c : Chat.World) : Chat.World :=
  {| Chat.session := Chat.session c;
     Chat._tool_config := Chat._tool_config c;
     Chat.mcp_session := b;
     Chat.llm_log := Chat.llm_log c;
     Chat.tool_log := Chat.tool_log c |}.

Definition lift_mcp {A} (m : M MCP.World A) : M World A :=
  fun w =>
    let '(r, x) := m (mcp w) in
    (r, {| chat := with_mcp_session (MCP._session (MCP.client x)) (chat w);
           kb := kb w; mcp := x; _mcp_client := _mcp_client w |}).

(** [self._mcp_client = MCPClient(self.config.mcp)]: a new client. *)
Definition new_mcp_client : M World unit :=
  modify (fun w =>
    {| chat := with_mcp_session false (chat w);
       kb := kb w;
       mcp := {| MCP.client := MCP.new_client; MCP.calls := MCP.calls (mcp w) |};
       _mcp_client := true |}).

Definition drop_mcp_client : M World unit :=
  modify (fun w =>
    {| chat := chat w; kb := kb w; mcp := mcp w; _mcp_client := false |}).

Definition set_tool_config (tool_config : list (string * PyValue)) : M World unit :=
  modify (fun w =>
    {| chat := {| Chat.session := Chat.session (chat w);
                  Chat._tool_config := Some tool_config;
                  Chat.mcp_session := Chat.mcp_session (chat w);
                  Chat.llm_log := Chat.llm_log (chat w);
                  Chat.tool_log := Chat.tool_log (chat w) |};
       kb := kb w; mcp := mcp w; _mcp_client := _mcp_client w |}).

(** The lines shared by [initialize] and [sync_tools_to_kb]: the tools of
    the host are listed, converted, kept as [_tool_config] and written to
    the knowledge base. *)
Definition list_convert_write `{PyRuntime} (env : Env) (fuel : nat) : M World unit :=
  tools <~ lift_mcp (MCP.list_tools (mcp_env env)) ;;
  set_tool_config (MCP.bedrock_format tools) ;;;
  lift_kb (KB.write_tools (kb_env env) fuel (MCP.convert_tools_to_bedrock_format tools)) ;;;
  ret tt.

Definition initialize `{PyRuntime} (env : Env) (fuel : nat) (is_init_mcp : bool)
  : M World unit :=
  try_except
    (new_mcp_client ;;;
     lift_mcp (MCP.connect (mcp_env env)) ;;;
     if is_init_mcp then list_convert_write env fuel else ret tt)
    (fun e =>
       Some (raise (mkExc ChatError
               ("Failed to initialize chat manager: " +:+ exc_msg e)))).

Definition sync_tools_to_kb `{PyRuntime} (env : Env) (fuel : nat) : M World unit :=
  try_except
    (w <~ get ;;
     if negb (_mcp_client w) then
       raise (mkExc ChatError "MCP client not initialized. Cannot sync tools.")
     else list_convert_write env fuel)
    (fun e =>
       Some (raise (mkExc ChatError ("Failed to sync tools to KB: " +:+ exc_msg e)))).

Definition cleanup (env : Env) : M World unit :=
  try_except
    (w <~ get ;;
     if _mcp_client w then
       try_finally
         (try_except (lift_mcp (MCP.disconnect (mcp_env env))) (fun e => Some (ret tt)))
         drop_mcp_client
     else ret tt)
    (fun e => Some (ret tt)).

Definition get_all_kb_tools `{PyRuntime} (env : Env) : M World PyValue :=
  try_except
    (lift_kb (KB.queryall (kb_env env)))
    (fun e =>
       Some (raise (mkExc ChatError ("Failed to get all KB tools: " +:+ exc_msg e)))).

(** The dict a query of the knowledge base returns, as the tool
    configuration of a turn. *)
Definition as_tool_config (kb_result : PyValue) : option (list (string * PyValue)) :=
  match kb_result with
  | PyDict d => Some d
  | _ => None
  end.

Definition process_message `{PyRuntime} (env : Env) (fuel : nat) (user_input : string)
  (model_id : option string) (use_kb_tools : bool) : M World Chat.TurnResult :=
  try_except
    (lift_chat (Chat.update_session (add_user_message user_input)) ;;;
     w <~ get ;;
     let conversation_context := get_conversation_context (Chat.session (chat w)) in
     kb_result <~ (if use_kb_tools
                   then lift_kb (KB.query (kb_env env) conversation_context 2)
                   else get_all_kb_tools env) ;;
     let tool_config := as_tool_config kb_result in
     lift_chat
       (Chat._generate_response_with_tools (chat_env env) fuel model_id tool_config
          (if enable_auto_tool_calling env then max_tool_rounds env else 1)))
    (fun e =>
       Some (raise (mkExc ChatError ("Failed to process message: " +:+ exc_msg e)))).

Definition get_conversation_history (w : World) : list Message :=
  get_messages (Chat.session (chat w)).

Definition clear_conversation : M World unit :=
  lift_chat (Chat.update_session clear).

(** The manager's view of the client agrees with the client. *)
Definition coherent (w : World) : Prop :=
  Chat.mcp_session (chat w) = MCP._session (MCP.client (mcp w)).

End Manager.

(** ** RagChunker.py *)

Module Chunker.

(** [text.split('\n')]: the pieces between the newlines, empty ones
    included. *)
Fixpoint split_from (s current : string) : list string :=
  match s with
  | EmptyString => [current]
  | String c rest =>
      if Ascii.eqb c (ascii_of_nat 10) then current :: split_from rest ""
      else split_from rest (current +:+ String c "")
  end.

Definition split_newline (text : string) : list string := split_from text "".

(** The one-byte whitespace of [str.isspace]: tab to carriage return,
    the four separators from 28 on, and the space. *)
Definition space_byte (n : nat) : bool :=
  ((9 <=? n) && (n <=? 13) || (28 <=? n) && (n <=? 32))%nat.

(** [not line.strip()]: a line of whitespace only.  A string holds the
    UTF-8 bytes of the text, so the whitespace beyond ASCII is
    recognised by its encoding: U+0085, U+00A0, U+1680, U+2000 to
    U+200A, U+2028, U+2029, U+202F, U+205F and U+3000. *)
Fixpoint blank (s : string) : bool :=
  match s with
  | EmptyString => true
  | String c rest =>
      let n := nat_of_ascii c in
      if space_byte n then blank rest
      else
        match rest with
        | String d rest1 =>
            let m := nat_of_ascii d in
            if (n =? 194)%nat then ((m =? 133) || (m =? 160))%nat && blank rest1
            else
              match rest1 with
              | String e rest2 =>
                  let k := nat_of_ascii e in
                  (((n =? 225) && (m =? 154) && (k =? 128))
                   || ((n =? 226) && (m =? 128)
                       && (((128 <=? k) && (k <=? 138))
                           || (k =? 168) || (k =? 169) || (k =? 175)))
                   || ((n =? 226) && (m =? 129) && (k =? 159))
                   || ((n =? 227) && (m =? 128) && (k =? 128)))%nat
                  && blank rest2
              | EmptyString => false
              end
        | EmptyString => false
        end
  end.

(** [SimpleChunker.chunk]. *)
Definition chunk (text : string) : list string :=
  filter (fun line => blank line = false) (split_newline text).

(** [content_body.split]: only a string has the method. *)
Definition body_text {S} (content_body : PyValue) : M S string :=
  match content_body with
  | PyStr s => ret s
  | _ =>
      raise (mkExc AttributeError
               ("'" +:+ KB.py_type_name content_body
                +:+ "' object has no attribute 'split'"))
  end.

(** The body of [for content in file_content.get('fileContents', [])]:
    the records it appends. *)
Definition process_one {S} (content : PyValue) : M S (list PyValue) :=
  content_body <~ KB.get_method content "contentBody" (PyStr "") ;;
  content_type <~ KB.get_method content "contentType" (PyStr "text/plain") ;;
  content_metadata <~ KB.get_method content "contentMetadata" (PyDict []) ;;
  text <~ body_text content_body ;;
  ret (map (fun c => PyDict [("contentType", content_type);
                             ("contentMetadata", content_metadata);
                             ("contentBody", PyStr c)])
         (chunk text)).

Fixpoint process_all {S} (contents : list PyValue) (records : list PyValue)
  : M S (list PyValue) :=
  match contents with
  | [] => ret records
  | content :: rest =>
      added <~ process_one content ;;
      process_all rest (records ++ added)
  end.

Definition not_iterable {S A} (v : PyValue) : M S A :=
  raise (mkExc (OtherException "TypeError")
           ("'" +:+ KB.py_type_name v +:+ "' object is not iterable")).

Definition process_content {S} (file_content : PyValue) : M S PyValue :=
  contents <~ KB.get_method file_content "fileContents" (PyList []) ;;
  match KB.py_iter contents with
  | Some items =>
      records <~ process_all items [] ;;
      ret (PyDict [("fileContents", PyList records)])
  | None => not_iterable contents
  end.

(** *** The handler and the object store *)

Inductive S3Call : Type :=
| GetObject (bucket key : PyValue)
| PutObject (bucket key : PyValue).

(** The objects of the store, by bucket and key, and the calls made. *)
Record World : Type := {
  objects : gmap (string * string) string;
  s3_calls : list S3Call
}.

(** [s3_fails n]: the exception the [n]-th call to the store ends with,
    if any. *)
Record Env : Type := {
  s3_fails : nat -> option Exc
}.

Definition param_error {A} (w : World) : Res A * World :=
  (Raise (mkExc (OtherException "ParamValidationError")
            "Parameter validation failed"), w).

Definition get_object (env : Env) (bucket key : PyValue) : M World string :=
  fun w =>
    let w' := {| objects := objects w; s3_calls := s3_calls w ++ [GetObject bucket key] |} in
    match s3_fails env (length (s3_calls w)) with
    | Some e => (Raise e, w')
    | None =>
        match bucket, key with
        | PyStr b, PyStr k =>
            match objects w !! (b, k) with
            | Some body => (Ok body, w')
            | None =>
                (Raise (mkExc (OtherException "NoSuchKey")
                          "The specified key does not exist."), w')
            end
        | _, _ => param_error w'
        end
    end.

Definition put_object (env : Env) (bucket key : PyValue) (body : string)
  : M World unit :=
  fun w =>
    let w' := {| objects := objects w; s3_calls := s3_calls w ++ [PutObject bucket key] |} in
    match s3_fails env (length (s3_calls w)) with
    | Some e => (Raise e, w')
    | None =>
        match bucket, key with
        | PyStr b, PyStr k =>
            (Ok tt, {| objects := <[(b, k) := body]> (objects w);
                       s3_calls := s3_calls w' |})
        | _, _ => param_error w'
        end
    end.

(** What [read_s3_file] returns for a text that is not JSON. *)
Definition plain_text_file (text : string) : PyValue :=
  PyDict [("fileContents",
           PyList [PyDict [("contentBody", PyStr text);
                           ("contentType", PyStr "text/plain");
                           ("contentMetadata", PyDict [])]])].

Definition read_s3_file `{PyRuntime} (env : Env) (bucket key : PyValue)
  : M World PyValue :=
  try_except
    (text <~ get_object env bucket key ;;
     match json_loads text with
     | Some v => ret v
     | None => ret (plain_text_file text)
     end)
    (fun e => Some (raise e)).

Definition write_to_s3 `{PyRuntime} (env : Env) (bucket key : PyValue)
  (content : PyValue) : M World unit :=
  try_except
    (put_object env bucket key (json_dumps content))
    (fun e => Some (raise e)).

(** The body of [for batch in content_batches], with the list it appends
    to. *)
Definition handle_batch `{PyRuntime} (env : Env) (input_bucket : PyValue)
  (batch : PyValue) (processed_batches : list PyValue) : M World (list PyValue) :=
  input_key <~ KB.get_method batch "key" PyNone ;;
  if negb (KB.py_truthy input_key) then
    raise (mkExc ValueError "Missing uri in content batch")
  else
    file_content <~ read_s3_file env input_bucket input_key ;;
    chunked_content <~ process_content file_content ;;
    let output_key := PyStr ("Output/" +:+ py_str input_key) in
    write_to_s3 env input_bucket output_key chunked_content ;;;
    ret (processed_batches ++ [PyDict [("key", output_key)]]).

Fixpoint handle_batches `{PyRuntime} (env : Env) (input_bucket : PyValue)
  (batches : list PyValue) (processed_batches : list PyValue)
  : M World (list PyValue) :=
  match batches with
  | [] => ret processed_batches
  | batch :: rest =>
      processed_batches <~ handle_batch env input_bucket batch processed_batches ;;
      handle_batches env input_bucket rest processed_batches
  end.

(** The body of [for input_file in input_files]. *)
Definition handle_file `{PyRuntime} (env : Env) (input_bucket : PyValue)
  (input_file : PyValue) : M World PyValue :=
  content_batches <~ KB.get_method input_file "contentBatches" (PyList []) ;;
  file_metadata <~ KB.get_method input_file "fileMetadata" (PyDict []) ;;
  original_file_location <~
    KB.get_method input_file "originalFileLocation" (PyDict []) ;;
  match KB.py_iter content_batches with
  | Some batches =>
      processed_batches <~ handle_batches env input_bucket batches [] ;;
      ret (PyDict [("originalFileLocation", original_file_location);
                   ("fileMetadata", file_metadata);
                   ("contentBatches", PyList processed_batches)])
  | None => not_iterable content_batches
  end.

Fixpoint handle_files `{PyRuntime} (env : Env) (input_bucket : PyValue)
  (input_files : list PyValue) (output_files : list PyValue)
  : M World (list PyValue) :=
  match input_files with
  | [] => ret output_files
  | input_file :: rest =>
      output_file <~ handle_file env input_bucket input_file ;;
      handle_files env input_bucket rest (output_files ++ [output_file])
  end.

Definition lambda_handler `{PyRuntime} (env : Env) (event : PyValue) : M World PyValue :=
  input_files <~ KB.get_method event "inputFiles" PyNone ;;
  input_bucket <~ KB.get_method event "bucketName" PyNone ;;
  if negb (KB.py_truthy input_files && KB.py_truthy input_bucket) then
    raise (mkExc ValueError "Missing required input parameters")
  else
    match KB.py_iter input_files with
    | Some files =>
        output_files <~ handle_files env input_bucket files [] ;;
        ret (PyDict [("outputFiles", PyList output_files)])
    | None => not_iterable input_files
    end.

(** The objects whose key is not under ["Output/"] are the same. *)
Definition same_outside_output (w w' : World) : Prop :=
  forall (b k : string),
    String.prefix "Output/" k = false -> objects w' !! (b, k) = objects w !! (b, k).

End Chunker.


(** ** Vocabulary for the knowledge base *)

(** The state after is the state before. *)
Definition untouched {St} (s s' : St) : Prop := s' = s.

Module KBMore.
Import KB.

(** The input passes the two checks at the head of
    [write_tools_to_knowledge_base]: a dict with a ['tools'] that is
    truthy. *)
Definition well_formed (tools_data : PyValue) : bool :=
  match tools_data with
  | PyDict d =>
      match dict_get "tools" d with
      | Some tools => py_truthy tools
      | None => false
      end
  | _ => false
  end.

(** A status with which the wait returns. *)
Definition final_status (st : PyValue) : Prop :=
  st = PyStr "COMPLETE" \/ st = PyStr "STOPPED".

(** The class of an exception is one of those the wait raises. *)
Definition wait_error (e : Exc) : Prop :=
  exc_class e = KnowledgeBaseError \/ exc_class e = TimeoutError.

(** From [w] to [w'] the part of the world that [f] reads is the same. *)
Definition unchanged {A} (f : World -> A) (w w' : World) : Prop := f w' = f w.

(** What clearing the corpus leaves alone: all but the bucket and the
    record of the calls. *)
Definition beside_bucket (w : World) :=
  (files w, temp_files w, staged w, index w, jobs w, polls w, clock w).

(** The local files, with the count of temporary files made. *)
Definition local_files (w : World) := (files w, temp_files w).

(** What waiting for a job leaves alone: the bucket, the local files, and
    what was handed to the jobs. *)
Definition beside_index (w : World) :=
  (s3 w, files w, temp_files w, staged w, jobs w).

(** The exception a failed status request ends the wait with. *)
Definition status_request_error (e : Exc) : Exc :=
  if isinstance_exc e KnowledgeBaseError then e
  else mkExc KnowledgeBaseError ("Failed to check ingestion job status: " +:+ exc_msg e).

(** The hits of a retrieval response, when it has a list of them. *)
Definition hits_of (response : PyValue) : list PyValue :=
  match response with
  | PyDict d => default [] (py_iter (default PyNone (dict_get "retrievalResults" d)))
  | _ => []
  end.

End KBMore.

(** ** Vocabulary for the manager *)

Module ManagerMore.
Import Session Manager.

(** The retrieval call that [process_message] makes for a session that
    holds the new user message. *)
Definition retrieval_call (use_kb_tools : bool) (s : ChatSession) : KB.Event :=
  if use_kb_tools then KB.Retrieve (get_conversation_context s) 2
  else KB.Retrieve KB.broad_query 100.

(** The query of the knowledge base behind that call. *)
Definition tool_retrieval `{PyRuntime} (env : KB.Env) (use_kb_tools : bool)
  (s : ChatSession) : M KB.World PyValue :=
  if use_kb_tools then KB.query env (get_conversation_context s) 2
  else KB.queryall env.

(** The message [add_user_message] appends. *)
Definition user_message (text : string) : Message :=
  {| role := "user"; content := [BText text] |}.

End ManagerMore.

(** ** Concrete collaborators for the further examples *)

Module Sample.
Import Example.

(** What a computation raised. *)
Definition exc_of {A} (r : Res A) : Exc :=
  match r with
  | Raise e => e
  | _ => mkExc (OtherException "none") "nothing was raised"
  end.

(** *** An MCP server with two tools *)

Definition read_file_tool : MCP.Tool :=
  {| MCP.name := "read_file";
     MCP.description := PyStr "Read a file";
     MCP.inputSchema := PyDict [("type", PyStr "object")] |}.

Definition list_directory_tool : MCP.Tool :=
  {| MCP.name := "list_directory";
     MCP.description := PyStr "List a directory";
     MCP.inputSchema := PyDict [("type", PyStr "object")] |}.

Definition mcp_env : MCP.Env :=
  {| MCP.fails := fun _ => None;
     MCP.listing := fun _ => [read_file_tool; list_directory_tool] |}.

(** A server that refuses the handshake: its third call fails. *)
Definition handshake_refused : Exc :=
  mkExc (OtherException "McpError") "Connection closed".

Definition mcp_env_refusing : MCP.Env :=
  {| MCP.fails := fun n => if (n =? 2)%nat then Some handshake_refused else None;
     MCP.listing := fun _ => [] |}.

Definition mcp_world : MCP.World :=
  {| MCP.client := MCP.new_client; MCP.calls := [] |}.

Definition mcp_connected : MCP.World := snd (MCP.connect mcp_env mcp_world).

(** *** Turns *)

(** A manager whose MCP client holds no session. *)
Definition chat_world_offline : Chat.World :=
  {| Chat.session := Session.add_user_message "What is in README.md?" Session.init;
     Chat._tool_config := None;
     Chat.mcp_session := false;
     Chat.llm_log := [];
     Chat.tool_log := [] |}.

Definition turn_of (r : Res Chat.TurnResult) : Chat.TurnResult :=
  match r with
  | Ok x => x
  | _ => {| Chat.res_text := None; Chat.res_usage := Chat.zero_usage;
            Chat.res_stop_reason := ""; Chat.res_tool_rounds := 0;
            Chat.res_max_rounds_reached := None |}
  end.

(** A turn of two tool rounds and the final call. *)
Definition turn : Res Chat.TurnResult * Chat.World :=
  Chat._generate_response_with_tools (H := Ref.runtime) chat_env 2 None chat_tools 2
    chat_world.

(** A hosted LLM that is throttled. *)
Definition chat_env_down : Chat.Env :=
  {| Chat.bedrock_config := Chat.bedrock_config chat_env;
     Chat.llm_api := fun _ _ =>
       Chat.LLMRaises (mkExc ClientError "ThrottlingException: Too many requests");
     Chat.tool_host := Chat.tool_host chat_env |}.

Definition turn_down : Res Chat.TurnResult * Chat.World :=
  Chat._generate_response_with_tools (H := Ref.runtime) chat_env_down 2 None chat_tools 2
    chat_world.

(** *** The knowledge base *)

Definition cleared : Res bool * KB.World :=
  KB.clear_knowledge_base_chunks (kb_env completes_at_once) stale_world.

Definition rejected_write : Res KB.IngestionJobResult * KB.World :=
  KB.write_tools_to_knowledge_base (H := Ref.runtime) (kb_env completes_at_once) 121
    (PyDict [("tool", PyList two_tools)]) stale_world.

Definition waited : Res PyValue * KB.World :=
  KB.wait_for_ingestion_job (H := Ref.runtime) (kb_env completes_at_third_poll) 121
    (PyStr "job-0") 600 5 (kb_world ∅ []).

Definition access_denied : Exc :=
  mkExc ClientError "AccessDeniedException: not authorized".

(** A knowledge base whose every call is refused. *)
Definition kb_env_down : KB.Env :=
  {| KB.knowledge_base_id := "KB0001";
     KB.data_source_id := "DS0001";
     KB.s3_bucket := "rag-mcp-s3-source";
     KB.s3_prefix := "kb-data/";
     KB.temp_path := fun n => "/tmp/tmp" +:+ pretty n +:+ ".jsonl";
     KB.fault := fun _ => Some access_denied;
     KB.job_name := fun n => "job-" +:+ pretty n;
     KB.job_reply := completes_at_once;
     KB.poll_duration := fun _ => 1;
     KB.ticks_per_second := 10;
     KB.chunker := KB.lines;
     KB.retrieve_api := KB.ranked_retrieve (fun _ chunks => chunks) |}.

(** An index that holds the two tools and a line that is not JSON. *)
Definition indexed_world : KB.World :=
  kb_world ∅ (map Ref.dumps two_tools ++ ["not a tool"]).

Definition queried : Res KB.QueryResult * KB.World :=
  KB.query_semantic (H := Ref.runtime) (kb_env completes_at_once) "read a file" 10
    indexed_world.

(** *** The chunker *)

Definition chunker_env : Chunker.Env := {| Chunker.s3_fails := fun _ => None |}.

Definition chunker_world (body : string) : Chunker.World :=
  {| Chunker.objects := {[("intermediate", "kb-data/tools.jsonl") := body]};
     Chunker.s3_calls := [] |}.

Definition batch : list (string * PyValue) := [("key", PyStr "kb-data/tools.jsonl")].

Definition event : PyValue :=
  PyDict [("inputFiles",
           PyList [PyDict [("contentBatches", PyList [PyDict batch]);
                           ("fileMetadata", PyDict []);
                           ("originalFileLocation", PyDict [])]]);
          ("bucketName", PyStr "intermediate")].

Definition handled : Res PyValue * Chunker.World :=
  Chunker.lambda_handler (H := Ref.runtime) chunker_env event
    (chunker_world (KB.jsonl (H := Ref.runtime) two_tools)).

(** The fields of the first of the two tools. *)
Definition read_file_fields : list (string * PyValue) :=
  match descriptor "read_file" "Read a file" with
  | PyDict fields => fields
  | _ => []
  end.

(** *** The manager *)

Definition manager_env : Manager.Env :=
  {| Manager.chat_env := chat_env;
     Manager.kb_env := kb_env completes_at_once;
     Manager.mcp_env := mcp_env;
     Manager.max_tool_rounds := 5;
     Manager.enable_auto_tool_calling := true |}.

(** A manager after [initialize]: connected, with an empty session. *)
Definition manager_world : Manager.World :=
  {| Manager.chat :=
       {| Chat.session := Session.init;
          Chat._tool_config := None;
          Chat.mcp_session := true;
          Chat.llm_log := [];
          Chat.tool_log := [] |};
     Manager.kb := indexed_world;
     Manager.mcp := mcp_connected;
     Manager._mcp_client := true |}.

Definition processed : Res Chat.TurnResult * Manager.World :=
  Manager.process_message (H := Ref.runtime) manager_env 5 "What is in README.md?"
    None true manager_world.

Definition synced : Res unit * Manager.World :=
  Manager.sync_tools_to_kb (H := Ref.runtime) manager_env 121 manager_world.

End Sample.

(** * Properties *)

(** ** The session *)

Section SessionFacts.
Import Session.
Context `{PyRuntime}.





End SessionFacts.

(** ** The orchestrator *)

Section ChatFacts.
Import Session Chat.
Context `{PyRuntime}.
Variable env : Env.

(** *** Steps that do not reach the hosted LLM *)

Lemma update_session_spec (f : ChatSession -> ChatSession) (w : World) :
  exists w', update_session f w = (Ok tt, w')
    /\ session w' = f (session w)
    /\ llm_log w' = llm_log w
    /\ mcp_session w' = mcp_session w
    /\ _tool_config w' = _tool_config w.
Proof. eexists; repeat split. Qed.


(** One tool invocation never raises: it leaves the tool-use message and
    one tool-result message in the session, sends nothing to the hosted
    LLM, asks the tool host once when there is a protocol session, and
    the result message reports the failure when the host fails. *)
Lemma handle_one_tool_spec (tool : ToolUse) (w : World) :
  exists w' result_message,
    handle_one_tool env tool w = (Ok tt, w')
    /\ messages (session w') = messages (session w) ++ [tool_use_message tool; result_message]
    /\ llm_log w' = llm_log w
    /\ mcp_session w' = mcp_session w
    /\ _tool_config w' = _tool_config w
    /\ (mcp_session w = true ->
        length (tool_log w') = S (length (tool_log w))
        /\ (host_fails (tool_host env (length (tool_log w)) (name tool) (input tool)) ->
            result_message
            = error_result_message tool
                ("Tool " +:+ name tool +:+ " failed: "
                 +:+ "Failed to call tool " +:+ name tool +:+ ": "
                 +:+ failure_text (name tool)
                       (tool_host env (length (tool_log w)) (name tool) (input tool))))).
Proof.
  unfold handle_one_tool, call_tool, try_except, bind, get, update_session, modify,
    session_call_tool, raise, ret.
  cbn [session _tool_config mcp_session llm_log tool_log].
  destruct (mcp_session w) eqn:Hc; cbn [negb].
  - destruct (tool_host env _ (name tool) (input tool)) as [r|e] eqn:Hh; cbn [host_fails failure_text].
    + destruct (isError r) eqn:Herr; cbn.
      * eexists _, _. split; [reflexivity|]. cbn.
        rewrite <- app_assoc. cbn. repeat split; auto.
        rewrite length_app. cbn. lia.
      * destruct (truthy_str _); [destruct (json_loads _)|];
          (eexists _, _; split; [reflexivity|]; cbn;
           rewrite <- app_assoc; cbn; repeat split; auto;
           [rewrite length_app; cbn; lia | intros; congruence]).
    + cbn. eexists _, _. split; [reflexivity|]. cbn.
      rewrite <- app_assoc. cbn. repeat split; auto.
      rewrite length_app. cbn. lia.
  - cbn. eexists _, _. split; [reflexivity|]. cbn.
    rewrite <- app_assoc. cbn. repeat split; auto; discriminate.
Qed.


(** The tool invocations of one reply: none raises, each leaves its
    messages after those already in the session. *)
Lemma for_each_tools_spec (tools : list ToolUse) (w : World) :
  exists w' added,
    for_each tools (handle_one_tool env) w = (Ok tt, w')
    /\ messages (session w') = messages (session w) ++ added
    /\ llm_log w' = llm_log w
    /\ mcp_session w' = mcp_session w
    /\ _tool_config w' = _tool_config w
    /\ (mcp_session w = true ->
        length (tool_log w') = (length (tool_log w) + length tools)%nat).
Proof.
  revert w. induction tools as [|t tools IH]; intros w.
  - exists w, []. rewrite app_nil_r. repeat split. cbn. lia.
  - cbn [for_each]. unfold bind.
    destruct (handle_one_tool_spec t w) as (w1 & m & E1 & S1 & L1 & C1 & T1 & H1).
    rewrite E1.
    destruct (IH w1) as (w2 & added & E2 & S2 & L2 & C2 & T2 & H2).
    exists w2, ([tool_use_message t; m] ++ added).
    split; [exact E2|]. split; [rewrite S2, S1, <- app_assoc; reflexivity|].
    repeat split; try congruence.
    intros Hc. destruct (H1 Hc) as [Hlen _].
    rewrite H2 by congruence. cbn [length]. lia.
Qed.

Lemma for_each_tools_returns (tools : list ToolUse) (w : World) :
  exists w', for_each tools (handle_one_tool env) w = (Ok tt, w')
    /\ llm_log w' = llm_log w
    /\ mcp_session w' = mcp_session w
    /\ _tool_config w' = _tool_config w.
Proof.
  destruct (for_each_tools_spec tools w) as (w' & added & E & _ & L & C & T & _).
  exists w'. auto.
Qed.

(** [_handle_tool_use] returns whenever the reply has a content list; no
    failure of a tool makes it raise. *)
Lemma handle_tool_use_returns (om : OutputMessage) (blocks : list ContentBlock)
  (w : World) :
  om_content om = Some blocks ->
  exists w', _handle_tool_use env om w = (Ok tt, w')
    /\ llm_log w' = llm_log w
    /\ mcp_session w' = mcp_session w
    /\ _tool_config w' = _tool_config w.
Proof.
  intros Hc. unfold _handle_tool_use. rewrite Hc.
  apply for_each_tools_returns.
Qed.

Lemma handle_tool_use_outcome (om : OutputMessage) (w : World) :
  exists r w', _handle_tool_use env om w = (r, w')
    /\ r <> OutOfFuel
    /\ llm_log w' = llm_log w
    /\ _tool_config w' = _tool_config w.
Proof.
  destruct (om_content om) as [blocks|] eqn:Hc.
  - destruct (handle_tool_use_returns om blocks w Hc) as (w' & E & L & _ & T).
    exists (Ok tt), w'. repeat split; auto; discriminate.
  - unfold _handle_tool_use. rewrite Hc. unfold raise.
    eexists _, _. repeat split; discriminate.
Qed.

(** *** One call of the hosted LLM *)

Lemma converse_outcome (messages : list Message) (model_id : option string)
  (tool_config : option (list (string * PyValue))) (w : World) :
  exists r w', converse env messages model_id tool_config w = (r, w')
    /\ llm_log w' = llm_log w ++ [request_params env messages model_id tool_config]
    /\ session w' = session w
    /\ _tool_config w' = _tool_config w
    /\ mcp_session w' = mcp_session w
    /\ tool_log w' = tool_log w
    /\ match llm_api env (length (llm_log w)) (request_params env messages model_id tool_config) with
       | LLMReturns resp => r = Ok resp
       | LLMRaises e => exists e', r = Raise e' /\ exc_class e' = BedrockError
       end.
Proof.
  unfold converse, try_except, client_converse.
  destruct (llm_api env _ _) as [resp|e].
  - eexists _, _. repeat split.
  - destruct (isinstance_exc e ClientError); unfold raise;
      eexists _, _; repeat split; eexists; split; reflexivity.
Qed.

(** *** The round loop *)

Section Turn.
Variable model_id : option string.
Variable tool_config : option (list (string * PyValue)).
Variable max_tool_rounds : Z.

Lemma rounds_loop_exit (fuel : nat) (tool_rounds : Z) (total : UsageInfo) (w : World) :
  max_tool_rounds <= tool_rounds ->
  rounds_loop env model_id tool_config max_tool_rounds fuel tool_rounds total w
  = (Ok (LimitReached tool_rounds total), w).
Proof.
  intros Hge. destruct fuel; cbn [rounds_loop];
    (destruct (Z.ltb_spec tool_rounds max_tool_rounds); [lia|reflexivity]).
Qed.

Lemma rounds_loop_step (fuel : nat) (tool_rounds : Z) (total : UsageInfo) (w : World) :
  tool_rounds < max_tool_rounds ->
  rounds_loop env model_id tool_config max_tool_rounds (S fuel) tool_rounds total w
  = match converse env (get_messages (session w)) model_id
            (effective_tool_config tool_config w) w with
    | (Ok response, w1) =>
        let total' := add_usage total (get_usage_info response) in
        let response_text := _extract_text_content (output_message response) in
        let w2 := after_text response_text w1 in
        if String.eqb (stopReason response) "tool_use" then
          match _handle_tool_use env (output_message response) w2 with
          | (Ok _, w3) =>
              rounds_loop env model_id tool_config max_tool_rounds fuel
                (tool_rounds + 1) total' w3
          | (Raise e, w3) => (Raise e, w3)
          | (OutOfFuel, w3) => (OutOfFuel, w3)
          end
        else
          (Ok (Returned {| res_text := response_text;
                           res_usage := total';
                           res_stop_reason := stopReason response;
                           res_tool_rounds := tool_rounds;
                           res_max_rounds_reached := None |}), w2)
    | (Raise e, w1) => (Raise e, w1)
    | (OutOfFuel, w1) => (OutOfFuel, w1)
    end.
Proof.
  intros Hlt. cbn [rounds_loop].
  destruct (Z.ltb_spec tool_rounds max_tool_rounds); [|lia].
  unfold bind at 1. unfold get at 1. unfold bind at 1.
  destruct (converse env _ model_id _ w) as [[response|e|] w1]; try reflexivity.
  unfold bind at 1. unfold after_text.
  destruct (truthy_str (_extract_text_content (output_message response))).
  - cbn [update_session modify snd].
    destruct (String.eqb (stopReason response) "tool_use"); reflexivity.
  - cbn [ret]. destruct (String.eqb (stopReason response) "tool_use"); reflexivity.
Qed.

Lemma after_text_keeps (t : option string) (w : World) :
  llm_log (after_text t w) = llm_log w
  /\ _tool_config (after_text t w) = _tool_config w
  /\ mcp_session (after_text t w) = mcp_session w.
Proof. unfold after_text. destruct (truthy_str t); repeat split. Qed.


Lemma attached_stable (w w' : World) :
  _tool_config w' = _tool_config w -> attached tool_config w' = attached tool_config w.
Proof. unfold attached, effective_tool_config. intros ->. reflexivity. Qed.

(** The loop, from any round counter: it ends with the fuel left by the
    rounds still allowed, asks the hosted LLM at most that many times,
    attaches the same tool configuration each time, and leaves the
    counter between its start value and the limit. *)
Lemma rounds_loop_bounded (fuel : nat) :
  forall (tool_rounds : Z) (total : UsageInfo) (w : World),
    (Z.to_nat (max_tool_rounds - tool_rounds) <= fuel)%nat ->
    exists r w' reqs,
      rounds_loop env model_id tool_config max_tool_rounds fuel tool_rounds total w
        = (r, w')
      /\ r <> OutOfFuel
      /\ llm_log w' = llm_log w ++ reqs
      /\ (length reqs <= Z.to_nat (max_tool_rounds - tool_rounds))%nat
      /\ Forall (fun q => toolConfig q = attached tool_config w) reqs
      /\ _tool_config w' = _tool_config w
      /\ match r with
         | Ok (Returned res) =>
             tool_rounds <= res_tool_rounds res < max_tool_rounds
             /\ res_max_rounds_reached res = None
         | Ok (LimitReached n _) => n = Z.max tool_rounds max_tool_rounds
         | _ => True
         end.
Proof.
  induction fuel as [|fuel IH]; intros tool_rounds total w Hfuel.
  - rewrite rounds_loop_exit by lia.
    exists (Ok (LimitReached tool_rounds total)), w, [].
    rewrite app_nil_r. repeat split; auto; try discriminate; cbn; lia.
  - destruct (Z.lt_ge_cases tool_rounds max_tool_rounds) as [Hlt|Hge].
    2:{ rewrite rounds_loop_exit by lia.
        exists (Ok (LimitReached tool_rounds total)), w, [].
        rewrite app_nil_r. repeat split; auto; try discriminate; cbn; lia. }
    rewrite rounds_loop_step by exact Hlt.
    destruct (converse_outcome (get_messages (session w)) model_id
                (effective_tool_config tool_config w) w)
      as (r & w1 & E1 & L1 & _ & T1 & _ & _ & Hr).
    rewrite E1.
    set (q := request_params env (get_messages (session w)) model_id
                (effective_tool_config tool_config w)) in *.
    assert (Hq : toolConfig q = attached tool_config w) by reflexivity.
    destruct (llm_api env _ q) as [resp|e].
    + subst r. cbv zeta.
      destruct (after_text_keeps (_extract_text_content (output_message resp)) w1)
        as (L2 & T2 & _).
      set (w2 := after_text _ w1) in *.
      destruct (String.eqb (stopReason resp) "tool_use").
      * destruct (handle_tool_use_outcome (output_message resp) w2)
          as (r3 & w3 & E3 & N3 & L3 & T3).
        rewrite E3. destruct r3 as [[]|e|]; [| |contradiction].
        -- destruct (IH (tool_rounds + 1) (add_usage total (get_usage_info resp)) w3)
             as (r & w' & reqs & E & N & L & B & F & T & P); [lia|].
           exists r, w', (q :: reqs). rewrite E.
           repeat split; auto.
           ++ rewrite L, L3, L2, L1, <- app_assoc. reflexivity.
           ++ cbn [length]. lia.
           ++ constructor; [exact Hq|].
              rewrite (attached_stable w w3) in F by congruence. exact F.
           ++ congruence.
           ++ destruct r as [[res|n u]|e|]; auto; [destruct P; split; [lia|auto]|lia].
        -- exists (Raise e), w3, [q].
           repeat split; auto; try discriminate.
           ++ congruence.
           ++ cbn [length]. lia.
           ++ congruence.
      * eexists _, w2, [q]. split; [reflexivity|].
        repeat split; auto; try discriminate; cbn; try congruence; lia.
    + destruct Hr as (e' & -> & _).
      exists (Raise e'), w1, [q].
      repeat split; auto; try discriminate; cbn; lia.
Qed.

(** The code after the loop asks the hosted LLM once at the round limit,
    and not at all after the loop's own [return]. *)
Lemma final_call_outcome (exit : LoopExit) (w : World) :
  exists r w' reqs,
    final_call env model_id tool_config exit w = (r, w')
    /\ r <> OutOfFuel
    /\ llm_log w' = llm_log w ++ reqs
    /\ match exit with
       | Returned res => r = Ok res /\ reqs = []
       | LimitReached n total =>
           let q := request_params env (get_messages (session w)) model_id
                      (effective_tool_config tool_config w) in
           reqs = [q]
           /\ match llm_api env (length (llm_log w)) q with
              | LLMReturns resp =>
                  r = Ok {| res_text := _extract_text_content (output_message resp);
                            res_usage := add_usage total (get_usage_info resp);
                            res_stop_reason := stopReason resp;
                            res_tool_rounds := n;
                            res_max_rounds_reached := Some true |}
              | LLMRaises _ => exists e, r = Raise e /\ exc_class e = BedrockError
              end
       end.
Proof.
  destruct exit as [res|n total]; cbn [final_call].
  - exists (Ok res), w, []. rewrite app_nil_r. repeat split; discriminate.
  - unfold bind at 1. unfold get at 1. unfold bind at 1.
    destruct (converse_outcome (get_messages (session w)) model_id
                (effective_tool_config tool_config w) w)
      as (r & w1 & E1 & L1 & _ & _ & _ & _ & Hr).
    rewrite E1. cbv zeta.
    destruct (llm_api env _ _) as [resp|e].
    + subst r. unfold bind.
      destruct (truthy_str (_extract_text_content (output_message resp)));
        cbn [update_session modify ret];
        eexists _, _, _; (split; [reflexivity|]);
        (split; [discriminate|]); cbn [llm_log]; repeat split; exact L1.
    + destruct Hr as (e' & -> & He').
      exists (Raise e'), w1, [request_params env (get_messages (session w)) model_id
                               (effective_tool_config tool_config w)].
      repeat split; auto; try discriminate. exists e'; auto.
Qed.

(** C1. For every limit [max_tool_rounds >= 0] and whatever the hosted LLM
    and the tool host answer, one run of the turn loop ends (any fuel of
    at least [max_tool_rounds] is enough), sends at most
    [max_tool_rounds + 1] requests to the hosted LLM, and a returned
    result has [0 <= tool_rounds <= max_tool_rounds]. *)
Theorem C1_turn_loop_bounded (fuel : nat) (w : World) :
  0 <= max_tool_rounds ->
  (Z.to_nat max_tool_rounds <= fuel)%nat ->
  exists r w' reqs,
    _generate_response_with_tools env fuel model_id tool_config max_tool_rounds w
      = (r, w')
    /\ r <> OutOfFuel
    /\ llm_log w' = llm_log w ++ reqs
    /\ Z.of_nat (length reqs) <= max_tool_rounds + 1
    /\ (forall res, r = Ok res -> 0 <= res_tool_rounds res <= max_tool_rounds).
Proof.
  intros Hmax Hfuel. unfold _generate_response_with_tools, bind.
  destruct (rounds_loop_bounded fuel 0 zero_usage w)
    as (r & w1 & reqs & E & N & L & B & _ & _ & P); [rewrite Z.sub_0_r; exact Hfuel|].
  rewrite E. rewrite Z.sub_0_r in B.
  destruct r as [exit|e|]; [| |contradiction].
  - destruct (final_call_outcome exit w1) as (r2 & w2 & reqs2 & E2 & N2 & L2 & P2).
    rewrite E2. exists r2, w2, (reqs ++ reqs2).
    split; [reflexivity|]. split; [exact N2|].
    split; [rewrite L2, L, app_assoc; reflexivity|].
    destruct exit as [res|n total].
    + destruct P2 as [-> ->]. rewrite app_nil_r.
      split; [lia|]. intros res' [= <-]. lia.
    + cbv zeta in P2. destruct P2 as [-> P2]. rewrite length_app. cbn [length].
      split; [lia|]. intros res Hres.
      destruct (llm_api env _ _).
      * rewrite P2 in Hres. injection Hres as <-. cbn [res_tool_rounds]. lia.
      * destruct P2 as (e0 & -> & _). discriminate.
  - exists (Raise e), w1, reqs. repeat split; auto; try discriminate. lia.
Qed.





End Turn.

End ChatFacts.

(** ** The knowledge base *)

(** *** Reading a computation that returned *)

Lemma bind_ok {S A B} (m : M S A) (k : A -> M S B) (s s' : S) (b : B) :
  bind m k s = (Ok b, s') ->
  exists a s1, m s = (Ok a, s1) /\ k a s1 = (Ok b, s').
Proof.
  unfold bind. destruct (m s) as [[a|e|] s1]; intros E; try discriminate.
  exists a, s1. auto.
Qed.

Lemma try_except_reraise_ok {S A} (body : M S A) (f : Exc -> Exc) (s s' : S) (a : A) :
  try_except body (fun e => Some (raise (f e))) s = (Ok a, s') ->
  body s = (Ok a, s').
Proof.
  unfold try_except, raise. destruct (body s) as [[x|e|] s1]; intros E;
    try discriminate; exact E.
Qed.

Lemma try_except_raising_ok {S A} (body : M S A) (handler : Exc -> option (M S A))
  (s s' : S) (a : A) :
  (forall e, exists e', handler e = Some (raise e')) ->
  try_except body handler s = (Ok a, s') ->
  body s = (Ok a, s').
Proof.
  intros Hh. unfold try_except. destruct (body s) as [[x|e|] s1]; intros E;
    try discriminate; [exact E|].
  destruct (Hh e) as [e' He]. rewrite He in E. discriminate.
Qed.

Lemma try_finally_ok {S A} (body : M S A) (cleanup : M S unit) (s s' : S) (a : A) :
  try_finally body cleanup s = (Ok a, s') ->
  exists s1, body s = (Ok a, s1) /\ s' = snd (cleanup s1).
Proof.
  unfold try_finally. destruct (body s) as [r s1]. intros [= -> <-].
  exists s1. auto.
Qed.

Section KBFacts.
Import KB.
Context `{PyRuntime}.
Variable env : Env.

Lemma collaborator_ok {A} (ev : Event) (effect : M World A) (w w' : World) (a : A) :
  collaborator env ev effect w = (Ok a, w') ->
  fault env (length (trace w)) = None /\ effect (log_event ev w) = (Ok a, w').
Proof.
  unfold collaborator. destruct (fault env _); intros E; [discriminate|auto].
Qed.

(** *** The validation of [write_tools_to_knowledge_base] *)

(** C5. With an empty tool list the write raises [ValueError] and the
    world is the one it started in: the objects, the index and the list
    of calls made to the collaborators are unchanged.  Through
    [BedrockKnowledgeBase.write_tools] the same error arrives wrapped, and
    the world is unchanged as well. *)
Theorem C5_empty_tool_list_rejected (fuel : nat) (w : World) :
  write_tools_to_knowledge_base env fuel (PyDict [("tools", PyList [])]) w
  = (Raise (mkExc ValueError "Invalid tools_data format: 'tools' list cannot be empty"), w)
  /\ write_tools env fuel (PyDict [("tools", PyList [])]) w
     = (Raise (mkExc KnowledgeBaseError
                 ("Failed to write tools to Knowledge Base: "
                  +:+ "Invalid tools_data format: 'tools' list cannot be empty")), w).
Proof. split; reflexivity. Qed.

(** *** One pass of the wait loop *)

(** What one pass does with an answered request, status by status. *)
Lemma poll_once_answered (ingestion_job_id : PyValue) (poll_interval : Z) (w : World)
  (d job : list (string * PyValue)) (st : PyValue) :
  fault env (length (trace w)) = None ->
  job_reply env (polls w) = PyDict d ->
  dict_get "ingestionJob" d = Some (PyDict job) ->
  dict_get "status" job = Some st ->
  poll_once env ingestion_job_id poll_interval w
  = let w1 := polled env ingestion_job_id w in
    if is_str (Some st) "COMPLETE" then (Ok (Some st), w1)
    else if is_str (Some st) "FAILED" then
      (Raise (mkExc KnowledgeBaseError
                ("Ingestion job " +:+ py_str ingestion_job_id +:+ " failed: "
                 +:+ py_str (default (PyList [PyStr "Unknown error"])
                               (dict_get "failureReasons" d)))), w1)
    else if is_str (Some st) "STOPPED" then (Ok (Some st), w1)
    else if poll_interval <? 0 then
      (Raise (mkExc KnowledgeBaseError
                ("Failed to check ingestion job status: "
                 +:+ "sleep length must be non-negative")), w1)
    else
      (Ok None, set_clock (clock w1 + poll_interval * ticks_per_second env) w1).
Proof.
  intros Hf Hr Hd Hj. unfold polled.
  unfold poll_once, try_except, bind at 1. unfold get_ingestion_job.
  rewrite Hf, Hr. cbn [snd].
  set (w1 := if is_str _ "COMPLETE" then _ else _).
  unfold bind at 1. cbn [getitem]. rewrite Hd. unfold ret at 1.
  unfold bind at 1. cbn [getitem]. rewrite Hj. unfold ret at 1.
  cbv zeta.
  destruct (is_str (Some st) "COMPLETE"); [reflexivity|].
  destruct (is_str (Some st) "FAILED"); [reflexivity|].
  destruct (is_str (Some st) "STOPPED"); [reflexivity|].
  unfold bind, time_sleep. destruct (poll_interval <? 0); reflexivity.
Qed.

(** Past the time limit the loop raises [TimeoutError], which is not a
    [KnowledgeBaseError]. *)
Lemma wait_loop_timeout (ingestion_job_id : PyValue) (timeout poll_interval : Z)
  (start_time : Z) (fuel : nat) (w : World) :
  timeout * ticks_per_second env <= clock w - start_time ->
  exists e, wait_loop env ingestion_job_id timeout poll_interval start_time fuel w
            = (Raise e, w)
    /\ exc_class e = TimeoutError
    /\ isinstance_exc e KnowledgeBaseError = false.
Proof.
  intros Hlate. eexists.
  destruct fuel; cbn [wait_loop]; unfold bind, time_time;
    (destruct (Z.ltb_spec (clock w - start_time) (timeout * ticks_per_second env));
     [lia|]); unfold raise; repeat split.
Qed.

Lemma wait_loop_step (ingestion_job_id : PyValue) (timeout poll_interval : Z)
  (start_time : Z) (fuel : nat) (w : World) :
  clock w - start_time < timeout * ticks_per_second env ->
  wait_loop env ingestion_job_id timeout poll_interval start_time (S fuel) w
  = match poll_once env ingestion_job_id poll_interval w with
    | (Ok (Some st), w1) => (Ok st, w1)
    | (Ok None, w1) =>
        wait_loop env ingestion_job_id timeout poll_interval start_time fuel w1
    | (Raise e, w1) => (Raise e, w1)
    | (OutOfFuel, w1) => (OutOfFuel, w1)
    end.
Proof.
  intros Hin. cbn [wait_loop]. unfold bind at 1. unfold time_time at 1.
  destruct (Z.ltb_spec (clock w - start_time) (timeout * ticks_per_second env)); [|lia].
  unfold bind.
  destruct (poll_once env ingestion_job_id poll_interval w) as [[[st|]|e|] w1];
    reflexivity.
Qed.

(** One pass takes no fuel, and a pass that ends without [return] has
    slept: the clock is later by the poll interval at least. *)
Lemma poll_once_progress (ingestion_job_id : PyValue) (poll_interval : Z) (w : World) :
  (forall n, 0 <= poll_duration env n) ->
  0 <= ticks_per_second env ->
  exists r w1,
    poll_once env ingestion_job_id poll_interval w = (r, w1)
    /\ r <> OutOfFuel
    /\ (r = Ok None -> clock w + poll_interval * ticks_per_second env <= clock w1).
Proof.
  intros Hd Ht.
  unfold poll_once, try_except, bind at 1. unfold get_ingestion_job.
  destruct (fault env _) as [e|].
  { destruct (isinstance_exc e KnowledgeBaseError); unfold raise;
      eexists _, _; (split; [reflexivity|]); split; discriminate. }
  set (w1 := if is_str _ "COMPLETE" then _ else _).
  assert (Hc : clock w1 = clock w + poll_duration env (polls w)).
  { unfold w1. destruct (is_str _ "COMPLETE"); reflexivity. }
  clearbody w1.
  destruct (job_reply env (polls w)) as [| | | | | |d];
    try (cbn; eexists _, _; (split; [reflexivity|]); split; discriminate).
  unfold bind at 1. cbn [getitem].
  destruct (dict_get "ingestionJob" d) as [job|];
    [|cbn; eexists _, _; (split; [reflexivity|]); split; discriminate].
  unfold ret at 1. unfold bind at 1.
  destruct job as [| | | | | |j];
    try (cbn; eexists _, _; (split; [reflexivity|]); split; discriminate).
  cbn [getitem].
  destruct (dict_get "status" j) as [st|];
    [|cbn; eexists _, _; (split; [reflexivity|]); split; discriminate].
  unfold ret at 1.
  destruct (is_str (Some st) "COMPLETE");
    [cbn; eexists _, _; (split; [reflexivity|]); split; discriminate|].
  destruct (is_str (Some st) "FAILED");
    [cbn; eexists _, _; (split; [reflexivity|]); split; discriminate|].
  destruct (is_str (Some st) "STOPPED");
    [cbn; eexists _, _; (split; [reflexivity|]); split; discriminate|].
  unfold bind, time_sleep. destruct (Z.ltb_spec poll_interval 0).
  - cbn. eexists _, _. (split; [reflexivity|]); split; discriminate.
  - cbn. eexists _, _. split; [reflexivity|]. split; [discriminate|].
    intros _. cbn [clock set_clock]. rewrite Hc. specialize (Hd (polls w)). lia.
Qed.

(** The wait ends: with a positive poll interval, a clock that does not
    run backwards, and the fuel of one pass for each interval that fits
    in what is left of the time limit, it does not run out of fuel. *)
Lemma wait_loop_ends (ingestion_job_id : PyValue) (timeout poll_interval : Z)
  (start_time : Z) :
  (forall n, 0 <= poll_duration env n) ->
  0 < ticks_per_second env ->
  0 < poll_interval ->
  forall (fuel : nat) (w : World),
    timeout * ticks_per_second env - (clock w - start_time)
    <= Z.of_nat fuel * (poll_interval * ticks_per_second env) ->
    fst (wait_loop env ingestion_job_id timeout poll_interval start_time fuel w)
    <> OutOfFuel.
Proof.
  intros Hd Ht Hp. induction fuel as [|fuel IH]; intros w Hleft.
  - destruct (wait_loop_timeout ingestion_job_id timeout poll_interval start_time 0 w)
      as (e & E & _); [lia|]. rewrite E. discriminate.
  - destruct (Z.lt_ge_cases (clock w - start_time) (timeout * ticks_per_second env))
      as [Hin|Hout].
    + rewrite wait_loop_step by exact Hin.
      destruct (poll_once_progress ingestion_job_id poll_interval w Hd)
        as (r & w1 & E & N & P); [lia|].
      rewrite E. destruct r as [[st|]|e|]; try discriminate; [|contradiction].
      apply IH. specialize (P eq_refl). nia.
    + destruct (wait_loop_timeout ingestion_job_id timeout poll_interval start_time
                  (S fuel) w) as (e & E & _); [lia|]. rewrite E. discriminate.
Qed.

Lemma wait_for_ingestion_job_ends (fuel : nat) (ingestion_job_id : PyValue)
  (timeout poll_interval : Z) (w : World) :
  (forall n, 0 <= poll_duration env n) ->
  0 < ticks_per_second env ->
  0 < poll_interval ->
  timeout <= Z.of_nat fuel * poll_interval ->
  fst (wait_for_ingestion_job env fuel ingestion_job_id timeout poll_interval w)
  <> OutOfFuel.
Proof.
  intros Hd Ht Hp Hfuel. unfold wait_for_ingestion_job, bind, time_time.
  apply wait_loop_ends; auto. nia.
Qed.

(** *** The query *)




(** *** The steps of a write that returned *)

Lemma prefix_append (p x : string) : String.prefix p (p +:+ x) = true.
Proof.
  induction p as [|c p IH].
  - destruct x; reflexivity.
  - change (String.prefix (String c p) (String c (p +:+ x)) = true).
    cbn [String.prefix]. destruct (ascii_dec c c); [exact IH|congruence].
Qed.

Lemma wait_deleted_logs (key : string) (w : World) :
  wait_deleted env key w = (Ok tt, log_event (WaitObjectNotExists key) w).
Proof.
  unfold wait_deleted, try_except, wait_object_not_exists, collaborator.
  destruct (fault env _); [reflexivity|].
  cbn [s3 log_event]. destruct (s3 w !! key); reflexivity.
Qed.

Lemma wait_deleted_all (keys : list string) (w : World) :
  exists w', for_each keys (wait_deleted env) w = (Ok tt, w') /\ s3 w' = s3 w.
Proof.
  revert w. induction keys as [|k keys IH]; intros w.
  - exists w. split; reflexivity.
  - cbn [for_each]. unfold bind. rewrite wait_deleted_logs.
    destruct (IH (log_event (WaitObjectNotExists k) w)) as (w' & E & Hs).
    exists w'. split; [exact E|]. rewrite Hs. reflexivity.
Qed.

Lemma corpus_keys (w : World) (k : string) :
  k ∈ map fst (map_to_list (corpus env w))
  <-> is_Some (s3 w !! k) /\ String.prefix (s3_prefix env) k = true.
Proof.
  rewrite list_elem_of_fmap. split.
  - intros ([k' v] & -> & Hin). apply elem_of_map_to_list in Hin.
    unfold corpus in Hin. apply map_lookup_filter_Some in Hin as [Hl Hp].
    split; [eauto|exact Hp].
  - intros [[v Hl] Hp]. exists (k, v). split; [reflexivity|].
    apply elem_of_map_to_list. unfold corpus. apply map_lookup_filter_Some.
    split; [exact Hl|exact Hp].
Qed.

Lemma clear_ok (w w1 : World) (b : bool) :
  clear_knowledge_base_chunks env w = (Ok b, w1) ->
  corpus env w1 = ∅
  /\ (forall k, String.prefix (s3_prefix env) k = false -> s3 w1 !! k = s3 w !! k).
Proof.
  intros E. unfold clear_knowledge_base_chunks in E.
  apply try_except_reraise_ok in E.
  apply bind_ok in E as (keys & wa & Ea & E).
  unfold list_objects_v2 in Ea. apply collaborator_ok in Ea as [_ Ea].
  injection Ea as <- <-.
  set (wa := log_event (ListObjects (s3_prefix env)) w) in *.
  assert (Hwa : s3 wa = s3 w) by reflexivity.
  assert (Hs : s3 w1 = foldr delete (s3 w) (map fst (map_to_list (corpus env wa)))).
  { destruct (map fst (map_to_list (corpus env wa))) as [|k keys] eqn:Hk.
    - injection E as _ <-. reflexivity.
    - apply bind_ok in E as ([] & wb & Eb & E).
      unfold delete_objects in Eb. apply collaborator_ok in Eb as [_ Eb].
      assert (Hb : s3 wb = foldr delete (s3 w) (k :: keys))
        by (injection Eb as <-; reflexivity).
      apply bind_ok in E as ([] & wc & Ec & E).
      destruct (wait_deleted_all (k :: keys) wb) as (wc' & Ec' & Hc).
      rewrite Ec' in Ec. injection Ec as <-.
      injection E as _ <-. rewrite Hc. exact Hb. }
  split.
  - unfold corpus. apply map_eq. intros k. rewrite lookup_empty.
    apply map_lookup_filter_None. destruct (s3 w1 !! k) as [v|] eqn:Hl; [right|left; auto].
    intros x [= <-] Hp. rewrite Hs in Hl.
    apply lookup_foldr_delete_Some in Hl as [Hnot Hl].
    apply Hnot. apply corpus_keys. split; [rewrite Hwa; eauto|exact Hp].
  - intros k Hp. rewrite Hs. apply lookup_foldr_delete_not_elem_of.
    intros Hin. apply corpus_keys in Hin as [_ Hp']. congruence.
Qed.

Lemma create_temp_ok (tools : PyValue) (path : string) (w w2 : World) :
  _create_temp_jsonl_file env tools w = (Ok path, w2) ->
  exists items,
    py_iter tools = Some items
    /\ files w2 !! path = Some (jsonl items)
    /\ s3 w2 = s3 w.
Proof.
  intros E. unfold _create_temp_jsonl_file in E.
  apply try_except_reraise_ok in E.
  apply bind_ok in E as (w0 & wa & Ea & E). injection Ea as <- <-.
  apply bind_ok in E as ([] & wb & Eb & E).
  apply collaborator_ok in Eb as [_ Eb]. injection Eb as <-.
  destruct (py_iter tools) as [items|]; [|discriminate].
  apply bind_ok in E as ([] & wc & Ec & E). injection Ec as <-.
  injection E as <- <-. exists items. split; [reflexivity|].
  cbn [files set_files s3]. split; [apply lookup_insert_eq|reflexivity].
Qed.

Lemma upload_ok (path key : string) (w w3 : World) :
  _upload_to_s3 env path w = (Ok key, w3) ->
  exists body,
    files w !! path = Some body
    /\ key = s3_prefix env +:+ basename path
    /\ s3 w3 = <[key := body]> (s3 w).
Proof.
  intros E. unfold _upload_to_s3 in E.
  apply try_except_reraise_ok in E. cbv zeta in E.
  apply bind_ok in E as ([] & wa & Ea & E).
  apply collaborator_ok in Ea as [_ Ea]. cbn [files log_event] in Ea.
  destruct (files w !! path) as [body|] eqn:Hf; [|discriminate].
  injection Ea as <-.
  apply bind_ok in E as ([] & wb & Eb & E).
  apply collaborator_ok in Eb as [_ Eb].
  destruct (s3 _ !! _); [|discriminate]. injection Eb as <-.
  injection E as <- <-. exists body. repeat split.
Qed.

Lemma start_ok (resp : PyValue) (w w4 : World) :
  _start_ingestion_job env w = (Ok resp, w4) ->
  s3 w4 = s3 w /\ staged w4 = corpus_chunks env w.
Proof.
  intros E. unfold _start_ingestion_job in E.
  apply try_except_reraise_ok in E.
  apply collaborator_ok in E as [_ E]. injection E as _ <-.
  split; reflexivity.
Qed.

Lemma getitem_ok {S} (v : PyValue) (k : string) (x : PyValue) (s s' : S) :
  getitem v k s = (Ok x, s') ->
  s' = s /\ exists d, v = PyDict d /\ dict_get k d = Some x.
Proof.
  destruct v as [| | | | | |d]; cbn; try discriminate.
  destruct (dict_get k d) as [y|] eqn:Hd; cbn; [|discriminate].
  intros [= <- <-]. split; [reflexivity|]. exists d. auto.
Qed.

Lemma is_str_true (v : PyValue) (s : string) :
  is_str (Some v) s = true -> v = PyStr s.
Proof.
  destruct v; cbn; try discriminate. intros E. apply String.eqb_eq in E. congruence.
Qed.

Lemma poll_once_ok (ingestion_job_id : PyValue) (poll_interval : Z) (w w' : World)
  (o : option PyValue) :
  poll_once env ingestion_job_id poll_interval w = (Ok o, w') ->
  s3 w' = s3 w
  /\ staged w' = staged w
  /\ (o = Some (PyStr "COMPLETE") -> index w' = staged w).
Proof.
  intros E. unfold poll_once in E.
  apply try_except_raising_ok in E.
  2:{ intros e. destruct (isinstance_exc e KnowledgeBaseError); eexists; reflexivity. }
  apply bind_ok in E as (reply & w1 & E1 & E).
  unfold get_ingestion_job in E1.
  destruct (fault env _); [discriminate|].
  injection E1 as E1 Hw1.
  apply bind_ok in E as (job & w2 & E2 & E).
  apply getitem_ok in E2 as (-> & d & Hd & Hjob).
  apply bind_ok in E as (st & w3 & E3 & E).
  apply getitem_ok in E3 as (-> & j & Hj & Hst).
  assert (Hrs : reply_status (job_reply env (polls w)) = Some st).
  { rewrite E1, Hd. cbn. rewrite Hjob, Hj. exact Hst. }
  rewrite Hrs in Hw1.
  destruct (is_str (Some st) "COMPLETE") eqn:Hc.
  - injection E as <- <-. subst w1. repeat split.
  - assert (Hne : st <> PyStr "COMPLETE").
    { intros ->. cbn in Hc. discriminate. }
    destruct (is_str (Some st) "FAILED").
    { apply bind_ok in E as (fr & w4 & _ & E). discriminate. }
    destruct (is_str (Some st) "STOPPED").
    { injection E as <- <-. subst w1. repeat split. intros [= ?]. contradiction. }
    apply bind_ok in E as ([] & w4 & E4 & E). injection E as <- <-.
    unfold time_sleep in E4. destruct (poll_interval <? 0); [discriminate|].
    injection E4 as <-. subst w1. repeat split. discriminate.
Qed.

Lemma wait_loop_ok (ingestion_job_id : PyValue) (timeout poll_interval start_time : Z)
  (fuel : nat) :
  forall (w w' : World) (st : PyValue),
    wait_loop env ingestion_job_id timeout poll_interval start_time fuel w = (Ok st, w') ->
    s3 w' = s3 w
    /\ staged w' = staged w
    /\ (st = PyStr "COMPLETE" -> index w' = staged w).
Proof.
  induction fuel as [|fuel IH]; intros w w' st E; cbn [wait_loop] in E;
    apply bind_ok in E as (now & w0 & E0 & E); injection E0 as <- <-;
    (destruct (clock w - start_time <? timeout * ticks_per_second env);
     [|discriminate]); [discriminate|].
  apply bind_ok in E as (o & w1 & E1 & E).
  apply poll_once_ok in E1 as (S1 & G1 & I1).
  destruct o as [st'|].
  - injection E as <- <-. repeat split; auto. intros ->. auto.
  - apply IH in E as (S2 & G2 & I2).
    repeat split; try congruence. intros Hst. rewrite I2 by exact Hst. exact G1.
Qed.

Lemma wait_ok (fuel : nat) (ingestion_job_id : PyValue) (timeout poll_interval : Z)
  (w w' : World) (st : PyValue) :
  wait_for_ingestion_job env fuel ingestion_job_id timeout poll_interval w = (Ok st, w') ->
  s3 w' = s3 w
  /\ staged w' = staged w
  /\ (st = PyStr "COMPLETE" -> index w' = staged w).
Proof.
  intros E. unfold wait_for_ingestion_job in E.
  apply bind_ok in E as (t & w0 & E0 & E). injection E0 as <- <-.
  eapply wait_loop_ok. exact E.
Qed.

(** A write that returns leaves under the prefix exactly one object, the
    lines of the tools it was given; it leaves the other objects alone,
    hands the chunks of that object to the ingestion job, and when the
    job was seen complete the index serves these chunks. *)
Lemma write_ok (fuel : nat) (tools_data : PyValue) (w w' : World)
  (r : IngestionJobResult) :
  write_tools_to_knowledge_base env fuel tools_data w = (Ok r, w') ->
  exists d tools items key,
    tools_data = PyDict d
    /\ dict_get "tools" d = Some tools
    /\ py_iter tools = Some items
    /\ String.prefix (s3_prefix env) key = true
    /\ corpus env w' = {[key := jsonl items]}
    /\ (forall k, String.prefix (s3_prefix env) k = false -> s3 w' !! k = s3 w !! k)
    /\ staged w' = chunker env (jsonl items)
    /\ (status r = PyStr "COMPLETE" -> index w' = staged w').
Proof.
  intros E. unfold write_tools_to_knowledge_base in E.
  destruct tools_data as [| | | | | |d]; try discriminate.
  destruct (dict_get "tools" d) as [tools|] eqn:Hd; [|discriminate].
  destruct (negb (py_truthy tools)); [discriminate|].
  apply try_except_reraise_ok in E.
  apply bind_ok in E as (cleared & w1 & E1 & E).
  apply clear_ok in E1 as (C1 & O1).
  apply bind_ok in E as ([] & w1' & E1' & E).
  assert (w1' = w1) as ->.
  { destruct (negb cleared); [discriminate|]. injection E1' as <-. reflexivity. }
  apply bind_ok in E as (path & w2 & E2 & E).
  apply create_temp_ok in E2 as (items & Hit & F2 & S2).
  apply try_finally_ok in E as (w5 & E & ->).
  apply bind_ok in E as (key & w3 & E3 & E).
  apply upload_ok in E3 as (body & F3 & Hkey & S3).
  rewrite F2 in F3. injection F3 as <-.
  apply bind_ok in E as (resp & w4 & E4 & E).
  apply start_ok in E4 as (S4 & G4).
  apply bind_ok in E as (job & w4' & E4' & E).
  apply getitem_ok in E4' as (-> & _).
  apply bind_ok in E as (jid & w4' & E4' & E).
  apply getitem_ok in E4' as (-> & _).
  apply bind_ok in E as (st & w5' & E5 & E).
  injection E as <- <-.
  apply wait_ok in E5 as (S5 & G5 & I5).
  assert (Hp : String.prefix (s3_prefix env) key = true).
  { rewrite Hkey. apply prefix_append. }
  assert (Hc3 : corpus env w3 = {[key := jsonl items]}).
  { unfold corpus. rewrite S3, S2.
    rewrite map_filter_insert_True by exact Hp.
    fold (corpus env w1). rewrite C1. reflexivity. }
  exists d, tools, items, key.
  assert (S6 : s3 (snd (_cleanup_temp_file path w5')) = s3 w5') by reflexivity.
  assert (G6 : staged (snd (_cleanup_temp_file path w5')) = staged w5') by reflexivity.
  assert (I6 : index (snd (_cleanup_temp_file path w5')) = index w5') by reflexivity.
  set (w6 := snd (_cleanup_temp_file path w5')) in *.
  split; [reflexivity|]. split; [exact Hd|]. split; [exact Hit|].
  split; [exact Hp|].
  split; [unfold corpus in *; rewrite S6, S5, S4; exact Hc3|].
  split.
  { intros k Hk. rewrite S6, S5, S4, S3, S2, lookup_insert_ne; [apply O1; exact Hk|].
    intros <-. congruence. }
  split.
  { rewrite G6, G5, G4. unfold corpus_chunks. rewrite Hc3, map_to_list_singleton.
    cbn. apply app_nil_r. }
  cbn [status]. intros Hst. rewrite I6, G6, I5 by exact Hst. symmetry. exact G5.
Qed.

(** *** Writing twice *)


(** *** The round trip through the reference service *)

Lemma append_cons (c : ascii) (s t : string) :
  String c s +:+ t = String c (s +:+ t).
Proof. reflexivity. Qed.

Lemma append_nil_l (t : string) : "" +:+ t = t.
Proof. reflexivity. Qed.

Lemma append_nil_r (s : string) : s +:+ "" = s.
Proof.
  induction s as [|c s IH]; [reflexivity|]. rewrite append_cons, IH. reflexivity.
Qed.

Lemma append_assoc (a b c : string) : (a +:+ b) +:+ c = a +:+ (b +:+ c).
Proof.
  induction a as [|x a IH]; [reflexivity|]. rewrite !append_cons, IH. reflexivity.
Qed.


Lemma concat_empty_cons (x : string) (xs : list string) :
  String.concat "" (x :: xs) = x +:+ String.concat "" xs.
Proof.
  destruct xs as [|y xs]; cbn [String.concat].
  - symmetry. apply append_nil_r.
  - reflexivity.
Qed.




(** Whatever the ranking, [queryall] returns at most 100 tools: a list
    with more names than that cannot come back whole. *)
Lemma parse_results_length {St} (hits : list PyValue) :
  forall (results fetched : list PyValue) (s s' : St),
    parse_results hits results s = (Ok fetched, s') ->
    (length fetched <= length results + length hits)%nat.
Proof.
  induction hits as [|hit hits IH]; intros results fetched s s' E.
  - injection E as <- _. cbn. lia.
  - cbn [parse_results] in E. apply bind_ok in E as (results1 & s1 & E1 & E).
    apply IH in E. cbn [length].
    assert (length results1 <= S (length results))%nat; [|lia].
    unfold parse_result in E1.
    apply bind_ok in E1 as (c & s2 & _ & E1).
    apply bind_ok in E1 as (t & s3 & _ & E1).
    destruct t; try discriminate.
    destruct (json_loads _).
    + apply bind_ok in E1 as (v & s4 & _ & E1). injection E1 as <- _.
      rewrite length_app. cbn. lia.
    + injection E1 as <- _. lia.
Qed.

Lemma queryall_at_most_100 (rank : string -> list string -> list string)
  (w w' : World) (fetched : PyValue) :
  (forall chunks q k, retrieve_api env chunks q k = ranked_retrieve rank chunks q k) ->
  queryall env w = (Ok fetched, w') ->
  (length (tools_of fetched) <= 100)%nat.
Proof.
  intros Hretr E. unfold queryall in E.
  apply try_except_reraise_ok in E.
  apply bind_ok in E as (r & w1 & E1 & E). injection E as <- _.
  cbn [tools_of dict_get String.eqb]. cbn.
  unfold query_semantic in E1. apply try_except_reraise_ok in E1.
  apply bind_ok in E1 as (resp & w2 & E2 & E1).
  unfold retrieve in E2. apply collaborator_ok in E2 as [_ E2].
  injection E2 as <- <-. rewrite Hretr in E1. unfold ranked_retrieve in E1.
  apply bind_ok in E1 as (hits & w3 & E3 & E1).
  cbn in E3. injection E3 as <- <-. cbn [py_iter] in E1.
  apply bind_ok in E1 as (results & w4 & E4 & E1). injection E1 as <- _.
  cbn [tools]. apply parse_results_length in E4.
  rewrite length_map, length_take in E4. cbn [length] in E4.
  change (Z.to_nat 100) with 100%nat in E4. lia.
Qed.


End KBFacts.

(** ** The statements at concrete inputs *)

Section Examples.
Import Session Chat KB Example.

(** Three tool rounds under a limit of five: the turn returns after the
    fourth call with [tool_rounds = 3] and without ['max_rounds_reached'],
    and the session holds three tool uses and three tool results. *)
Example turn_with_three_tool_rounds :
  let '(r, w) := _generate_response_with_tools (H := Ref.runtime) (chat_env_asking 3)
                   5 None chat_tools 5 chat_world in
  r = Ok {| res_text := Some "I could not read the file.";
            res_usage := {| input_tokens := 560; output_tokens := 100;
                            total_tokens := 660 |};
            res_stop_reason := "end_turn";
            res_tool_rounds := 3;
            res_max_rounds_reached := None |}
  /\ length (llm_log w) = 4%nat
  /\ count_blocks is_tool_use (session w) = 3%nat
  /\ count_blocks is_tool_result (session w) = 3%nat.
Proof. vm_compute. repeat split. Qed.


Lemma C1_turn_loop_bounded_witness :
  exists r w' reqs,
    _generate_response_with_tools (H := Ref.runtime) chat_env 2 None chat_tools 2
      chat_world = (r, w')
    /\ r <> OutOfFuel
    /\ llm_log w' = llm_log chat_world ++ reqs
    /\ Z.of_nat (length reqs) <= 2 + 1
    /\ (forall res, r = Ok res -> 0 <= res_tool_rounds res <= 2).
Proof.
  apply (C1_turn_loop_bounded (H := Ref.runtime) chat_env None chat_tools 2 2 chat_world).
  - lia.
  - cbn. lia.
Defined.



(** C6. At a status request answered with status FAILED and the
    reasons of the failure where the service puts them, under
    ["ingestionJob"], the wait raises [KnowledgeBaseError] with the text
    for no reported reason: the reasons of the service are not in it. *)
Theorem C6_failure_reasons_not_reported :
  fst (wait_for_ingestion_job (H := Ref.runtime)
         (kb_env (fun _ => job_reply_with "FAILED" ["Document too large"]))
         121 (PyStr "job-0") 600 5 (kb_world ∅ []))
  = Raise (mkExc KnowledgeBaseError "Ingestion job job-0 failed: ['Unknown error']").
Proof. vm_compute. reflexivity. Qed.

(** The other outcomes of the wait, on the same knowledge base: a job
    seen complete at the third request, a stopped job, and a job that
    stays in progress for the 600 seconds. *)
Example wait_complete :
  fst (wait_for_ingestion_job (H := Ref.runtime) (kb_env completes_at_third_poll)
         121 (PyStr "job-0") 600 5 (kb_world ∅ []))
  = Ok (PyStr "COMPLETE").
Proof. vm_compute. reflexivity. Qed.

Example wait_stopped :
  fst (wait_for_ingestion_job (H := Ref.runtime)
         (kb_env (fun _ => job_reply_with "STOPPED" []))
         121 (PyStr "job-0") 600 5 (kb_world ∅ []))
  = Ok (PyStr "STOPPED").
Proof. vm_compute. reflexivity. Qed.

Example wait_times_out :
  fst (wait_for_ingestion_job (H := Ref.runtime)
         (kb_env (fun _ => job_reply_with "IN_PROGRESS" []))
         121 (PyStr "job-0") 600 5 (kb_world ∅ []))
  = Raise (mkExc TimeoutError "Ingestion job job-0 did not complete within 600 seconds").
Proof. vm_compute. reflexivity. Qed.

(** C7. With two hits, a tool descriptor and the JSON text of a list, the
    query does not return the descriptor with the count 1: it raises
    [KnowledgeBaseError]. *)
Theorem C7_hit_that_is_not_an_object_fails_the_query :
  fst (query_semantic (H := Ref.runtime) (kb_env completes_at_once) "read a file" 10
         (kb_world ∅ [Ref.dumps (descriptor "read_file" "Read a file"); "[1, 2]"]))
  = Raise (mkExc KnowledgeBaseError
             "Failed to query Knowledge Base: 'list' object has no attribute 'get'").
Proof. vm_compute. reflexivity. Qed.

(** A hit that is not JSON at all is dropped, and the query returns. *)
Example query_drops_undecodable_hit :
  fst (query_semantic (H := Ref.runtime) (kb_env completes_at_once) "read a file" 10
         (kb_world ∅ [Ref.dumps (descriptor "read_file" "Read a file"); "not json"]))
  = Ok {| tools := [descriptor "read_file" "Read a file"]; total_results := 1 |}.
Proof. vm_compute. reflexivity. Qed.




End Examples.

(** * Further properties of the code *)

(** ** Rules for statements about every outcome *)

Section Outcomes.
Context {S : Type}.

Section Preserves.
Variable R : S -> S -> Prop.
Hypothesis R_refl : forall s, R s s.
Hypothesis R_trans : forall s1 s2 s3, R s1 s2 -> R s2 s3 -> R s1 s3.

Lemma preserves_ret {A} (a : A) : preserves R (ret a).
Proof. intros s r s' [= _ <-]. apply R_refl. Qed.

Lemma preserves_raise {A} (e : Exc) : preserves R (@raise S A e).
Proof. intros s r s' [= _ <-]. apply R_refl. Qed.

Lemma preserves_get : preserves R (@get S).
Proof. intros s r s' [= _ <-]. apply R_refl. Qed.

Lemma preserves_modify (f : S -> S) : (forall s, R s (f s)) -> preserves R (modify f).
Proof. intros Hf s r s' [= _ <-]. apply Hf. Qed.

Lemma preserves_bind {A B} (m : M S A) (k : A -> M S B) :
  preserves R m -> (forall a, preserves R (k a)) -> preserves R (bind m k).
Proof.
  intros Hm Hk s r s' E. unfold bind in E.
  destruct (m s) as [[a|e|] s1] eqn:Em.
  - eapply R_trans; [eapply Hm; exact Em|eapply Hk; exact E].
  - injection E as _ <-. eapply Hm; exact Em.
  - injection E as _ <-. eapply Hm; exact Em.
Qed.

Lemma preserves_try_except {A} (body : M S A) (handler : Exc -> option (M S A)) :
  preserves R body ->
  (forall e h, handler e = Some h -> preserves R h) ->
  preserves R (try_except body handler).
Proof.
  intros Hb Hh s r s' E. unfold try_except in E.
  destruct (body s) as [[a|e|] s1] eqn:Eb.
  - injection E as _ <-. eapply Hb; exact Eb.
  - destruct (handler e) as [h|] eqn:Eh.
    + eapply R_trans; [eapply Hb; exact Eb|eapply Hh; [exact Eh|exact E]].
    + injection E as _ <-. eapply Hb; exact Eb.
  - injection E as _ <-. eapply Hb; exact Eb.
Qed.

Lemma preserves_try_finally {A} (body : M S A) (cleanup : M S unit) :
  preserves R body -> preserves R cleanup -> preserves R (try_finally body cleanup).
Proof.
  intros Hb Hc s r s' E. unfold try_finally in E.
  destruct (body s) as [r1 s1] eqn:Eb. injection E as _ <-.
  eapply R_trans; [eapply Hb; exact Eb|].
  destruct (cleanup s1) as [r2 s2] eqn:Ec. eapply Hc; exact Ec.
Qed.

Lemma preserves_for_each {A} (xs : list A) (body : A -> M S unit) :
  (forall x, preserves R (body x)) -> preserves R (for_each xs body).
Proof.
  intros Hb. induction xs as [|x xs IH]; cbn [for_each].
  - apply preserves_ret.
  - apply preserves_bind; [apply Hb|intros _; exact IH].
Qed.

End Preserves.

Section RaisesOnly.
Variable P : Exc -> Prop.

Lemma raises_only_ret {A} (a : A) : raises_only P (@ret S A a).
Proof. intros s e s' E. discriminate. Qed.

Lemma raises_only_raise {A} (e : Exc) : P e -> raises_only P (@raise S A e).
Proof. intros He s e' s' [= <- _]. exact He. Qed.

Lemma raises_only_bind {A B} (m : M S A) (k : A -> M S B) :
  raises_only P m -> (forall a, raises_only P (k a)) -> raises_only P (bind m k).
Proof.
  intros Hm Hk s e s' E. unfold bind in E.
  destruct (m s) as [[a|e1|] s1] eqn:Em.
  - eapply Hk; exact E.
  - injection E as <- _. eapply Hm; exact Em.
  - discriminate.
Qed.

(** A handler that catches everything decides what can be raised. *)
Lemma raises_only_catch_all {A} (body : M S A) (handler : Exc -> option (M S A)) :
  (forall e, exists h, handler e = Some h /\ raises_only P h) ->
  raises_only P (try_except body handler).
Proof.
  intros Hh s e s' E. unfold try_except in E.
  destruct (body s) as [[a|e1|] s1]; try discriminate.
  destruct (Hh e1) as (h & Eh & Hp). rewrite Eh in E. eapply Hp; exact E.
Qed.

End RaisesOnly.

Lemma ends_ret {A} (a : A) : ends (@ret S A a).
Proof. intros s. discriminate. Qed.

Lemma ends_raise {A} (e : Exc) : ends (@raise S A e).
Proof. intros s. discriminate. Qed.

Lemma ends_bind {A B} (m : M S A) (k : A -> M S B) :
  ends m -> (forall a, ends (k a)) -> ends (bind m k).
Proof.
  intros Hm Hk s. unfold bind. specialize (Hm s).
  destruct (m s) as [[a|e|] s1]; cbn in *; [apply Hk|discriminate|contradiction].
Qed.

Lemma ends_try_except {A} (body : M S A) (handler : Exc -> option (M S A)) :
  ends body -> (forall e h, handler e = Some h -> ends h) ->
  ends (try_except body handler).
Proof.
  intros Hb Hh s. unfold try_except. specialize (Hb s).
  destruct (body s) as [[a|e|] s1]; cbn in *; [discriminate| |contradiction].
  destruct (handler e) as [h|] eqn:Eh; [eapply Hh; exact Eh|discriminate].
Qed.

End Outcomes.

(** ** The session, the rest *)

Section SessionMoreFacts.
Import Session SessionMore.
Context `{PyRuntime}.

Lemma last_assistant_snoc (s : ChatSession) (m : Message) :
  last_assistant_from (rev (messages s ++ [m]))
  = if String.eqb (role m) "assistant" then
      match first_text (content m) with
      | Some text => Some text
      | None => get_last_assistant_message s
      end
    else get_last_assistant_message s.
Proof. rewrite rev_unit. reflexivity. Qed.

(** X1. [get_last_assistant_message] after each operation: an assistant
    text is the new answer (also when it is empty), and a user message, a
    tool use or a tool result leaves the answer as it was: the messages
    of the assistant that only carry a tool use are passed over.  After
    [clear] there is none. *)
Theorem X1_last_assistant_message (s : ChatSession) (text : string) (t : ToolUse)
  (tool_use_id : string) (c : PyValue) (status : string) :
  get_last_assistant_message (add_assistant_message text s) = Some text
  /\ get_last_assistant_message (add_user_message text s) = get_last_assistant_message s
  /\ get_last_assistant_message (add_tool_use t s) = get_last_assistant_message s
  /\ get_last_assistant_message (add_tool_result tool_use_id c status s)
     = get_last_assistant_message s
  /\ get_last_assistant_message (clear s) = None.
Proof.
  repeat split; unfold get_last_assistant_message at 1;
    unfold add_assistant_message, add_user_message, add_tool_use, add_tool_result,
      clear; cbn [messages]; rewrite ?last_assistant_snoc; reflexivity.
Qed.



End SessionMoreFacts.


(** ** The MCP client *)

Section MCPFacts.
Import MCP.
Variable env : Env.

Lemma host_outcome (c : Call) (w : World) :
  exists r, host env c w = (r, {| client := client w; calls := calls w ++ [c] |})
    /\ r <> OutOfFuel.
Proof.
  unfold host. destruct (fails env _); eexists; split; try reflexivity; discriminate.
Qed.

Lemma disconnect_outcome (w : World) :
  (_session (client w) = true -> _session_context (client w) = true) ->
  exists w',
    disconnect env w = (Ok tt, w')
    /\ released (client w')
    /\ _tools (client w') = _tools (client w)
    /\ (exists made, calls w' = calls w ++ made /\ (length made <= 2)%nat)
    /\ disconnect env w' = (Ok tt, w').
Proof.
  intros Hwf. destruct w as [[sc xc ss ts] cs]. cbn in Hwf.
  unfold disconnect, try_except, bind, get, try_finally, update_client, modify, host, ret.
  cbn [client calls _session_context _stdio_context _session _tools
       set_session set_session_context set_stdio_context].
  destruct xc, sc; cbn;
    repeat match goal with |- context [fails env ?n] => destruct (fails env n); cbn end;
    try (destruct ss; [|]);
    try (eexists; split; [reflexivity|]; unfold released; cbn;
         repeat split;
         try (eexists; split; [rewrite <- ?app_assoc; reflexivity|cbn; lia]);
         try (exists []; split; [rewrite app_nil_r; reflexivity|cbn; lia]);
         auto).
  all: try (specialize (Hwf eq_refl); discriminate).
Qed.

(** X3. [disconnect] never raises and never fails to return; after it
    the client holds neither contexts nor session, whatever the two
    teardown calls did (an exception or the timeout is only logged); it
    makes at most these two calls, and a second [disconnect] makes none. *)
Theorem X3_disconnect_releases (w : World) :
  (_session (client w) = true -> _session_context (client w) = true) ->
  exists w',
    disconnect env w = (Ok tt, w')
    /\ released (client w')
    /\ _tools (client w') = _tools (client w)
    /\ (exists made, calls w' = calls w ++ made /\ (length made <= 2)%nat)
    /\ disconnect env w' = (Ok tt, w').
Proof. apply disconnect_outcome. Qed.

End MCPFacts.

Section MCPFacts2.
Import MCP.
Variable env : Env.

(** X4. [connect] raises nothing but [MCPToolError]; when it returns,
    the three steps were made in order and the client holds the session;
    and when the handshake [initialize] is the step that fails, the
    error is raised with the session object already stored, so that the
    client still counts as having a session. *)
Theorem X4_connect_outcomes (w : World) :
  let n := length (calls w) in
  (forall e w', connect env w = (Raise e, w') -> exc_class e = MCPToolError)
  /\ (forall w', connect env w = (Ok tt, w') ->
        connected (client w')
        /\ calls w' = calls w ++ [EnterStdio; EnterSession; Initialize])
  /\ (forall e, fails env n = None -> fails env (S n) = None ->
        fails env (S (S n)) = Some e ->
        exists w',
          connect env w
          = (Raise (mkExc MCPToolError
                      ("Failed to connect to MCP server: " +:+ exc_msg e)), w')
          /\ _session (client w') = true).
Proof.
  cbv zeta. destruct w as [c cs]. cbn [calls].
  unfold connect, try_except, bind, update_client, modify, host, raise.
  cbn [client calls].
  destruct (fails env (length cs)) as [e0|]; cbn.
  { repeat split; try discriminate. intros e w' [= <- _]. reflexivity. }
  rewrite length_app. cbn [length].
  replace (length cs + 1)%nat with (S (length cs)) by lia.
  destruct (fails env (S (length cs))) as [e1|]; cbn.
  { repeat split; try discriminate. intros e w' [= <- _]. reflexivity. }
  rewrite !length_app. cbn [length].
  replace (length cs + 1 + 1)%nat with (S (S (length cs))) by lia.
  destruct (fails env (S (S (length cs)))) as [e2|]; cbn.
  - split; [intros e w' [= <- _]; reflexivity|]. split; [discriminate|].
    intros e _ _ [= <-]. eexists. split; reflexivity.
  - split; [discriminate|]. split; [|discriminate].
    intros w' [= <-]. unfold connected. cbn. rewrite <- !app_assoc. repeat split.
Qed.

(** X5. [list_tools] without a session raises [MCPToolError] and asks
    the host nothing; with a session it asks once, and either returns the
    host's list and keeps it in [_tools], or raises [MCPToolError] with
    the host's text and leaves [_tools] as it was. *)
Theorem X5_list_tools_outcomes (w : World) :
  (_session (client w) = false ->
     list_tools env w = (Raise (mkExc MCPToolError "MCP session not initialized"), w))
  /\ (_session (client w) = true ->
      exists w', calls w' = calls w ++ [ListTools]
        /\ match fails env (length (calls w)) with
           | None =>
               list_tools env w = (Ok (listing env (length (calls w))), w')
               /\ _tools (client w') = Some (listing env (length (calls w)))
           | Some e =>
               list_tools env w
               = (Raise (mkExc MCPToolError
                           ("Failed to list MCP tools: " +:+ exc_msg e)), w')
               /\ _tools (client w') = _tools (client w)
           end).
Proof.
  unfold list_tools, bind, get, try_except, session_list_tools, update_client,
    modify, raise, ret.
  split; intros Hs; rewrite Hs; cbn [negb].
  - reflexivity.
  - destruct (fails env (length (calls w))); cbn;
      (eexists; split; [|split; reflexivity]; reflexivity).
Qed.

(** X6. [convert_tools_to_bedrock_format] keeps the tools in number and
    order: the names of the descriptors under ["tools"] are the names of
    the tools, each descriptor has its name where the knowledge base and
    the debug line of the query look for it. *)
Theorem X6_convert_keeps_names (tools : list Tool) :
  omap KB.tool_name (KB.tools_of (convert_tools_to_bedrock_format tools))
  = map name tools
  /\ length (KB.tools_of (convert_tools_to_bedrock_format tools)) = length tools
  /\ Forall KB.loggable (KB.tools_of (convert_tools_to_bedrock_format tools)).
Proof.
  unfold convert_tools_to_bedrock_format, bedrock_format. cbn.
  repeat split.
  - induction tools as [|t tools IH]; cbn; [reflexivity|]. f_equal. exact IH.
  - apply length_map.
  - apply Forall_fmap, Forall_forall. intros t _. exact I.
Qed.

End MCPFacts2.

(** ** The turn, further *)

Section Grows.
Import Session Chat ChatMore.

Lemma grows_refl (w : World) : grows w w.
Proof. unfold grows. repeat split. exists []. rewrite app_nil_r. reflexivity. Qed.

Lemma grows_trans (w1 w2 w3 : World) : grows w1 w2 -> grows w2 w3 -> grows w1 w3.
Proof.
  intros ([a1 M1] & U1 & T1 & C1) ([a2 M2] & U2 & T2 & C2).
  unfold grows. repeat split; try congruence.
  exists (a1 ++ a2). rewrite M2, M1, app_assoc. reflexivity.
Qed.

End Grows.

Ltac keeps rule := apply rule; try exact grows_refl; try exact grows_trans.

Section TurnFacts.
Import Session Chat ChatMore.
Context `{PyRuntime}.
Variable env : Env.

Lemma grows_update_session (f : ChatSession -> ChatSession) :
  (forall s, exists added, messages (f s) = messages s ++ added) ->
  (forall s, user_inputs (f s) = user_inputs s) ->
  preserves grows (update_session f).
Proof.
  intros Hm Hu w r w' [= _ <-]. unfold grows. cbn. repeat split; auto.
Qed.

Lemma grows_add_assistant_message (text : string) :
  preserves grows (update_session (add_assistant_message text)).
Proof. apply grows_update_session; intros s; [eexists|]; reflexivity. Qed.

Lemma grows_add_tool_use (t : ToolUse) :
  preserves grows (update_session (add_tool_use t)).
Proof. apply grows_update_session; intros s; [eexists|]; reflexivity. Qed.

Lemma grows_add_tool_result (i : string) (c : PyValue) (st : string) :
  preserves grows (update_session (add_tool_result i c st)).
Proof. apply grows_update_session; intros s; [eexists|]; reflexivity. Qed.

Lemma grows_call_tool (tool_name : string) (arguments : PyValue) :
  preserves grows (call_tool env tool_name arguments).
Proof.
  intros w r w' E.
  unfold call_tool, bind, get, try_except, session_call_tool, raise, ret in E.
  destruct (mcp_session w) eqn:Hc; cbn [negb] in E.
  - destruct (tool_host env _ tool_name arguments) as [x|e];
      [destruct (isError x)|]; cbn in E; injection E as _ <-;
      unfold grows; cbn; repeat split; auto; exists []; rewrite app_nil_r; reflexivity.
  - injection E as _ <-. apply grows_refl.
Qed.

Lemma grows_converse (messages : list Message) (model_id : option string)
  (tool_config : option (list (string * PyValue))) :
  preserves grows (converse env messages model_id tool_config).
Proof.
  intros w r w' E.
  destruct (converse_outcome env messages model_id tool_config w)
    as (r1 & w1 & E1 & _ & S1 & T1 & C1 & _).
  rewrite E in E1. injection E1 as <- <-.
  unfold grows. rewrite S1. repeat split; auto. exists []. rewrite app_nil_r. reflexivity.
Qed.

Lemma grows_handle_one_tool (tool : ToolUse) :
  preserves grows (handle_one_tool env tool).
Proof.
  unfold handle_one_tool.
  keeps @preserves_bind; [apply grows_add_tool_use|intros _].
  keeps @preserves_try_except.
  - keeps @preserves_bind; [apply grows_call_tool|intros result].
    cbv zeta. destruct (truthy_str _); [destruct (json_loads _)|];
      apply grows_add_tool_result.
  - intros e h Eh. destruct (isinstance_exc e MCPToolError); [|discriminate].
    injection Eh as <-. apply grows_add_tool_result.
Qed.

Lemma grows_handle_tool_use (om : OutputMessage) :
  preserves grows (_handle_tool_use env om).
Proof.
  unfold _handle_tool_use. destruct (om_content om).
  - keeps @preserves_for_each. apply grows_handle_one_tool.
  - keeps @preserves_raise.
Qed.

Lemma grows_text (response_text : option string) :
  preserves grows
    (if truthy_str response_text
     then update_session (add_assistant_message (default "" response_text))
     else ret tt).
Proof.
  destruct (truthy_str _); [apply grows_add_assistant_message|keeps @preserves_ret].
Qed.

(** X7. [call_tool] raises nothing but [MCPToolError]; without a
    protocol session it raises at once and the tool host is not asked;
    with one, the host is asked exactly once, whatever it answers: a
    failed call is not tried again. *)
Theorem X7_call_tool_outcomes (tool_name : string) (arguments : PyValue) (w : World) :
  (forall e w', call_tool env tool_name arguments w = (Raise e, w') ->
                exc_class e = MCPToolError)
  /\ (mcp_session w = false ->
      call_tool env tool_name arguments w
      = (Raise (mkExc MCPToolError "MCP session not initialized"), w))
  /\ (mcp_session w = true ->
      forall r w', call_tool env tool_name arguments w = (r, w') ->
                   tool_log w' = tool_log w ++ [(tool_name, arguments)]).
Proof.
  unfold call_tool, bind, get, try_except, session_call_tool, raise, ret.
  destruct (mcp_session w); cbn [negb].
  - destruct (tool_host env _ tool_name arguments) as [r|e0];
      [destruct (isError r)|]; cbn;
      (split; [intros e w' [= <- _]; reflexivity || (intros; discriminate)|]);
      (split; [discriminate|]); intros _ r0 w' [= _ <-]; reflexivity.
  - split; [intros e w' [= <- _]; reflexivity|]. split; [reflexivity|discriminate].
Qed.

Section OneTurn.
Variable model_id : option string.
Variable tool_config : option (list (string * PyValue)).
Variable max_tool_rounds : Z.

Lemma rounds_loop_counts (fuel : nat) :
  forall (tool_rounds : Z) (total : UsageInfo) (w w' : World) (exit : LoopExit),
    rounds_loop env model_id tool_config max_tool_rounds fuel tool_rounds total w
    = (Ok exit, w') ->
    exists reqs,
      llm_log w' = llm_log w ++ reqs
      /\ match exit with
         | Returned res =>
             Z.of_nat (length reqs) = res_tool_rounds res - tool_rounds + 1
             /\ tool_rounds <= res_tool_rounds res < max_tool_rounds
             /\ res_max_rounds_reached res = None
         | LimitReached n _ =>
             Z.of_nat (length reqs) = n - tool_rounds
             /\ n = Z.max tool_rounds max_tool_rounds
         end.
Proof.
  induction fuel as [|fuel IH]; intros tool_rounds total w w' exit E.
  - destruct (Z.lt_ge_cases tool_rounds max_tool_rounds) as [Hlt|Hge].
    + cbn [rounds_loop] in E.
      destruct (Z.ltb_spec tool_rounds max_tool_rounds); [discriminate|lia].
    + rewrite rounds_loop_exit in E by lia. injection E as <- <-.
      exists []. rewrite app_nil_r. split; [reflexivity|]. cbn. lia.
  - destruct (Z.lt_ge_cases tool_rounds max_tool_rounds) as [Hlt|Hge].
    2:{ rewrite rounds_loop_exit in E by lia. injection E as <- <-.
        exists []. rewrite app_nil_r. split; [reflexivity|]. cbn. lia. }
    rewrite rounds_loop_step in E by exact Hlt.
    destruct (converse_outcome env (get_messages (session w)) model_id
                (effective_tool_config tool_config w) w)
      as (r & w1 & E1 & L1 & _ & _ & _ & _ & Hr).
    rewrite E1 in E.
    destruct (llm_api env _ _) as [resp|e]; [subst r|destruct Hr as (e' & -> & _); discriminate].
    cbv zeta in E.
    destruct (after_text_keeps (_extract_text_content (output_message resp)) w1)
      as (L2 & _ & _).
    set (w2 := after_text _ w1) in *.
    destruct (String.eqb (stopReason resp) "tool_use").
    + destruct (handle_tool_use_outcome env (output_message resp) w2)
        as (r3 & w3 & E3 & N3 & L3 & _).
      rewrite E3 in E. destruct r3 as [[]|e|]; [|discriminate|contradiction].
      apply IH in E as (reqs & L & P).
      eexists (_ :: reqs). split.
      * rewrite L, L3, L2, L1, <- app_assoc. reflexivity.
      * cbn [length].
        destruct exit as [res|n u]; [destruct P as (P1 & P2 & P3)|];
          repeat split; try lia; assumption.
    + injection E as <- <-. eexists [_]. split.
      * rewrite L2, L1. reflexivity.
      * cbn. repeat split; lia.
Qed.

Lemma grows_rounds_loop (fuel : nat) :
  forall (tool_rounds : Z) (total : UsageInfo),
    preserves grows
      (rounds_loop env model_id tool_config max_tool_rounds fuel tool_rounds total).
Proof.
  induction fuel as [|fuel IH]; intros tool_rounds total; cbn [rounds_loop];
    destruct (tool_rounds <? max_tool_rounds);
    try (keeps @preserves_ret).
  - intros w r w' [= _ <-]. apply grows_refl.
  - keeps @preserves_bind; [keeps @preserves_get|intros w0].
    keeps @preserves_bind; [apply grows_converse|intros response].
    cbv zeta.
    keeps @preserves_bind; [apply grows_text|intros _].
    destruct (String.eqb _ _).
    + keeps @preserves_bind; [apply grows_handle_tool_use|intros _]. apply IH.
    + keeps @preserves_ret.
Qed.

Lemma grows_final_call (exit : LoopExit) :
  preserves grows (final_call env model_id tool_config exit).
Proof.
  destruct exit as [res|n total]; cbn [final_call].
  - keeps @preserves_ret.
  - keeps @preserves_bind; [keeps @preserves_get|intros w0].
    keeps @preserves_bind; [apply grows_converse|intros response].
    cbv zeta.
    keeps @preserves_bind; [apply grows_text|intros _].
    keeps @preserves_ret.
Qed.

Lemma turn_grows (fuel : nat) :
  preserves grows
    (_generate_response_with_tools env fuel model_id tool_config max_tool_rounds).
Proof.
  unfold _generate_response_with_tools.
  keeps @preserves_bind; [apply grows_rounds_loop|].
  apply grows_final_call.
Qed.

(** X9. Whatever a turn ends with, a result or an exception at any
    point, the messages that were in the session are still there, in
    their order, before the ones the turn added; the user inputs, the
    manager's own tool configuration and the state of the MCP client are
    what they were. *)
Theorem X9_turn_only_appends (fuel : nat) (w w' : World) (r : Res TurnResult) :
  _generate_response_with_tools env fuel model_id tool_config max_tool_rounds w
  = (r, w') ->
  grows w w'.
Proof. apply turn_grows. Qed.

(** X8. For every result a turn returns, the number of requests it
    sent to the hosted LLM is [tool_rounds + 1]; the flag
    ['max_rounds_reached'] is set exactly when the counter stands at the
    limit (at 0 for a limit below 0), and absent when the turn ended
    below it. *)
Theorem X8_calls_are_tool_rounds_plus_one (fuel : nat) (w w' : World)
  (res : TurnResult) :
  _generate_response_with_tools env fuel model_id tool_config max_tool_rounds w
  = (Ok res, w') ->
  exists reqs,
    llm_log w' = llm_log w ++ reqs
    /\ Z.of_nat (length reqs) = res_tool_rounds res + 1
    /\ ((res_max_rounds_reached res = Some true
         /\ res_tool_rounds res = Z.max 0 max_tool_rounds)
        \/ (res_max_rounds_reached res = None
            /\ 0 <= res_tool_rounds res < max_tool_rounds)).
Proof.
  intros E. unfold _generate_response_with_tools in E.
  apply bind_ok in E as (exit & w1 & E1 & E).
  apply rounds_loop_counts in E1 as (reqs & L & P).
  destruct (final_call_outcome env model_id tool_config exit w1)
    as (r2 & w2 & reqs2 & E2 & _ & L2 & P2).
  rewrite E in E2. injection E2 as <- <-.
  exists (reqs ++ reqs2). split; [rewrite L2, L, app_assoc; reflexivity|].
  destruct exit as [res1|n total].
  - destruct P2 as [[= <-] ->]. destruct P as (P1 & P2 & P3).
    rewrite app_nil_r. split; [lia|]. right. split; [exact P3|lia].
  - cbv zeta in P2. destruct P2 as [-> P2]. destruct (llm_api env _ _).
    + injection P2 as ->. cbn. rewrite length_app. cbn.
      split; [lia|]. left. split; [reflexivity|lia].
    + destruct P2 as (e0 & [=] & _).
Qed.

End OneTurn.

End TurnFacts.

(** ** The turn: what it raises, and the messages of the tools *)

Section TurnErrors.
Import Session Chat ChatMore.
Context `{PyRuntime}.
Variable env : Env.

Lemma tool_result_content_single (c : PyValue) (status : string) :
  exists entry, tool_result_content c status = [entry].
Proof.
  unfold tool_result_content.
  destruct (String.eqb status "success" && isinstance_str c).
  - destruct c; try (eexists; reflexivity).
    destruct (json_loads s); eexists; reflexivity.
  - destruct (String.eqb status "success" && isinstance_dict_or_list c);
      eexists; reflexivity.
Qed.

(** One tool invocation leaves the tool-use message and, right after it,
    one result message for the same id. *)
Lemma handle_one_tool_pair (tool : ToolUse) (w : World) :
  exists w' entry status,
    handle_one_tool env tool w = (Ok tt, w')
    /\ (status = "success" \/ status = "error")
    /\ messages (session w')
       = messages (session w) ++ [tool_use_message tool; result_message tool [entry] status]
    /\ user_inputs (session w') = user_inputs (session w).
Proof.
  unfold handle_one_tool, call_tool, try_except, bind, get, update_session, modify,
    session_call_tool, raise, ret.
  cbn [session _tool_config mcp_session llm_log tool_log].
  assert (Hpair : forall c status,
    status = "success" \/ status = "error" ->
    exists entry status',
      (status' = "success" \/ status' = "error")
      /\ messages (add_tool_result (toolUseId tool) c status (add_tool_use tool (session w)))
         = messages (session w) ++ [tool_use_message tool; result_message tool [entry] status']
      /\ user_inputs (add_tool_result (toolUseId tool) c status (add_tool_use tool (session w)))
         = user_inputs (session w)).
  { intros c status Hs.
    destruct (tool_result_content_single c status) as [entry He].
    exists entry, status. split; [exact Hs|].
    unfold add_tool_result, add_tool_use, result_message, tool_use_message.
    cbn [messages user_inputs]. rewrite He, <- app_assoc. split; reflexivity. }
  destruct (mcp_session w); cbn [negb].
  - destruct (tool_host env _ (name tool) (input tool)) as [r|e].
    + destruct (isError r); cbn.
      * edestruct Hpair as (entry & status & Hs & Hm & Hu); [right; reflexivity|].
        eexists _, entry, status. split; [reflexivity|]. cbn [session].
        split; [exact Hs|]. split; [exact Hm|exact Hu].
      * destruct (truthy_str _); [destruct (json_loads _)|].
        all: edestruct Hpair as (entry & status & Hs & Hm & Hu);
          [|eexists _, entry, status; split; [reflexivity|]; cbn [session];
            split; [exact Hs|]; split; [exact Hm|exact Hu]];
          auto.
    + cbn. edestruct Hpair as (entry & status & Hs & Hm & Hu); [right; reflexivity|].
      eexists _, entry, status. split; [reflexivity|]. cbn [session].
      split; [exact Hs|]. split; [exact Hm|exact Hu].
  - cbn. edestruct Hpair as (entry & status & Hs & Hm & Hu); [right; reflexivity|].
    eexists _, entry, status. split; [reflexivity|]. cbn [session].
    split; [exact Hs|]. split; [exact Hm|exact Hu].
Qed.

Lemma for_each_tools_pairs (tools : list ToolUse) (w : World) :
  exists w' added,
    for_each tools (handle_one_tool env) w = (Ok tt, w')
    /\ messages (session w') = messages (session w) ++ added
    /\ tool_pairs tools added
    /\ user_inputs (session w') = user_inputs (session w).
Proof.
  revert w. induction tools as [|t tools IH]; intros w.
  - exists w, []. rewrite app_nil_r. repeat split. constructor.
  - cbn [for_each]. unfold bind.
    destruct (handle_one_tool_pair t w) as (w1 & entry & status & E1 & Hs & M1 & U1).
    rewrite E1.
    destruct (IH w1) as (w2 & added & E2 & M2 & P2 & U2).
    exists w2, (tool_use_message t :: result_message t [entry] status :: added).
    split; [exact E2|]. split; [rewrite M2, M1, <- app_assoc; reflexivity|].
    split; [constructor; assumption|congruence].
Qed.

(** X10. For a reply that has a content list, [_handle_tool_use] returns
    whatever the tools do; the messages it adds are, for each tool use of
    the reply in order, the assistant message with that tool use followed
    at once by a user message with one result for the same id, of status
    success or error.  No user input is recorded. *)
Theorem X10_tool_use_answered_in_order (om : OutputMessage)
  (blocks : list ContentBlock) (w : World) :
  om_content om = Some blocks ->
  exists w' added,
    _handle_tool_use env om w = (Ok tt, w')
    /\ messages (session w') = messages (session w) ++ added
    /\ tool_pairs (tool_requests blocks) added
    /\ user_inputs (session w') = user_inputs (session w).
Proof.
  intros Hc. unfold _handle_tool_use. rewrite Hc. apply for_each_tools_pairs.
Qed.

Lemma raises_update_session (P : Exc -> Prop) (f : ChatSession -> ChatSession) :
  raises_only P (update_session f).
Proof. intros w e w' E. discriminate. Qed.

Lemma raises_converse (messages : list Message) (model_id : option string)
  (tool_config : option (list (string * PyValue))) :
  raises_only turn_error (converse env messages model_id tool_config).
Proof.
  unfold converse. apply raises_only_catch_all. intros e.
  destruct (isinstance_exc e ClientError); eexists; (split; [reflexivity|]);
    apply raises_only_raise; left; reflexivity.
Qed.

Lemma raises_handle_tool_use (om : OutputMessage) :
  raises_only turn_error (_handle_tool_use env om).
Proof.
  intros w e w' E.
  destruct (om_content om) as [blocks|] eqn:Hc.
  - destruct (handle_tool_use_returns env om blocks w Hc) as (w1 & E1 & _).
    rewrite E1 in E. discriminate.
  - unfold _handle_tool_use in E. rewrite Hc in E. injection E as <- _.
    right. reflexivity.
Qed.

Lemma raises_text (response_text : option string) :
  raises_only turn_error
    (if truthy_str response_text
     then update_session (add_assistant_message (default "" response_text))
     else ret tt).
Proof.
  destruct (truthy_str _); [apply raises_update_session|apply raises_only_ret].
Qed.

Section OneTurnErrors.
Variable model_id : option string.
Variable tool_config : option (list (string * PyValue)).
Variable max_tool_rounds : Z.

Lemma raises_rounds_loop (fuel : nat) :
  forall (tool_rounds : Z) (total : UsageInfo),
    raises_only turn_error
      (rounds_loop env model_id tool_config max_tool_rounds fuel tool_rounds total).
Proof.
  induction fuel as [|fuel IH]; intros tool_rounds total; cbn [rounds_loop];
    destruct (tool_rounds <? max_tool_rounds);
    try (apply raises_only_ret).
  - intros w e w' E. discriminate.
  - apply raises_only_bind; [intros w e w' E; discriminate|intros w0].
    apply raises_only_bind; [apply raises_converse|intros response].
    cbv zeta.
    apply raises_only_bind; [apply raises_text|intros _].
    destruct (String.eqb _ _).
    + apply raises_only_bind; [apply raises_handle_tool_use|intros _]. apply IH.
    + apply raises_only_ret.
Qed.

Lemma raises_final_call (exit : LoopExit) :
  raises_only turn_error (final_call env model_id tool_config exit).
Proof.
  destruct exit as [res|n total]; cbn [final_call].
  - apply raises_only_ret.
  - apply raises_only_bind; [intros w e w' E; discriminate|intros w0].
    apply raises_only_bind; [apply raises_converse|intros response].
    cbv zeta.
    apply raises_only_bind; [apply raises_text|intros _].
    apply raises_only_ret.
Qed.

(** X11. A turn lets two kinds of exception through and no other: the
    [BedrockError] into which [converse] turns every failure of the
    hosted LLM, and the [KeyError] of a reply with stop reason tool_use
    that has no content list.  No failure of a tool is among them. *)
Theorem X11_turn_raises_only (fuel : nat) (w w' : World) (e : Exc) :
  _generate_response_with_tools env fuel model_id tool_config max_tool_rounds w
  = (Raise e, w') ->
  exc_class e = BedrockError \/ exc_class e = KeyError.
Proof.
  revert w e w'. change (raises_only turn_error
    (_generate_response_with_tools env fuel model_id tool_config max_tool_rounds)).
  unfold _generate_response_with_tools.
  apply raises_only_bind; [apply raises_rounds_loop|apply raises_final_call].
Qed.

(** X12. With a round limit of 0 or less the loop is not entered: the
    hosted LLM is asked once, and its reply is the result with
    [tool_rounds] 0 and ['max_rounds_reached'] set, whatever its stop
    reason; tool uses in that reply are neither run nor recorded, the
    session gains at most the assistant text. *)
Theorem X12_no_rounds_allowed (fuel : nat) (w : World) (resp : Response) :
  max_tool_rounds <= 0 ->
  llm_api env (length (llm_log w))
    (request_params env (get_messages (session w)) model_id
       (effective_tool_config tool_config w))
  = LLMReturns resp ->
  exists w',
    _generate_response_with_tools env fuel model_id tool_config max_tool_rounds w
    = (Ok {| res_text := _extract_text_content (output_message resp);
             res_usage := add_usage zero_usage (get_usage_info resp);
             res_stop_reason := stopReason resp;
             res_tool_rounds := 0;
             res_max_rounds_reached := Some true |}, w')
    /\ llm_log w'
       = llm_log w ++ [request_params env (get_messages (session w)) model_id
                         (effective_tool_config tool_config w)]
    /\ tool_log w' = tool_log w
    /\ messages (session w')
       = messages (session w)
         ++ (if truthy_str (_extract_text_content (output_message resp))
             then [{| role := "assistant";
                      content := [BText (default "" (_extract_text_content
                                                       (output_message resp)))] |}]
             else []).
Proof.
  intros Hmax Hllm. unfold _generate_response_with_tools, bind.
  rewrite rounds_loop_exit by exact Hmax. cbn [final_call]. unfold bind, get.
  unfold converse, try_except, client_converse. rewrite Hllm. cbv zeta.
  destruct (truthy_str _); cbn.
  - eexists. split; [reflexivity|]. cbn. repeat split.
  - eexists. split; [reflexivity|]. cbn. rewrite app_nil_r. repeat split.
Qed.

End OneTurnErrors.

End TurnErrors.

(** ** The knowledge base, further *)

(** How a sequence ended: its first part returned and the rest gave the
    outcome, or the first part did not return and that is the outcome. *)
Lemma bind_inv {S A B} (m : M S A) (k : A -> M S B) (s s' : S) (r : Res B) :
  bind m k s = (r, s') ->
  (exists a s1, m s = (Ok a, s1) /\ k a s1 = (r, s'))
  \/ ((exists r0, m s = (r0, s') /\ forall a, r0 <> Ok a) /\ forall b, r <> Ok b).
Proof.
  unfold bind. destruct (m s) as [[a|e|] s1]; intros E.
  - left. eauto.
  - right. injection E as <- <-. split; [eexists; split; [reflexivity|]|]; discriminate.
  - right. injection E as <- <-. split; [eexists; split; [reflexivity|]|]; discriminate.
Qed.

Section Unchanged.
Import KB KBMore.
Context {A : Type}.
Variable f : World -> A.

Lemma unchanged_refl (w : World) : unchanged f w w.
Proof. reflexivity. Qed.

Lemma unchanged_trans (w1 w2 w3 : World) :
  unchanged f w1 w2 -> unchanged f w2 w3 -> unchanged f w1 w3.
Proof. unfold unchanged. congruence. Qed.

End Unchanged.

Ltac same rule := apply rule; try exact (unchanged_refl _); try exact (unchanged_trans _).

Section KBMoreFacts.
Import KB KBMore.
Context `{PyRuntime}.
Variable env : Env.

Lemma unchanged_weaken {A B C} (f : World -> A) (g : World -> B) (m : M World C) :
  (forall w w', f w' = f w -> g w' = g w) ->
  preserves (unchanged f) m -> preserves (unchanged g) m.
Proof. intros Hfg Hm w r w' E. apply Hfg. eapply Hm. exact E. Qed.

Lemma unchanged_collaborator {A B} (f : World -> B) (ev : Event) (effect : M World A) :
  (forall ev w, f (log_event ev w) = f w) ->
  preserves (unchanged f) effect ->
  preserves (unchanged f) (collaborator env ev effect).
Proof.
  intros Hlog He w r w' E. unfold collaborator in E.
  destruct (fault env _).
  - injection E as _ <-. apply Hlog.
  - unfold unchanged. rewrite (He _ _ _ E). apply Hlog.
Qed.

Lemma unchanged_getitem {B} (f : World -> B) (v : PyValue) (k : string) :
  preserves (unchanged f) (getitem v k).
Proof.
  intros w r w' E. destruct v; cbn in E; try (injection E as _ <-; reflexivity).
  destruct (dict_get k entries); injection E as _ <-; reflexivity.
Qed.

Lemma unchanged_get_method {B} (f : World -> B) (v : PyValue) (k : string)
  (fallback : PyValue) :
  preserves (unchanged f) (get_method v k fallback).
Proof.
  intros w r w' E. destruct v; cbn in E; injection E as _ <-; reflexivity.
Qed.

(** *** Clearing the corpus *)

Lemma clear_beside_bucket :
  preserves (unchanged beside_bucket) (clear_knowledge_base_chunks env).
Proof.
  unfold clear_knowledge_base_chunks.
  same @preserves_try_except.
  - same @preserves_bind.
    + apply unchanged_collaborator; [reflexivity|].
      intros w r w' [= _ <-]. reflexivity.
    + intros keys. destruct keys as [|k keys]; [same @preserves_ret|].
      same @preserves_bind.
      * apply unchanged_collaborator; [reflexivity|].
        intros w r w' [= _ <-]. reflexivity.
      * intros _. same @preserves_bind; [|intros _; same @preserves_ret].
        same @preserves_for_each. intros key w r w' E.
        rewrite wait_deleted_logs in E. injection E as _ <-. reflexivity.
  - intros e h [= <-]. same @preserves_raise.
Qed.

(** X13. Clearing the corpus never returns [False]: it returns [True]
    with no object left under the prefix and every other object as it
    was, or it raises [KnowledgeBaseError].  It touches neither the local
    files nor the index, and when nothing is under the prefix the listing
    is its only call and the bucket is as it was. *)
Theorem X13_clear_outcomes (w w' : World) (r : Res bool) :
  clear_knowledge_base_chunks env w = (r, w') ->
  match r with
  | Ok cleared =>
      cleared = true
      /\ corpus env w' = ∅
      /\ (forall k, String.prefix (s3_prefix env) k = false -> s3 w' !! k = s3 w !! k)
  | Raise e => exc_class e = KnowledgeBaseError
  | OutOfFuel => False
  end
  /\ files w' = files w
  /\ index w' = index w
  /\ (corpus env w = ∅ ->
      trace w' = trace w ++ [ListObjects (s3_prefix env)] /\ s3 w' = s3 w).
Proof.
  intros E.
  pose proof (clear_beside_bucket _ _ _ E) as Hb. unfold unchanged, beside_bucket in Hb.
  split; [|split; [congruence|split; [congruence|]]].
  - destruct r as [b|e|].
    + destruct (clear_ok env _ _ _ E) as [Hc Ho]. split; [|split; assumption].
      unfold clear_knowledge_base_chunks in E. apply try_except_reraise_ok in E.
      apply bind_ok in E as (keys & w1 & _ & E).
      destruct keys; [injection E as <- _; reflexivity|].
      apply bind_ok in E as (? & w2 & _ & E).
      apply bind_ok in E as (? & w3 & _ & E). injection E as <- _. reflexivity.
    + revert E. apply raises_only_catch_all with (P := fun e => exc_class e = KnowledgeBaseError).
      intros e0. eexists. split; [reflexivity|]. apply raises_only_raise. reflexivity.
    + unfold clear_knowledge_base_chunks, try_except, bind in E.
      unfold list_objects_v2, collaborator in E.
      destruct (fault env (length (trace w))); [discriminate|].
      destruct (map fst _) as [|k keys]; [discriminate|].
      unfold delete_objects, collaborator in E.
      destruct (fault env _); [discriminate|].
      match type of E with context [for_each ?ks ?b ?s] =>
        destruct (wait_deleted_all env ks s) as (w3 & E3 & _); rewrite E3 in E end.
      discriminate.
  - intros Hempty.
    unfold clear_knowledge_base_chunks, try_except, bind in E.
    unfold list_objects_v2, collaborator in E.
    destruct (fault env (length (trace w))); [injection E as _ <-; split; reflexivity|].
    change (corpus env (log_event (ListObjects (s3_prefix env)) w)) with (corpus env w) in E.
    rewrite Hempty, map_to_list_empty in E. injection E as _ <-. split; reflexivity.
Qed.

End KBMoreFacts.


Section WriteFacts.
Import KB KBMore.
Context `{PyRuntime}.
Variable env : Env.

(** X14. The write raises [ValueError] exactly for an input that is not
    a dict with a truthy ['tools']: then nothing is called and the world
    is as it was.  For every other input each exception that leaves it
    is a [KnowledgeBaseError]. *)
Theorem X14_write_rejects_or_wraps (fuel : nat) (tools_data : PyValue)
  (w w' : World) (r : Res IngestionJobResult) :
  write_tools_to_knowledge_base env fuel tools_data w = (r, w') ->
  if well_formed tools_data
  then forall e, r = Raise e -> exc_class e = KnowledgeBaseError
  else w' = w /\ exists e, r = Raise e /\ exc_class e = ValueError.
Proof.
  unfold write_tools_to_knowledge_base, well_formed.
  destruct tools_data as [| | | | | |d];
    try (intros [= <- <-]; split; [reflexivity|eexists; split; reflexivity]).
  destruct (dict_get "tools" d) as [tools|];
    [|intros [= <- <-]; split; [reflexivity|eexists; split; reflexivity]].
  destruct (py_truthy tools); cbn [negb];
    [|intros [= <- <-]; split; [reflexivity|eexists; split; reflexivity]].
  intros E e ->. revert E.
  apply raises_only_catch_all with (P := fun e => exc_class e = KnowledgeBaseError).
  intros e0. eexists. split; [reflexivity|]. apply raises_only_raise. reflexivity.
Qed.

(** *** The local files *)

Lemma upload_local_files (path : string) :
  preserves (unchanged local_files) (_upload_to_s3 env path).
Proof.
  unfold _upload_to_s3. cbv zeta.
  same @preserves_try_except.
  - same @preserves_bind.
    + apply unchanged_collaborator; [reflexivity|].
      intros w r w' E. destruct (files w !! path); injection E as _ <-; reflexivity.
    + intros _. same @preserves_bind; [|intros _; same @preserves_ret].
      apply unchanged_collaborator; [reflexivity|].
      intros w r w' E. destruct (s3 w !! _); injection E as _ <-; reflexivity.
  - intros e h [= <-]. same @preserves_raise.
Qed.

Lemma start_local_files :
  preserves (unchanged local_files) (_start_ingestion_job env).
Proof.
  unfold _start_ingestion_job, start_ingestion_job.
  same @preserves_try_except.
  - apply unchanged_collaborator; [reflexivity|].
    intros w r w' [= _ <-]. reflexivity.
  - intros e h [= <-]. same @preserves_raise.
Qed.

Lemma get_ingestion_job_beside_index (job_id : PyValue) :
  preserves (unchanged beside_index) (get_ingestion_job env job_id).
Proof.
  intros w r w' E. unfold get_ingestion_job in E.
  destruct (fault env _); [injection E as _ <-; reflexivity|].
  destruct (is_str _ _); injection E as _ <-; reflexivity.
Qed.

Lemma poll_once_beside_index (job_id : PyValue) (poll_interval : Z) :
  preserves (unchanged beside_index) (poll_once env job_id poll_interval).
Proof.
  unfold poll_once.
  same @preserves_try_except.
  - same @preserves_bind; [apply get_ingestion_job_beside_index|intros response].
    same @preserves_bind; [apply unchanged_getitem|intros job].
    same @preserves_bind; [apply unchanged_getitem|intros status].
    destruct (is_str _ "COMPLETE"); [same @preserves_ret|].
    destruct (is_str _ "FAILED").
    { same @preserves_bind; [apply unchanged_get_method|intros fr].
      same @preserves_raise. }
    destruct (is_str _ "STOPPED"); [same @preserves_ret|].
    same @preserves_bind; [|intros _; same @preserves_ret].
    intros w r w' E. unfold time_sleep in E.
    destruct (poll_interval <? 0); injection E as _ <-; reflexivity.
  - intros e h Eh. destruct (isinstance_exc e KnowledgeBaseError);
      injection Eh as <-; same @preserves_raise.
Qed.

Lemma wait_loop_beside_index (job_id : PyValue) (timeout poll_interval start_time : Z)
  (fuel : nat) :
  preserves (unchanged beside_index)
    (wait_loop env job_id timeout poll_interval start_time fuel).
Proof.
  induction fuel as [|fuel IH]; cbn [wait_loop];
    (same @preserves_bind; [intros w r w' [= _ <-]; reflexivity|intros now]);
    (destruct (now - start_time <? timeout * ticks_per_second env);
     [|same @preserves_raise]).
  - intros w r w' [= _ <-]. reflexivity.
  - same @preserves_bind; [apply poll_once_beside_index|intros [st|]].
    + same @preserves_ret.
    + exact IH.
Qed.

Lemma wait_beside_index (fuel : nat) (job_id : PyValue) (timeout poll_interval : Z) :
  preserves (unchanged beside_index)
    (wait_for_ingestion_job env fuel job_id timeout poll_interval).
Proof.
  unfold wait_for_ingestion_job.
  same @preserves_bind; [intros w r w' [= _ <-]; reflexivity|intros start_time].
  apply wait_loop_beside_index.
Qed.

Lemma local_files_of_beside_index {C} (m : M World C) :
  preserves (unchanged beside_index) m -> preserves (unchanged local_files) m.
Proof.
  apply unchanged_weaken. unfold beside_index, local_files. intros w w' [= _ -> -> _ _].
  reflexivity.
Qed.

Lemma local_files_of_beside_bucket {C} (m : M World C) :
  preserves (unchanged beside_bucket) m -> preserves (unchanged local_files) m.
Proof.
  apply unchanged_weaken. unfold beside_bucket, local_files.
  intros w w' [= -> -> _ _ _ _ _]. reflexivity.
Qed.

(** The part of a write between the making of the temporary file and its
    removal. *)
Lemma upload_start_wait_local_files (fuel : nat) (path : string) :
  preserves (unchanged local_files)
    (s3_key <~ _upload_to_s3 env path ;;
     response <~ _start_ingestion_job env ;;
     job <~ getitem response "ingestionJob" ;;
     ingestion_job_id <~ getitem job "ingestionJobId" ;;
     status <~ wait_for_ingestion_job env fuel ingestion_job_id 600 5 ;;
     ret {| job_id := ingestion_job_id; status := status; response := response |}).
Proof.
  same @preserves_bind; [apply upload_local_files|intros key].
  same @preserves_bind; [apply start_local_files|intros response].
  same @preserves_bind; [apply unchanged_getitem|intros job].
  same @preserves_bind; [apply unchanged_getitem|intros jid].
  same @preserves_bind; [|intros st; same @preserves_ret].
  apply local_files_of_beside_index, wait_beside_index.
Qed.

Lemma create_temp_outcome (tools : PyValue) (items : list PyValue) (w w2 : World)
  (r : Res string) :
  py_iter tools = Some items ->
  _create_temp_jsonl_file env tools w = (r, w2) ->
  match r with
  | Ok path =>
      path = temp_path env (temp_files w)
      /\ files w2 = <[path := jsonl items]> (files w)
  | _ => files w2 = files w
  end.
Proof.
  intros Hit E.
  unfold _create_temp_jsonl_file, try_except, bind at 1, get in E.
  unfold bind at 1, collaborator in E.
  destruct (fault env (length (trace w))); [injection E as <- <-; reflexivity|].
  rewrite Hit in E. injection E as <- <-. split; [reflexivity|].
  cbn [files set_files log_event]. apply insert_insert_eq.
Qed.

(** X15. When the tools can be iterated over and the path of the next
    temporary file is free, the local files after the write are the
    files before it, whatever the write ends with: the temporary file is
    removed on every path, also when the upload, the job or the wait
    fails. *)
Theorem X15_write_removes_its_temporary_file (fuel : nat)
  (d : list (string * PyValue)) (tools : PyValue) (items : list PyValue)
  (w w' : World) (r : Res IngestionJobResult) :
  dict_get "tools" d = Some tools ->
  py_iter tools = Some items ->
  files w !! temp_path env (temp_files w) = None ->
  write_tools_to_knowledge_base env fuel (PyDict d) w = (r, w') ->
  files w' = files w.
Proof.
  intros Hd Hit Hfree E. unfold write_tools_to_knowledge_base in E. rewrite Hd in E.
  destruct (negb (py_truthy tools)); [injection E as _ <-; reflexivity|].
  unfold try_except at 1 in E.
  match type of E with context [bind ?m ?k w] =>
    destruct (bind m k w) as [r1 w1] eqn:E1 end.
  assert (Hw : files w1 = files w);
    [|destruct r1; injection E as _ <-; exact Hw].
  clear E. apply bind_inv in E1 as [(cleared & wc & Ec & E1)|((rc & Ec & _) & _)].
  2:{ pose proof (local_files_of_beside_bucket _ (clear_beside_bucket env) _ _ _ Ec) as Hc.
      injection Hc as Hcf _. exact Hcf. }
  pose proof (local_files_of_beside_bucket _ (clear_beside_bucket env) _ _ _ Ec) as Hc.
  injection Hc as Hcf Hct.
  apply bind_inv in E1 as [([] & wc' & Ec' & E1)|((rc' & Ec' & _) & _)].
  2:{ destruct (negb cleared); cbn in Ec'; injection Ec' as _ <-; exact Hcf. }
  assert (wc' = wc) as ->
    by (destruct (negb cleared); cbn in Ec'; [discriminate|injection Ec' as <-; reflexivity]).
  apply bind_inv in E1 as [(path & w2 & E2 & E1)|((r2 & E2 & Hr) & _)].
  2:{ pose proof (create_temp_outcome _ _ _ _ _ Hit E2) as H2.
      destruct r2 as [p|e|]; [destruct (Hr p); reflexivity| |]; congruence. }
  apply (create_temp_outcome _ _ _ _ _ Hit) in E2 as [-> F2].
  unfold try_finally in E1.
  match type of E1 with context [let '(_, _) := ?b w2 in _] =>
    destruct (b w2) as [r3 w3] eqn:E3 end.
  pose proof (upload_start_wait_local_files fuel _ _ _ _ E3) as H3.
  injection H3 as H3f _.
  injection E1 as _ <-. cbn [_cleanup_temp_file modify snd set_files files].
  rewrite H3f, F2, delete_insert_eq, Hcf. apply delete_id.
  rewrite Hct. exact Hfree.
Qed.

Lemma clear_returns (w : World) :
  (forall n, fault env n = None) ->
  exists wc, clear_knowledge_base_chunks env w = (Ok true, wc).
Proof.
  intros Hf. unfold clear_knowledge_base_chunks, try_except, bind at 1.
  unfold list_objects_v2, collaborator. rewrite Hf.
  destruct (map fst _) as [|k keys]; [eexists; reflexivity|].
  unfold bind at 1, delete_objects, collaborator. rewrite Hf.
  unfold bind.
  match goal with |- context [for_each ?ks ?b ?s] =>
    destruct (wait_deleted_all env ks s) as (w3 & E3 & _); rewrite E3 end.
  eexists; reflexivity.
Qed.

(** X16. When the tools are truthy but cannot be iterated over (a
    number, [True]), the write fails after the temporary file was made
    and before the part that removes it: with collaborators that do not
    fail, it raises [KnowledgeBaseError] and leaves the empty temporary
    file behind. *)
Theorem X16_write_leaves_the_file_of_tools_not_iterable (fuel : nat)
  (d : list (string * PyValue)) (tools : PyValue) (w : World) :
  (forall n, fault env n = None) ->
  dict_get "tools" d = Some tools ->
  py_truthy tools = true ->
  py_iter tools = None ->
  exists w',
    write_tools_to_knowledge_base env fuel (PyDict d) w
    = (Raise (mkExc KnowledgeBaseError
                ("Failed to write tools to Knowledge Base: "
                 +:+ "Failed to create temporary JSONL file: "
                 +:+ "'" +:+ py_type_name tools +:+ "' object is not iterable")), w')
    /\ files w' = <[temp_path env (temp_files w) := ""]> (files w).
Proof.
  intros Hf Hd Ht Hit. unfold write_tools_to_knowledge_base. rewrite Hd, Ht. cbn [negb].
  destruct (clear_returns w Hf) as [wc Ec].
  pose proof (local_files_of_beside_bucket _ (clear_beside_bucket env) _ _ _ Ec) as Hc.
  injection Hc as Hcf Hct.
  unfold try_except at 1, bind at 1. rewrite Ec. cbn [negb].
  unfold bind at 1. cbn [ret]. unfold bind at 1.
  unfold _create_temp_jsonl_file, try_except, bind at 1, get.
  unfold bind at 1, collaborator. rewrite Hf, Hit. cbn [raise exc_msg].
  eexists. split; [reflexivity|]. cbn [files log_event]. rewrite Hcf, Hct. reflexivity.
Qed.

End WriteFacts.


(** *** The wait *)

Section WaitFacts.
Import KB KBMore.
Context `{PyRuntime}.
Variable env : Env.

Lemma isinstance_knowledge_base_error (e : Exc) :
  isinstance_exc e KnowledgeBaseError = true -> exc_class e = KnowledgeBaseError.
Proof. unfold isinstance_exc. destruct (exc_class e); cbn; congruence. Qed.

Lemma poll_once_status (job_id : PyValue) (poll_interval : Z) (w w' : World)
  (st : PyValue) :
  poll_once env job_id poll_interval w = (Ok (Some st), w') -> final_status st.
Proof.
  intros E. unfold poll_once in E.
  apply try_except_raising_ok in E.
  2:{ intros e. destruct (isinstance_exc e KnowledgeBaseError); eexists; reflexivity. }
  apply bind_ok in E as (reply & w1 & _ & E).
  apply bind_ok in E as (job & w2 & _ & E).
  apply bind_ok in E as (st' & w3 & _ & E).
  destruct (is_str (Some st') "COMPLETE") eqn:Hc.
  { injection E as <- _. left. apply is_str_true. exact Hc. }
  destruct (is_str (Some st') "FAILED").
  { apply bind_ok in E as (fr & w4 & _ & E). discriminate. }
  destruct (is_str (Some st') "STOPPED") eqn:Hs.
  { injection E as <- _. right. apply is_str_true. exact Hs. }
  apply bind_ok in E as ([] & w4 & _ & E). discriminate.
Qed.

Lemma poll_once_raises (job_id : PyValue) (poll_interval : Z) :
  raises_only (fun e => exc_class e = KnowledgeBaseError)
    (poll_once env job_id poll_interval).
Proof.
  unfold poll_once. apply raises_only_catch_all. intros e.
  destruct (isinstance_exc e KnowledgeBaseError) eqn:Hi; eexists;
    (split; [reflexivity|]); apply raises_only_raise;
    [apply isinstance_knowledge_base_error; exact Hi|reflexivity].
Qed.

Lemma wait_loop_outcome (job_id : PyValue) (timeout poll_interval start_time : Z)
  (fuel : nat) :
  forall (w w' : World) (r : Res PyValue),
    wait_loop env job_id timeout poll_interval start_time fuel w = (r, w') ->
    match r with
    | Ok st => final_status st
    | Raise e => wait_error e
    | OutOfFuel => True
    end.
Proof.
  induction fuel as [|fuel IH]; intros w w' r E; cbn [wait_loop] in E;
    unfold bind at 1, time_time in E;
    (destruct (clock w - start_time <? timeout * ticks_per_second env);
     [|injection E as <- _; right; reflexivity]).
  - injection E as <- _. exact I.
  - unfold bind in E.
    destruct (poll_once env job_id poll_interval w) as [[[st|]|e|] w1] eqn:E1.
    + injection E as <- _. eapply poll_once_status. exact E1.
    + eapply IH. exact E.
    + injection E as <- _. left. eapply poll_once_raises. exact E1.
    + injection E as <- _. exact I.
Qed.

(** X17. The wait returns with no other status than COMPLETE or
    STOPPED, and raises nothing but [KnowledgeBaseError] and
    [TimeoutError].  Whatever it ends with, the bucket and the local
    files are as they were. *)
Theorem X17_wait_outcomes (fuel : nat) (job_id : PyValue)
  (timeout poll_interval : Z) (w w' : World) (r : Res PyValue) :
  wait_for_ingestion_job env fuel job_id timeout poll_interval w = (r, w') ->
  match r with
  | Ok st => st = PyStr "COMPLETE" \/ st = PyStr "STOPPED"
  | Raise e => exc_class e = KnowledgeBaseError \/ exc_class e = TimeoutError
  | OutOfFuel => True
  end
  /\ s3 w' = s3 w
  /\ files w' = files w.
Proof.
  intros E. pose proof (wait_beside_index env _ _ _ _ _ _ _ E) as Hb.
  injection Hb as Hs Hf _ _ _.
  split; [|split; assumption].
  unfold wait_for_ingestion_job, bind, time_time in E.
  apply wait_loop_outcome in E. exact E.
Qed.

(** X18. With a time limit of 0 seconds or less the wait raises
    [TimeoutError] at once: no status request is made, also for a job
    that is complete, and the world is as it was. *)
Theorem X18_wait_without_time (fuel : nat) (job_id : PyValue)
  (timeout poll_interval : Z) (w : World) :
  timeout <= 0 ->
  0 <= ticks_per_second env ->
  wait_for_ingestion_job env fuel job_id timeout poll_interval w
  = (Raise (mkExc TimeoutError
              ("Ingestion job " +:+ py_str job_id +:+ " did not complete within "
               +:+ py_str (PyInt timeout) +:+ " seconds")), w).
Proof.
  intros Ht Hs. unfold wait_for_ingestion_job, bind, time_time.
  destruct fuel; cbn [wait_loop]; unfold bind, time_time;
    (destruct (Z.ltb_spec (clock w - clock w) (timeout * ticks_per_second env));
     [nia|reflexivity]).
Qed.

Lemma poll_once_polls (job_id : PyValue) (poll_interval : Z) (w w' : World)
  (r : Res (option PyValue)) :
  poll_once env job_id poll_interval w = (r, w') -> polls w' = S (polls w).
Proof.
  intros E. unfold poll_once, try_except in E.
  match type of E with context [bind ?m ?k w] =>
    destruct (bind m k w) as [r0 w0] eqn:E0 end.
  assert (Hp : polls w0 = S (polls w)).
  { clear E. apply bind_inv in E0 as [(resp & wa & Ea & E0)|((ra & Ea & _) & _)].
    - assert (Ha : polls wa = S (polls w)).
      { unfold get_ingestion_job in Ea. destruct (fault env _); [discriminate|].
        injection Ea as _ <-. destruct (is_str _ _); reflexivity. }
      rewrite <- Ha.
      assert (Hk : preserves (unchanged polls)
        (job <~ getitem resp "ingestionJob" ;;
         status <~ getitem job "status" ;;
         if is_str (Some status) "COMPLETE" then ret (Some status)
         else if is_str (Some status) "FAILED" then
           failure_reasons <~ get_method resp "failureReasons"
                                (PyList [PyStr "Unknown error"]) ;;
           raise (mkExc KnowledgeBaseError
                    ("Ingestion job " +:+ py_str job_id +:+ " failed: "
                     +:+ py_str failure_reasons))
         else if is_str (Some status) "STOPPED" then ret (Some status)
         else time_sleep env poll_interval ;;; ret None)).
      { same @preserves_bind; [apply unchanged_getitem|intros job].
        same @preserves_bind; [apply unchanged_getitem|intros status].
        destruct (is_str _ "COMPLETE"); [same @preserves_ret|].
        destruct (is_str _ "FAILED").
        { same @preserves_bind; [apply unchanged_get_method|intros fr].
          same @preserves_raise. }
        destruct (is_str _ "STOPPED"); [same @preserves_ret|].
        same @preserves_bind; [|intros _; same @preserves_ret].
        intros s r1 s' E1. unfold time_sleep in E1.
        destruct (poll_interval <? 0); injection E1 as _ <-; reflexivity. }
      exact (Hk _ _ _ E0).
    - unfold get_ingestion_job in Ea.
      destruct (fault env _); [|destruct (is_str _ _)]; injection Ea as _ <-; reflexivity. }
  destruct r0 as [o|e|]; try (injection E as _ <-; exact Hp).
  destruct (isinstance_exc e KnowledgeBaseError); injection E as _ <-; exact Hp.
Qed.

Lemma wait_loop_polls (job_id : PyValue) (timeout poll_interval start_time : Z) :
  (forall k, 0 <= poll_duration env k) ->
  0 < ticks_per_second env ->
  0 < poll_interval ->
  forall (fuel n : nat) (w w' : World) (r : Res PyValue),
    timeout * ticks_per_second env - (clock w - start_time)
    <= Z.of_nat n * (poll_interval * ticks_per_second env) ->
    wait_loop env job_id timeout poll_interval start_time fuel w = (r, w') ->
    (polls w' <= polls w + n)%nat.
Proof.
  intros Hd Ht Hp. induction fuel as [|fuel IH]; intros n w w' r Hleft E.
  - cbn [wait_loop] in E. unfold bind, time_time in E.
    destruct (_ <? _); injection E as _ <-; lia.
  - destruct (Z.lt_ge_cases (clock w - start_time) (timeout * ticks_per_second env))
      as [Hin|Hout].
    + rewrite wait_loop_step in E by exact Hin.
      destruct (poll_once_progress env job_id poll_interval w Hd)
        as (r1 & w1 & E1 & _ & P); [lia|].
      pose proof (poll_once_polls _ _ _ _ _ E1) as Hp1.
      rewrite E1 in E.
      destruct n as [|n]; [exfalso; nia|].
      destruct r1 as [[st|]|e|]; try (injection E as _ <-; lia).
      apply (IH n) in E; [lia|]. specialize (P eq_refl). nia.
    + destruct (wait_loop_timeout env job_id timeout poll_interval start_time
                  (S fuel) w) as (e & E' & _); [lia|].
      rewrite E' in E. injection E as _ <-. lia.
Qed.

(** X19. With a positive poll interval (and a clock that does not run
    backwards), a wait whose time limit is at most [n] poll intervals
    makes at most [n] status requests, however long it is allowed to
    run; [n] passes of the loop are enough for it to end. *)
Theorem X19_wait_is_bounded (n fuel : nat) (job_id : PyValue)
  (timeout poll_interval : Z) (w w' : World) (r : Res PyValue) :
  (forall k, 0 <= poll_duration env k) ->
  0 < ticks_per_second env ->
  0 < poll_interval ->
  timeout <= Z.of_nat n * poll_interval ->
  wait_for_ingestion_job env fuel job_id timeout poll_interval w = (r, w') ->
  (polls w' <= polls w + n)%nat
  /\ ((n <= fuel)%nat -> r <> OutOfFuel).
Proof.
  intros Hd Ht Hp Hn E. split.
  - unfold wait_for_ingestion_job, bind, time_time in E.
    eapply wait_loop_polls; eauto. nia.
  - intros Hfuel.
    pose proof (wait_for_ingestion_job_ends env fuel job_id timeout poll_interval w
                  Hd Ht Hp) as He.
    rewrite E in He. apply He. nia.
Qed.

(** X20. A status request that fails ends the wait: the request is not
    made again.  The exception is passed on when it is a
    [KnowledgeBaseError] and wrapped in one otherwise. *)
Theorem X20_failed_status_request_ends_the_wait (fuel : nat) (job_id : PyValue)
  (timeout poll_interval : Z) (w : World) (e : Exc) :
  0 < timeout ->
  0 < ticks_per_second env ->
  fault env (length (trace w)) = Some e ->
  wait_for_ingestion_job env (S fuel) job_id timeout poll_interval w
  = (Raise (status_request_error e), polled env job_id w).
Proof.
  intros Ht Hs Hf. unfold wait_for_ingestion_job, bind at 1, time_time.
  rewrite wait_loop_step by nia.
  unfold polled, poll_once, try_except, bind at 1, get_ingestion_job. rewrite Hf.
  unfold status_request_error.
  destruct (isinstance_exc e KnowledgeBaseError); reflexivity.
Qed.

End WaitFacts.


(** *** The query, further *)

Section QueryFacts.
Import KB KBMore.
Context `{PyRuntime}.
Variable env : Env.

Section Pure.
Context {St : Type}.

Lemma untouched_refl (s : St) : untouched s s.
Proof. reflexivity. Qed.

Lemma untouched_trans (s1 s2 s3 : St) :
  untouched s1 s2 -> untouched s2 s3 -> untouched s1 s3.
Proof. unfold untouched. congruence. Qed.

Lemma getitem_untouched (v : PyValue) (k : string) :
  preserves untouched (@getitem St v k) /\ ends (@getitem St v k).
Proof.
  split.
  - intros s r s' E. destruct v; cbn in E; try (injection E as _ <-; reflexivity).
    destruct (dict_get k entries); injection E as _ <-; reflexivity.
  - intros s. destruct v; cbn; try discriminate.
    destruct (dict_get k entries); discriminate.
Qed.

Lemma get_method_untouched (v : PyValue) (k : string) (fallback : PyValue) :
  preserves untouched (@get_method St v k fallback)
  /\ ends (@get_method St v k fallback).
Proof.
  split.
  - intros s r s' E. destruct v; cbn in E; injection E as _ <-; reflexivity.
  - intros s. destruct v; cbn; discriminate.
Qed.

Lemma parse_result_untouched (result : PyValue) (results : list PyValue) :
  preserves untouched (@parse_result _ St result results)
  /\ ends (@parse_result _ St result results).
Proof.
  unfold parse_result, logged_name. split.
  - apply preserves_bind; [exact untouched_trans|apply getitem_untouched|intros c].
    apply preserves_bind; [exact untouched_trans|apply getitem_untouched|intros t].
    destruct t; try (apply preserves_raise; exact untouched_refl).
    destruct (json_loads s); [|apply preserves_ret; exact untouched_refl].
    apply preserves_bind; [exact untouched_trans| |intros _; apply preserves_ret; exact untouched_refl].
    apply preserves_bind; [exact untouched_trans|apply get_method_untouched|intros spec].
    apply get_method_untouched.
  - apply ends_bind; [apply getitem_untouched|intros c].
    apply ends_bind; [apply getitem_untouched|intros t].
    destruct t; try apply ends_raise.
    destruct (json_loads s); [|apply ends_ret].
    apply ends_bind; [|intros _; apply ends_ret].
    apply ends_bind; [apply get_method_untouched|intros spec].
    apply get_method_untouched.
Qed.

Lemma parse_results_untouched (hits : list PyValue) :
  forall results : list PyValue,
    preserves untouched (@parse_results _ St hits results)
    /\ ends (@parse_results _ St hits results).
Proof.
  induction hits as [|hit hits IH]; intros results; cbn [parse_results].
  - split; [apply preserves_ret; exact untouched_refl|apply ends_ret].
  - split.
    + apply preserves_bind; [exact untouched_trans|apply parse_result_untouched|].
      intros results1. apply IH.
    + apply ends_bind; [apply parse_result_untouched|]. intros results1. apply IH.
Qed.

End Pure.

Lemma query_semantic_outcome (query_text : string) (max_results : Z)
  (w w' : World) (r : Res QueryResult) :
  query_semantic env query_text max_results w = (r, w') ->
  w' = log_event (Retrieve query_text max_results) w
  /\ match r with
     | Ok result =>
         total_results result = Z.of_nat (length (tools result))
         /\ (length (tools result)
             <= length (hits_of (retrieve_api env (index w) query_text max_results)))%nat
     | Raise e => exc_class e = KnowledgeBaseError
     | OutOfFuel => False
     end.
Proof.
  intros E. unfold query_semantic, try_except in E.
  match type of E with context [bind ?m ?k w] =>
    destruct (bind m k w) as [r0 w0] eqn:E0 end.
  assert (H0 : w0 = log_event (Retrieve query_text max_results) w
               /\ match r0 with
                  | Ok result =>
                      total_results result = Z.of_nat (length (tools result))
                      /\ (length (tools result)
                          <= length (hits_of (retrieve_api env (index w) query_text
                                                max_results)))%nat
                  | Raise e => True
                  | OutOfFuel => False
                  end).
  { clear E. unfold bind at 1, retrieve, collaborator in E0.
    destruct (fault env _); [injection E0 as <- <-; split; [reflexivity|exact I]|].
    cbn [index log_event] in E0.
    set (response := retrieve_api env (index w) query_text max_results) in *.
    set (w1 := log_event _ w) in *.
    unfold bind at 1 in E0.
    destruct (getitem response "retrievalResults" w1) as [[hits|e|] w2] eqn:E2.
    - apply getitem_ok in E2 as (-> & d & Hd & Hh).
      destruct (py_iter hits) as [items|] eqn:Hit;
        [|injection E0 as <- <-; split; [reflexivity|exact I]].
      unfold bind in E0.
      destruct (parse_results items [] w1) as [r3 w3] eqn:E3.
      destruct (parse_results_untouched (St := World) items []) as [Hu He].
      pose proof (Hu _ _ _ E3) as ->. specialize (He w1). rewrite E3 in He.
      destruct r3 as [results|e|]; [|injection E0 as <- <-; split; [reflexivity|exact I]
                                    |contradiction].
      injection E0 as <- <-. split; [reflexivity|]. cbn [tools total_results].
      split; [reflexivity|].
      apply parse_results_length in E3. unfold hits_of. rewrite Hd, Hh.
      cbn. rewrite Hit. cbn in *. lia.
    - destruct (getitem_untouched (St := World) response "retrievalResults") as [Hu _].
      pose proof (Hu _ _ _ E2) as ->. injection E0 as <- <-. split; [reflexivity|exact I].
    - destruct (getitem_untouched (St := World) response "retrievalResults") as [_ He].
      specialize (He w1). rewrite E2 in He. contradiction. }
  destruct H0 as [-> H0].
  destruct r0 as [result|e|]; [injection E as <- <-; auto|injection E as <- <-; auto|].
  contradiction.
Qed.

(** X21. A query makes one retrieval call, with the text and the number
    of results it was given, and changes nothing else.  It raises
    nothing but [KnowledgeBaseError]; when it returns, [total_results]
    is the number of tools returned, which is at most the number of hits
    of the response. *)
Theorem X21_query_semantic_outcomes (query_text : string) (max_results : Z)
  (w w' : World) (r : Res QueryResult) :
  query_semantic env query_text max_results w = (r, w') ->
  w' = log_event (Retrieve query_text max_results) w
  /\ match r with
     | Ok result =>
         total_results result = Z.of_nat (length (tools result))
         /\ (length (tools result)
             <= length (hits_of (retrieve_api env (index w) query_text max_results)))%nat
     | Raise e => exc_class e = KnowledgeBaseError
     | OutOfFuel => False
     end.
Proof. apply query_semantic_outcome. Qed.

End QueryFacts.

(** ** The chunker *)

Section ChunkFacts.
Import KB Chunker.




Lemma split_from_line (x rest : string) :
  has_newline x = false ->
  forall current : string,
    split_from (x +:+ newline +:+ rest) current
    = (current +:+ x) :: split_from rest "".
Proof.
  induction x as [|c x IH]; intros Hx current.
  - rewrite append_nil_r, append_nil_l. unfold newline.
    rewrite append_cons, append_nil_l. cbn [split_from].
    rewrite Ascii.eqb_refl. reflexivity.
  - cbn [has_newline] in Hx. apply orb_false_iff in Hx as [Hc Hx].
    rewrite append_cons. cbn [split_from]. rewrite Hc.
    rewrite IH by exact Hx.
    rewrite append_assoc, append_cons, append_nil_l. reflexivity.
Qed.

Context `{PyRuntime}.

(** X23. The text that a write uploads is cut back into its tools: when
    each descriptor is written on one line that is not blank, the chunks
    of the JSONL text are the descriptors as written, one chunk for each
    tool, in order. *)
Theorem X23_one_chunk_for_each_tool (tools : list PyValue) :
  Forall (fun tool => has_newline (json_dumps tool) = false
                      /\ blank (json_dumps tool) = false) tools ->
  chunk (jsonl tools) = map json_dumps tools.
Proof.
  unfold chunk, split_newline, jsonl.
  induction 1 as [|tool tools [Hn Hb] _ IH]; [reflexivity|].
  cbn [map]. rewrite concat_empty_cons, append_assoc.
  rewrite split_from_line by exact Hn. rewrite append_nil_l.
  rewrite filter_cons_True by exact Hb. rewrite IH. reflexivity.
Qed.

End ChunkFacts.

(** ** The handler of the chunker *)

Section HandlerFacts.
Import KB Chunker.
Context `{PyRuntime}.
Variable env : Chunker.Env.

Lemma same_outside_output_refl (w : Chunker.World) : same_outside_output w w.
Proof. intros b k _. reflexivity. Qed.

Lemma same_outside_output_trans (w1 w2 w3 : Chunker.World) :
  same_outside_output w1 w2 -> same_outside_output w2 w3 -> same_outside_output w1 w3.
Proof. intros H12 H23 b k Hk. rewrite H23, H12 by exact Hk. reflexivity. Qed.

(** A step that leaves the state alone keeps every reflexive relation. *)
Lemma untouched_preserves {S A} (R : S -> S -> Prop) (m : M S A) :
  (forall s, R s s) -> preserves untouched m -> preserves R m.
Proof. intros Hr Hm s r s' E. rewrite (Hm _ _ _ E). apply Hr. Qed.

Lemma body_text_untouched {S} (v : PyValue) :
  preserves untouched (@body_text S v) /\ ends (@body_text S v).
Proof.
  split.
  - intros s r s' E. destruct v; cbn in E; injection E as _ <-; reflexivity.
  - intros s. destruct v; cbn; discriminate.
Qed.

Lemma process_one_untouched {S} (content : PyValue) :
  preserves untouched (@process_one S content) /\ ends (@process_one S content).
Proof.
  unfold process_one. split.
  - apply preserves_bind; [exact untouched_trans|apply get_method_untouched|intros body].
    apply preserves_bind; [exact untouched_trans|apply get_method_untouched|intros ty].
    apply preserves_bind; [exact untouched_trans|apply get_method_untouched|intros meta].
    apply preserves_bind; [exact untouched_trans|apply body_text_untouched|intros text].
    apply preserves_ret. exact untouched_refl.
  - apply ends_bind; [apply get_method_untouched|intros body].
    apply ends_bind; [apply get_method_untouched|intros ty].
    apply ends_bind; [apply get_method_untouched|intros meta].
    apply ends_bind; [apply body_text_untouched|intros text].
    apply ends_ret.
Qed.

Lemma process_all_untouched {S} (contents : list PyValue) :
  forall records : list PyValue,
    preserves untouched (@process_all S contents records)
    /\ ends (@process_all S contents records).
Proof.
  induction contents as [|content contents IH]; intros records; cbn [process_all].
  - split; [apply preserves_ret; exact untouched_refl|apply ends_ret].
  - split.
    + apply preserves_bind; [exact untouched_trans|apply process_one_untouched|].
      intros added. apply IH.
    + apply ends_bind; [apply process_one_untouched|]. intros added. apply IH.
Qed.

Lemma process_content_untouched {S} (file_content : PyValue) :
  preserves untouched (@process_content S file_content)
  /\ ends (@process_content S file_content).
Proof.
  unfold process_content, not_iterable. split.
  - apply preserves_bind; [exact untouched_trans|apply get_method_untouched|intros cs].
    destruct (py_iter cs); [|apply preserves_raise; exact untouched_refl].
    apply preserves_bind; [exact untouched_trans|apply process_all_untouched|intros rs].
    apply preserves_ret. exact untouched_refl.
  - apply ends_bind; [apply get_method_untouched|intros cs].
    destruct (py_iter cs); [|apply ends_raise].
    apply ends_bind; [apply process_all_untouched|intros rs]. apply ends_ret.
Qed.

Ltac outside rule :=
  apply rule; try exact same_outside_output_refl; try exact same_outside_output_trans.

Lemma pure_outside {A} (m : M Chunker.World A) :
  preserves untouched m -> preserves same_outside_output m.
Proof. apply untouched_preserves. exact same_outside_output_refl. Qed.

Lemma read_s3_file_outside (bucket key : PyValue) :
  preserves same_outside_output (read_s3_file env bucket key)
  /\ ends (read_s3_file env bucket key).
Proof.
  assert (Hg : forall w r w', get_object env bucket key w = (r, w') ->
                 objects w' = objects w /\ r <> OutOfFuel).
  { intros w r w' E. unfold get_object, param_error in E.
    destruct (s3_fails env _); [injection E as <- <-; split; [reflexivity|discriminate]|].
    destruct bucket, key; try (injection E as <- <-; split; [reflexivity|discriminate]).
    destruct (objects w !! _); injection E as <- <-; split; reflexivity || discriminate. }
  unfold read_s3_file. split.
  - outside @preserves_try_except.
    + outside @preserves_bind.
      * intros w r w' E. apply Hg in E as [E _]. intros b k _. rewrite E. reflexivity.
      * intros text. destruct (json_loads text); outside @preserves_ret.
    + intros e h [= <-]. outside @preserves_raise.
  - apply ends_try_except.
    + apply ends_bind.
      * intros w. destruct (get_object env bucket key w) as [r w'] eqn:E.
        apply Hg in E as [_ E]. exact E.
      * intros text. destruct (json_loads text); apply ends_ret.
    + intros e h [= <-]. apply ends_raise.
Qed.

Lemma write_to_s3_outside (bucket : PyValue) (name : string) (content : PyValue) :
  preserves same_outside_output
    (write_to_s3 env bucket (PyStr ("Output/" +:+ name)) content)
  /\ ends (write_to_s3 env bucket (PyStr ("Output/" +:+ name)) content).
Proof.
  assert (Hp : forall w r w',
             put_object env bucket (PyStr ("Output/" +:+ name)) (json_dumps content) w
             = (r, w') ->
             same_outside_output w w' /\ r <> OutOfFuel).
  { intros w r w' E. unfold put_object, param_error in E.
    destruct (s3_fails env _);
      [injection E as <- <-; split; [intros ? ? _; reflexivity|discriminate]|].
    destruct bucket;
      try (injection E as <- <-; split; [intros ? ? _; reflexivity|discriminate]).
    injection E as <- <-. split; [|discriminate].
    intros b0 k0 Hk. cbn [objects]. apply lookup_insert_ne.
    intros [= _ <-]. rewrite prefix_append in Hk. discriminate. }
  unfold write_to_s3. split.
  - outside @preserves_try_except.
    + intros w r w' E. apply Hp in E as [E _]. exact E.
    + intros e h [= <-]. outside @preserves_raise.
  - apply ends_try_except.
    + intros w.
      destruct (put_object env bucket (PyStr ("Output/" +:+ name)) (json_dumps content) w)
        as [r w'] eqn:E.
      apply Hp in E as [_ E]. exact E.
    + intros e h [= <-]. apply ends_raise.
Qed.

Lemma handle_batch_outside (input_bucket batch : PyValue) (processed : list PyValue) :
  preserves same_outside_output (handle_batch env input_bucket batch processed)
  /\ ends (handle_batch env input_bucket batch processed).
Proof.
  unfold handle_batch. split.
  - outside @preserves_bind; [apply pure_outside, get_method_untouched|intros key].
    destruct (negb (py_truthy key)); [outside @preserves_raise|].
    outside @preserves_bind; [apply read_s3_file_outside|intros content].
    outside @preserves_bind; [apply pure_outside, process_content_untouched|intros chunked].
    cbv zeta.
    outside @preserves_bind; [apply write_to_s3_outside|intros _].
    outside @preserves_ret.
  - apply ends_bind; [apply get_method_untouched|intros key].
    destruct (negb (py_truthy key)); [apply ends_raise|].
    apply ends_bind; [apply read_s3_file_outside|intros content].
    apply ends_bind; [apply process_content_untouched|intros chunked].
    cbv zeta.
    apply ends_bind; [apply write_to_s3_outside|intros _].
    apply ends_ret.
Qed.

Lemma handle_batches_outside (input_bucket : PyValue) (batches : list PyValue) :
  forall processed : list PyValue,
    preserves same_outside_output (handle_batches env input_bucket batches processed)
    /\ ends (handle_batches env input_bucket batches processed).
Proof.
  induction batches as [|batch batches IH]; intros processed; cbn [handle_batches].
  - split; [outside @preserves_ret|apply ends_ret].
  - split.
    + outside @preserves_bind; [apply handle_batch_outside|intros p]. apply IH.
    + apply ends_bind; [apply handle_batch_outside|intros p]. apply IH.
Qed.

Lemma handle_file_outside (input_bucket input_file : PyValue) :
  preserves same_outside_output (handle_file env input_bucket input_file)
  /\ ends (handle_file env input_bucket input_file).
Proof.
  unfold handle_file, not_iterable. split.
  - outside @preserves_bind; [apply pure_outside, get_method_untouched|intros cb].
    outside @preserves_bind; [apply pure_outside, get_method_untouched|intros fm].
    outside @preserves_bind; [apply pure_outside, get_method_untouched|intros ofl].
    destruct (py_iter cb); [|outside @preserves_raise].
    outside @preserves_bind; [apply handle_batches_outside|intros p].
    outside @preserves_ret.
  - apply ends_bind; [apply get_method_untouched|intros cb].
    apply ends_bind; [apply get_method_untouched|intros fm].
    apply ends_bind; [apply get_method_untouched|intros ofl].
    destruct (py_iter cb); [|apply ends_raise].
    apply ends_bind; [apply handle_batches_outside|intros p]. apply ends_ret.
Qed.

Lemma handle_files_outside (input_bucket : PyValue) (input_files : list PyValue) :
  forall output_files : list PyValue,
    preserves same_outside_output (handle_files env input_bucket input_files output_files)
    /\ ends (handle_files env input_bucket input_files output_files).
Proof.
  induction input_files as [|f fs IH]; intros outs; cbn [handle_files].
  - split; [outside @preserves_ret|apply ends_ret].
  - split.
    + outside @preserves_bind; [apply handle_file_outside|intros o]. apply IH.
    + apply ends_bind; [apply handle_file_outside|intros o]. apply IH.
Qed.

Lemma handle_files_length (input_bucket : PyValue) (input_files : list PyValue) :
  forall (output_files result : list PyValue) (w w' : Chunker.World),
    handle_files env input_bucket input_files output_files w = (Ok result, w') ->
    length result = (length output_files + length input_files)%nat.
Proof.
  induction input_files as [|f fs IH]; intros outs result w w' E; cbn [handle_files] in E.
  - injection E as <- _. cbn. lia.
  - apply bind_ok in E as (o & w1 & _ & E). apply IH in E.
    rewrite E, length_app. cbn. lia.
Qed.

(** X24. Whatever the event and whatever the handler ends with, every
    object whose key does not start with Output/ is as it was: the
    handler writes under Output/ only and never over its input.  When
    it returns, the result lists one output file for each input file. *)
Theorem X24_handler_writes_under_output_only (event : PyValue)
  (w w' : Chunker.World) (r : Res PyValue) :
  lambda_handler env event w = (r, w') ->
  same_outside_output w w'
  /\ match r with
     | Ok result =>
         exists d input_files output_files,
           event = PyDict d
           /\ py_iter (default PyNone (dict_get "inputFiles" d)) = Some input_files
           /\ result = PyDict [("outputFiles", PyList output_files)]
           /\ length output_files = length input_files
     | Raise e => True
     | OutOfFuel => False
     end.
Proof.
  intros E. split.
  - revert E. generalize w r w'.
    change (preserves same_outside_output (lambda_handler env event)).
    unfold lambda_handler, not_iterable.
    outside @preserves_bind; [apply pure_outside, get_method_untouched|intros fs].
    outside @preserves_bind; [apply pure_outside, get_method_untouched|intros bk].
    destruct (negb _); [outside @preserves_raise|].
    destruct (py_iter fs); [|outside @preserves_raise].
    outside @preserves_bind; [apply handle_files_outside|intros outs].
    outside @preserves_ret.
  - destruct r as [result|e|]; [|exact I|].
    + unfold lambda_handler in E.
      apply bind_ok in E as (fs & w1 & E1 & E).
      destruct event as [| | | | | |d]; try discriminate.
      injection E1 as <- <-.
      apply bind_ok in E as (bk & w2 & E2 & E). injection E2 as <- <-.
      destruct (negb _); [discriminate|].
      destruct (py_iter _) as [files|] eqn:Hit; [|discriminate].
      apply bind_ok in E as (outs & w3 & E3 & E). injection E as <- <-.
      apply handle_files_length in E3.
      exists d, files, outs. repeat split; [exact Hit|exact E3].
    + assert (He : ends (lambda_handler env event)).
      { unfold lambda_handler, not_iterable.
        apply ends_bind; [apply get_method_untouched|intros fs].
        apply ends_bind; [apply get_method_untouched|intros bk].
        destruct (negb _); [apply ends_raise|].
        destruct (py_iter fs); [|apply ends_raise].
        apply ends_bind; [apply handle_files_outside|intros outs]. apply ends_ret. }
      specialize (He w). rewrite E in He. apply He. reflexivity.
Qed.

(** The record that [process_content] makes of one chunk of a plain text. *)
Lemma process_plain_text {S} (text : string) (s : S) :
  process_content (plain_text_file text) s
  = (Ok (PyDict [("fileContents",
                  PyList (map (fun c => PyDict [("contentType", PyStr "text/plain");
                                                ("contentMetadata", PyDict []);
                                                ("contentBody", PyStr c)])
                            (chunk text)))]), s).
Proof.
  unfold process_content, plain_text_file, bind. cbn [get_method dict_get String.eqb].
  cbn. reflexivity.
Qed.

(** X25. A batch whose object is not one JSON document (a JSONL file of
    several lines, a plain text) is written under Output/ as one record
    for each line that is not blank, each of type text/plain with empty
    metadata; the batch is answered with the output key. *)
Theorem X25_batch_of_lines (bucket key text : string) (d : list (string * PyValue))
  (processed : list PyValue) (w : Chunker.World) :
  dict_get "key" d = Some (PyStr key) ->
  key <> "" ->
  objects w !! (bucket, key) = Some text ->
  json_loads text = None ->
  s3_fails env (length (s3_calls w)) = None ->
  s3_fails env (S (length (s3_calls w))) = None ->
  exists w',
    handle_batch env (PyStr bucket) (PyDict d) processed w
    = (Ok (processed ++ [PyDict [("key", PyStr ("Output/" +:+ key))]]), w')
    /\ objects w'
       = <[(bucket, "Output/" +:+ key) :=
             json_dumps
               (PyDict [("fileContents",
                         PyList (map (fun c => PyDict [("contentType", PyStr "text/plain");
                                                       ("contentMetadata", PyDict []);
                                                       ("contentBody", PyStr c)])
                                   (chunk text)))])]> (objects w)
    /\ s3_calls w'
       = s3_calls w ++ [GetObject (PyStr bucket) (PyStr key);
                        PutObject (PyStr bucket) (PyStr ("Output/" +:+ key))].
Proof.
  intros Hd Hk Ho Hj Hf1 Hf2.
  unfold handle_batch, bind at 1. cbn [get_method]. rewrite Hd. cbn [default ret].
  assert (Ht : py_truthy (PyStr key) = true).
  { cbn. destruct (String.eqb_spec key ""); [contradiction|reflexivity]. }
  unfold id. rewrite Ht. cbn [negb].
  unfold bind at 1, read_s3_file, try_except, bind at 1, get_object.
  rewrite Hf1, Ho, Hj. cbn [ret].
  unfold bind at 1. rewrite process_plain_text.
  cbv zeta. unfold bind, write_to_s3, try_except, put_object.
  cbn [s3_calls objects py_str]. rewrite length_app. cbn [length].
  replace (length (s3_calls w) + 1)%nat with (S (length (s3_calls w))) by lia.
  rewrite Hf2. cbn [ret]. eexists. split; [reflexivity|].
  cbn [objects s3_calls]. rewrite <- app_assoc. split; reflexivity.
Qed.

(** X26. A batch whose object is one JSON document without
    ['fileContents'] gives no record: of a JSONL file with a single
    line, which is such a document, nothing is left. *)
Theorem X26_batch_of_one_document (bucket key text : string)
  (d fields : list (string * PyValue)) (processed : list PyValue)
  (w : Chunker.World) :
  dict_get "key" d = Some (PyStr key) ->
  key <> "" ->
  objects w !! (bucket, key) = Some text ->
  json_loads text = Some (PyDict fields) ->
  dict_get "fileContents" fields = None ->
  s3_fails env (length (s3_calls w)) = None ->
  s3_fails env (S (length (s3_calls w))) = None ->
  exists w',
    handle_batch env (PyStr bucket) (PyDict d) processed w
    = (Ok (processed ++ [PyDict [("key", PyStr ("Output/" +:+ key))]]), w')
    /\ objects w'
       = <[(bucket, "Output/" +:+ key) :=
             json_dumps (PyDict [("fileContents", PyList [])])]> (objects w).
Proof.
  intros Hd Hk Ho Hj Hn Hf1 Hf2.
  unfold handle_batch, bind at 1. cbn [get_method]. rewrite Hd. cbn [default ret].
  assert (Ht : py_truthy (PyStr key) = true).
  { cbn. destruct (String.eqb_spec key ""); [contradiction|reflexivity]. }
  unfold id. rewrite Ht. cbn [negb].
  unfold bind at 1, read_s3_file, try_except, bind at 1, get_object.
  rewrite Hf1, Ho, Hj. cbn [ret].
  unfold bind at 1, process_content, bind at 1. cbn [get_method]. rewrite Hn.
  cbn [default from_option id ret py_iter]. unfold bind at 1. cbn [process_all ret].
  cbv zeta. unfold bind, write_to_s3, try_except, put_object.
  cbn [s3_calls objects py_str]. rewrite length_app. cbn [length].
  replace (length (s3_calls w) + 1)%nat with (S (length (s3_calls w))) by lia.
  rewrite Hf2. cbn [ret]. eexists. split; reflexivity.
Qed.

End HandlerFacts.

(** ** The requests of a turn *)

Section TurnRequests.
Import Session Chat ChatMore.
Context `{PyRuntime}.
Variable env : Env.
Variable model_id : option string.
Variable tool_config : option (list (string * PyValue)).
Variable max_tool_rounds : Z.

(** Every request of the loop, with any fuel and whatever the loop ends
    with, carries the tool configuration of the turn. *)
Lemma rounds_loop_requests (fuel : nat) :
  forall (tool_rounds : Z) (total : UsageInfo) (w w' : World) (r : Res LoopExit),
    rounds_loop env model_id tool_config max_tool_rounds fuel tool_rounds total w
    = (r, w') ->
    exists reqs,
      llm_log w' = llm_log w ++ reqs
      /\ Forall (fun q => toolConfig q = attached tool_config w) reqs
      /\ _tool_config w' = _tool_config w.
Proof.
  induction fuel as [|fuel IH]; intros tool_rounds total w w' r E.
  - exists []. cbn [rounds_loop] in E.
    destruct (tool_rounds <? max_tool_rounds); injection E as _ <-;
      rewrite app_nil_r; repeat split; constructor.
  - destruct (Z.lt_ge_cases tool_rounds max_tool_rounds) as [Hlt|Hge].
    2:{ rewrite rounds_loop_exit in E by lia. injection E as _ <-.
        exists []. rewrite app_nil_r. repeat split; constructor. }
    rewrite rounds_loop_step in E by exact Hlt.
    destruct (converse_outcome env (get_messages (session w)) model_id
                (effective_tool_config tool_config w) w)
      as (r1 & w1 & E1 & L1 & _ & T1 & _ & _ & Hr).
    rewrite E1 in E.
    set (q := request_params env (get_messages (session w)) model_id
                (effective_tool_config tool_config w)) in *.
    assert (Hq : toolConfig q = attached tool_config w) by reflexivity.
    destruct r1 as [resp|e|].
    2,3: injection E as _ <-; exists [q]; repeat split; auto.
    cbv zeta in E.
    destruct (after_text_keeps (_extract_text_content (output_message resp)) w1)
      as (L2 & T2 & _).
    set (w2 := after_text _ w1) in *.
    destruct (String.eqb (stopReason resp) "tool_use").
    + destruct (handle_tool_use_outcome env (output_message resp) w2)
        as (r3 & w3 & E3 & _ & L3 & T3).
      rewrite E3 in E. destruct r3 as [[]|e|].
      * apply IH in E as (reqs & L & F & T).
        exists (q :: reqs). split; [|split].
        -- rewrite L, L3, L2, L1, <- app_assoc. reflexivity.
        -- constructor; [exact Hq|].
           rewrite (attached_stable tool_config w w3) in F by congruence. exact F.
        -- congruence.
      * injection E as _ <-. exists [q]. repeat split; auto; congruence.
      * injection E as _ <-. exists [q]. repeat split; auto; congruence.
    + injection E as _ <-. exists [q]. repeat split; auto; congruence.
Qed.

Lemma turn_requests (fuel : nat) (w w' : World) (r : Res TurnResult) :
  _generate_response_with_tools env fuel model_id tool_config max_tool_rounds w
  = (r, w') ->
  exists reqs,
    llm_log w' = llm_log w ++ reqs
    /\ Forall (fun q => toolConfig q = attached tool_config w) reqs.
Proof.
  intros E. unfold _generate_response_with_tools in E.
  apply bind_inv in E as [(exit & w1 & E1 & E)|((r1 & E1 & _) & _)].
  - apply rounds_loop_requests in E1 as (reqs & L & F & T).
    destruct (final_call_outcome env model_id tool_config exit w1)
      as (r2 & w2 & reqs2 & E2 & _ & L2 & P2).
    rewrite E in E2. injection E2 as <- <-.
    exists (reqs ++ reqs2). split; [rewrite L2, L, app_assoc; reflexivity|].
    apply Forall_app. split; [exact F|].
    destruct exit as [res|n total].
    + destruct P2 as [_ ->]. constructor.
    + cbv zeta in P2. destruct P2 as [-> _]. constructor; [|constructor].
      change (attached tool_config w1 = attached tool_config w).
      apply attached_stable. exact T.
  - apply rounds_loop_requests in E1 as (reqs & L & F & _). exists reqs. auto.
Qed.

End TurnRequests.

(** ** The manager *)

Section ManagerFacts.
Import Session Manager ManagerMore.
Context `{PyRuntime}.
Variable env : Manager.Env.

Lemma lift_chat_inv {A} (m : M Chat.World A) (w w' : World) (r : Res A) :
  lift_chat m w = (r, w') ->
  exists c, m (chat w) = (r, c)
    /\ w' = {| chat := c; kb := kb w; mcp := mcp w; _mcp_client := _mcp_client w |}.
Proof.
  unfold lift_chat. destruct (m (chat w)) as [r0 c]. intros [= <- <-]. eauto.
Qed.

Lemma lift_kb_inv {A} (m : M KB.World A) (w w' : World) (r : Res A) :
  lift_kb m w = (r, w') ->
  exists k, m (kb w) = (r, k)
    /\ w' = {| chat := chat w; kb := k; mcp := mcp w; _mcp_client := _mcp_client w |}.
Proof.
  unfold lift_kb. destruct (m (kb w)) as [r0 k]. intros [= <- <-]. eauto.
Qed.

Lemma lift_mcp_inv {A} (m : M MCP.World A) (w w' : World) (r : Res A) :
  lift_mcp m w = (r, w') ->
  exists x, m (mcp w) = (r, x)
    /\ w' = {| chat := with_mcp_session (MCP._session (MCP.client x)) (chat w);
               kb := kb w; mcp := x; _mcp_client := _mcp_client w |}.
Proof.
  unfold lift_mcp. destruct (m (mcp w)) as [r0 x]. intros [= <- <-]. eauto.
Qed.

(** A query of the knowledge base, as [query] and [queryall] make it:
    one retrieval call, a dict of tools or a [KnowledgeBaseError]. *)
Lemma query_wrapped (kenv : KB.Env) (query_text : string) (top_k : Z)
  (wrap : Exc -> Exc) (k k' : KB.World) (r : Res PyValue) :
  try_except
    (result <~ KB.query_semantic kenv query_text top_k ;;
     ret (PyDict [("tools", PyList (KB.tools result))]))
    (fun e => Some (raise (wrap e))) k = (r, k') ->
  k' = KB.log_event (KB.Retrieve query_text top_k) k
  /\ match r with
     | Ok v => exists ts, v = PyDict [("tools", PyList ts)]
     | Raise e => exists e0, e = wrap e0
     | OutOfFuel => False
     end.
Proof.
  intros E. unfold try_except, bind in E.
  destruct (KB.query_semantic kenv query_text top_k k) as [r0 k0] eqn:E0.
  apply query_semantic_outcome in E0 as [-> P].
  destruct r0 as [result|e|]; [| |contradiction].
  - injection E as <- <-. split; [reflexivity|]. eexists; reflexivity.
  - injection E as <- <-. split; [reflexivity|]. eexists; reflexivity.
Qed.

Lemma tool_retrieval_outcome (use_kb_tools : bool) (s : ChatSession)
  (k k' : KB.World) (r : Res PyValue) :
  tool_retrieval (kb_env env) use_kb_tools s k = (r, k') ->
  k' = KB.log_event (retrieval_call use_kb_tools s) k
  /\ match r with
     | Ok v => exists ts, v = PyDict [("tools", PyList ts)]
     | Raise e => True
     | OutOfFuel => False
     end.
Proof.
  unfold tool_retrieval, retrieval_call, KB.query, KB.queryall.
  destruct use_kb_tools; intros E; apply query_wrapped in E as [-> P];
    (split; [reflexivity|]); destruct r; auto.
Qed.

(** The part of [process_message] that chooses the tools, in terms of
    the query behind it. *)
Lemma choose_tools_outcome (use_kb_tools : bool) (w w' : World) (r : Res PyValue) :
  (if use_kb_tools
   then lift_kb (KB.query (kb_env env)
                   (get_conversation_context (Chat.session (chat w))) 2)
   else get_all_kb_tools env) w = (r, w') ->
  exists r0 k,
    tool_retrieval (kb_env env) use_kb_tools (Chat.session (chat w)) (kb w) = (r0, k)
    /\ w' = {| chat := chat w; kb := k; mcp := mcp w; _mcp_client := _mcp_client w |}
    /\ match r0 with
       | Ok v => r = Ok v
       | Raise e => exists e', r = Raise e'
       | OutOfFuel => r = OutOfFuel
       end.
Proof.
  unfold tool_retrieval. destruct use_kb_tools; intros E.
  - apply lift_kb_inv in E as (k & E & ->). exists r, k.
    split; [exact E|]. split; [reflexivity|]. destruct r; eauto.
  - unfold get_all_kb_tools, try_except in E.
    destruct (lift_kb (KB.queryall (kb_env env)) w) as [r0 w0] eqn:E0.
    apply lift_kb_inv in E0 as (k & E0 & ->). exists r0, k.
    split; [exact E0|].
    destruct r0; injection E as <- <-; split; eauto.
Qed.

(** What the body of [process_message] leaves, whatever it ends with. *)
Lemma process_body_outcome (fuel : nat) (user_input : string)
  (model_id : option string) (use_kb_tools : bool) (w w0 : World)
  (r0 : Res Chat.TurnResult) :
  (lift_chat (Chat.update_session (add_user_message user_input)) ;;;
   w <~ get ;;
   kb_result <~ (if use_kb_tools
                 then lift_kb (KB.query (kb_env env)
                                 (get_conversation_context (Chat.session (chat w))) 2)
                 else get_all_kb_tools env) ;;
   lift_chat
     (Chat._generate_response_with_tools (chat_env env) fuel model_id
        (as_tool_config kb_result)
        (if enable_auto_tool_calling env then max_tool_rounds env else 1))) w
  = (r0, w0) ->
  let s1 := add_user_message user_input (Chat.session (chat w)) in
  exists r_q reqs,
    tool_retrieval (kb_env env) use_kb_tools s1 (kb w)
    = (r_q, KB.log_event (retrieval_call use_kb_tools s1) (kb w))
    /\ kb w0 = KB.log_event (retrieval_call use_kb_tools s1) (kb w)
    /\ mcp w0 = mcp w
    /\ _mcp_client w0 = _mcp_client w
    /\ (exists later, messages (Chat.session (chat w0)) = messages s1 ++ later)
    /\ user_inputs (Chat.session (chat w0)) = user_inputs s1
    /\ Chat.llm_log (chat w0) = Chat.llm_log (chat w) ++ reqs
    /\ match r_q with
       | Ok v => Forall (fun q => Chat.toolConfig q = as_tool_config v) reqs
       | _ => reqs = []
       end.
Proof.
  intros E s1.
  apply bind_inv in E as [([] & w1 & E1 & E)|((r1 & E1 & N1) & _)].
  2:{ apply lift_chat_inv in E1 as (c & E1 & _). injection E1 as <- _.
      destruct (N1 tt). reflexivity. }
  apply lift_chat_inv in E1 as (c1 & E1 & ->). injection E1 as <-.
  apply bind_inv in E as [(wg & w1 & Eg & E)|((rg & Eg & Ng) & _)].
  2:{ injection Eg as <- _. destruct (Ng _ eq_refl). }
  injection Eg as <- <-.
  set (w1 := {| chat := _; kb := kb w |}) in *.
  assert (Hs1 : Chat.session (chat w1) = s1) by reflexivity.
  assert (Hl1 : Chat.llm_log (chat w1) = Chat.llm_log (chat w)) by reflexivity.
  apply bind_inv in E as [(v & w2 & E2 & E)|((r2 & E2 & N2) & _)].
  - apply choose_tools_outcome in E2 as (r_q & k & Eq & -> & P).
    destruct r_q as [v0|e|]; [injection P as <-|destruct P as [? [=]]|discriminate].
    rewrite Hs1 in Eq. pose proof Eq as Eq'.
    apply tool_retrieval_outcome in Eq' as [-> (ts & ->)].
    apply lift_chat_inv in E as (c3 & E & ->). cbn [chat kb mcp _mcp_client].
    pose proof (turn_grows _ _ _ _ _ _ _ _ E) as ((later & M) & U & _ & _).
    apply turn_requests in E as (reqs & L & F).
    exists (Ok (PyDict [("tools", PyList ts)])), reqs.
    split; [exact Eq|]. repeat split; eauto.
  - apply choose_tools_outcome in E2 as (r_q & k & Eq & -> & P).
    rewrite Hs1 in Eq. pose proof Eq as Eq'.
    apply tool_retrieval_outcome in Eq' as [-> Q].
    exists r_q, []. split; [exact Eq|]. cbn [chat kb mcp _mcp_client].
    repeat split; auto.
    + exists []. rewrite app_nil_r. reflexivity.
    + rewrite app_nil_r. reflexivity.
    + destruct r_q as [v|e|]; [|reflexivity|reflexivity].
      subst r2. destruct (N2 v). reflexivity.
Qed.

(** X27. Whatever [process_message] ends with: it raises nothing but
    [ChatError]; the user message is in the session, after the messages
    that were there, also when the turn failed; one retrieval was made,
    for the user inputs so far and 2 results with [use_kb_tools] and for
    the broad query and 100 results without; the knowledge base is
    otherwise as it was, and so is the MCP client. *)
Theorem X27_process_message_outcomes (fuel : nat) (user_input : string)
  (model_id : option string) (use_kb_tools : bool) (w w' : World)
  (r : Res Chat.TurnResult) :
  process_message env fuel user_input model_id use_kb_tools w = (r, w') ->
  let s1 := add_user_message user_input (Chat.session (chat w)) in
  (forall e, r = Raise e -> exc_class e = ChatError)
  /\ (exists later,
        messages (Chat.session (chat w'))
        = messages (Chat.session (chat w)) ++ user_message user_input :: later)
  /\ user_inputs (Chat.session (chat w'))
     = user_inputs (Chat.session (chat w)) ++ ["user: " +:+ user_input]
  /\ kb w' = KB.log_event (retrieval_call use_kb_tools s1) (kb w)
  /\ mcp w' = mcp w
  /\ _mcp_client w' = _mcp_client w.
Proof.
  intros E s1. unfold process_message, try_except in E.
  match type of E with context [bind ?m ?k w] =>
    destruct (bind m k w) as [r0 w0] eqn:E0 end.
  apply process_body_outcome in E0
    as (r_q & reqs & _ & K & X & C & (later & M) & U & _).
  assert (Hw : w' = w0) by (destruct r0; injection E as _ <-; reflexivity).
  subst w'. split.
  { intros e ->. destruct r0; try discriminate. injection E as <-. reflexivity. }
  split.
  { exists later. rewrite M. cbn [messages add_user_message].
    rewrite <- app_assoc. reflexivity. }
  repeat split; assumption.
Qed.

(** X28. The tool configuration of every request that [process_message]
    sends to the hosted LLM is the dict the knowledge base returned for
    this message, also when it lists no tool; the configuration that
    [initialize] made of the tools of the MCP server is not used.  When
    the query failed no request is sent. *)
Theorem X28_tools_come_from_the_knowledge_base (fuel : nat) (user_input : string)
  (model_id : option string) (use_kb_tools : bool) (w w' : World)
  (r : Res Chat.TurnResult) :
  process_message env fuel user_input model_id use_kb_tools w = (r, w') ->
  exists reqs,
    Chat.llm_log (chat w') = Chat.llm_log (chat w) ++ reqs
    /\ match tool_retrieval (kb_env env) use_kb_tools
               (add_user_message user_input (Chat.session (chat w))) (kb w) with
       | (Ok v, _) =>
           exists ts, v = PyDict [("tools", PyList ts)]
             /\ Forall (fun q => Chat.toolConfig q = Some [("tools", PyList ts)]) reqs
       | _ => reqs = []
       end.
Proof.
  intros E. unfold process_message, try_except in E.
  match type of E with context [bind ?m ?k w] =>
    destruct (bind m k w) as [r0 w0] eqn:E0 end.
  apply process_body_outcome in E0
    as (r_q & reqs & Eq & _ & _ & _ & _ & _ & L & F).
  assert (Hw : w' = w0) by (destruct r0; injection E as _ <-; reflexivity).
  subst w'. exists reqs. split; [exact L|]. rewrite Eq.
  destruct r_q as [v|e|]; try exact F.
  apply tool_retrieval_outcome in Eq as [_ (ts & ->)]. exists ts. split; [reflexivity|exact F].
Qed.

End ManagerFacts.

Section ManagerTools.
Import Session Manager ManagerMore.
Context `{PyRuntime}.
Variable env : Manager.Env.

Lemma list_tools_ok (menv : MCP.Env) (x x' : MCP.World) (tools : list MCP.Tool) :
  MCP.list_tools menv x = (Ok tools, x') ->
  tools = MCP.listing menv (length (MCP.calls x))
  /\ MCP._session (MCP.client x) = true
  /\ MCP._tools (MCP.client x') = Some tools
  /\ MCP.calls x' = MCP.calls x ++ [MCP.ListTools].
Proof.
  unfold MCP.list_tools, bind, get, try_except, MCP.session_list_tools,
    MCP.update_client, modify, raise, ret.
  destruct (MCP._session (MCP.client x)); cbn [negb]; [|discriminate].
  destruct (MCP.fails menv _); [discriminate|].
  intros [= <- <-]. repeat split.
Qed.

(** The lines shared by [initialize] and [sync_tools_to_kb], when they
    return. *)
Lemma list_convert_write_ok (fuel : nat) (w w' : World) :
  list_convert_write env fuel w = (Ok tt, w') ->
  exists tools key,
    tools = MCP.listing (mcp_env env) (length (MCP.calls (mcp w)))
    /\ tools <> []
    /\ MCP._tools (MCP.client (mcp w')) = Some tools
    /\ Chat._tool_config (chat w') = Some (MCP.bedrock_format tools)
    /\ KB.corpus (kb_env env) (kb w')
       = {[key := KB.jsonl (map MCP.tool_spec tools)]}.
Proof.
  intros E. unfold list_convert_write in E.
  apply bind_ok in E as (tools & w1 & E1 & E).
  apply lift_mcp_inv in E1 as (x & E1 & ->).
  apply list_tools_ok in E1 as (Ht & _ & Hx & _).
  apply bind_ok in E as ([] & w2 & E2 & E). injection E2 as <-.
  apply bind_ok in E as (res & w3 & E3 & E). injection E as <-.
  apply lift_kb_inv in E3 as (k & E3 & ->). cbn [chat kb mcp] in *.
  unfold KB.write_tools in E3. apply try_except_reraise_ok in E3.
  assert (Hne : tools <> []).
  { intros ->. discriminate E3. }
  apply write_ok in E3
    as (d & ts & items & key & [= <-] & [= <-] & [= <-] & _ & C & _).
  exists tools, key. repeat split; auto.
Qed.

(** X29. When [sync_tools_to_kb], or [initialize] with [is_init_mcp],
    returns, the manager, the client and the knowledge base agree on the
    tools: the tools the MCP server listed are the tools of the client,
    their conversion is the manager's tool configuration, and the corpus
    of the knowledge base is one object that holds one line for each of
    them, in the order of the listing.  The listing was not empty. *)
Theorem X29_sync_writes_the_listing (fuel : nat) (w w' : World) :
  sync_tools_to_kb env fuel w = (Ok tt, w')
  \/ initialize env fuel true w = (Ok tt, w') ->
  exists tools key,
    (exists n, tools = MCP.listing (mcp_env env) n)
    /\ tools <> []
    /\ MCP._tools (MCP.client (mcp w')) = Some tools
    /\ Chat._tool_config (chat w') = Some (MCP.bedrock_format tools)
    /\ KB.corpus (kb_env env) (kb w')
       = {[key := KB.jsonl (map MCP.tool_spec tools)]}.
Proof.
  intros [E|E].
  - unfold sync_tools_to_kb in E.
    apply try_except_reraise_ok in E.
    apply bind_ok in E as (w0 & w0' & Eg & E). injection Eg as <- <-.
    destruct (negb (_mcp_client w)); [discriminate|].
    apply list_convert_write_ok in E as (tools & key & Ht & P).
    exists tools, key. split; [eexists; exact Ht|exact P].
  - unfold initialize in E.
    apply try_except_reraise_ok in E.
    apply bind_ok in E as ([] & w1 & _ & E).
    apply bind_ok in E as ([] & w2 & _ & E).
    apply list_convert_write_ok in E as (tools & key & Ht & P).
    exists tools, key. split; [eexists; exact Ht|exact P].
Qed.

End ManagerTools.

Section ManagerCleanup.
Import Session Manager ManagerMore.
Variable env : Manager.Env.

(** X30. [cleanup] never raises.  After it the manager holds no client;
    when it held one, the client has let go of its contexts and its
    session, so that a tool asked for in a later turn is answered with
    an error, and the knowledge base is as it was.  A second [cleanup]
    does nothing. *)
Theorem X30_cleanup_outcome (w : World) :
  (MCP._session (MCP.client (mcp w)) = true ->
   MCP._session_context (MCP.client (mcp w)) = true) ->
  exists w',
    cleanup env w = (Ok tt, w')
    /\ _mcp_client w' = false
    /\ (_mcp_client w = true ->
        MCP.released (MCP.client (mcp w')) /\ Chat.mcp_session (chat w') = false)
    /\ kb w' = kb w
    /\ Chat.session (chat w') = Chat.session (chat w)
    /\ cleanup env w' = (Ok tt, w').
Proof.
  intros Hwf. unfold cleanup at 1, try_except at 1, bind, get.
  destruct (_mcp_client w) eqn:Hc.
  - destruct (disconnect_outcome (mcp_env env) (mcp w) Hwf)
      as (x & E & (R1 & R2 & R3) & _).
    unfold try_finally, try_except, lift_mcp. rewrite E.
    cbn [drop_mcp_client modify snd]. eexists. split; [reflexivity|].
    cbn [_mcp_client kb chat mcp with_mcp_session Chat.mcp_session Chat.session].
    split; [reflexivity|]. split; [intros _; split; [repeat split; assumption|exact R3]|].
    split; [reflexivity|]. split; [reflexivity|]. reflexivity.
  - exists w. cbn [ret]. split; [reflexivity|]. split; [exact Hc|].
    split; [discriminate|]. split; [reflexivity|]. split; [reflexivity|].
    unfold cleanup, try_except, bind, get. rewrite Hc. reflexivity.
Qed.

End ManagerCleanup.
